(** * Survey handler (survey_handler.py): state machine, profile chunking
      and advice engine, embedded as Rocq functions.

    Python strings are sequences of Unicode code points; the session data
    kept by the FSM context is a dictionary from field names to values;
    handlers are functions over a world made of the FSM state, the session
    data and the trace of outbound requests, and they either return or
    raise. *)

From stdpp Require Import gmap strings list.
From Stdlib Require Import ZArith NArith Lia.

Open Scope string_scope.
Open Scope list_scope.
Set Warnings "-register-all".

(** ** Python strings *)

Abbreviation str := (list N) (only parsing).

(** Literals are written as UTF-8 text and decoded to code points, so that
    [length] counts characters the way Python's [len] does. *)
Fixpoint utf8_decode (bs : list N) (pending : nat) (acc : N) : str :=
  match bs with
  | [] => []
  | b :: rest =>
      match pending with
      | O =>
          if (b <? 128)%N then b :: utf8_decode rest 0 0%N
          else if (b <? 224)%N then utf8_decode rest 1 (b - 192)%N
          else if (b <? 240)%N then utf8_decode rest 2 (b - 224)%N
          else utf8_decode rest 3 (b - 240)%N
      | S p =>
          let acc' := (acc * 64 + (b - 128))%N in
          match p with
          | O => acc' :: utf8_decode rest 0 0%N
          | S _ => utf8_decode rest p acc'
          end
      end
  end.

Definition utf8 (s : string) : str :=
  utf8_decode (map Ascii.N_of_ascii (String.list_ascii_of_string s)) 0 0%N.

(** [s.startswith(p)] *)
Fixpoint startswith (s p : str) : bool :=
  match p, s with
  | [], _ => true
  | c :: p', d :: s' => (c =? d)%N && startswith s' p'
  | _ :: _, [] => false
  end.

(** [needle in hay] on strings: substring test. *)
Fixpoint str_in (needle hay : str) : bool :=
  startswith hay needle ||
  match hay with
  | [] => false
  | _ :: hay' => str_in needle hay'
  end.

(** [s == t] on strings. *)
Definition str_eqb (s t : str) : bool := bool_decide (s = t).

(** [s.split('\n')]: never empty, [''] for the empty string. *)
Definition NL : N := 10%N.

Fixpoint split_lines (s : str) : list str :=
  match s with
  | [] => [[]]
  | c :: s' =>
      if (c =? NL)%N then [] :: split_lines s'
      else match split_lines s' with
           | [] => [[c]]
           | l :: ls => (c :: l) :: ls
           end
  end.

(** The simple case mappings of Unicode restricted to Basic Latin and to the
    Cyrillic block; every other code point is left alone.  They instantiate
    [str.upper] and [str.lower] on texts written in these two alphabets. *)
Definition simple_upper_char (c : N) : N :=
  if ((97 <=? c) && (c <=? 122))%N then (c - 32)%N
  else if ((1072 <=? c) && (c <=? 1103))%N then (c - 32)%N
  else if ((1104 <=? c) && (c <=? 1119))%N then (c - 80)%N
  else c.

Definition simple_lower_char (c : N) : N :=
  if ((65 <=? c) && (c <=? 90))%N then (c + 32)%N
  else if ((1040 <=? c) && (c <=? 1071))%N then (c + 32)%N
  else if ((1024 <=? c) && (c <=? 1039))%N then (c + 80)%N
  else c.

Definition simple_upper (s : str) : str := map simple_upper_char s.
Definition simple_lower (s : str) : str := map simple_lower_char s.

(** ** Parsing the option letter (process_survey_answer, lines 322-345) *)

(** The four checks of the [if]/[elif] chain, named after the log line each
    one writes. *)
Inductive rule := PrefixColon | PrefixSpace | ExactLetter | IsolatedToken.

#[global] Instance rule_eq_dec : EqDecision rule.
Proof. solve_decision. Defined.

Definition option_letters : list str :=
  [utf8 "A"; utf8 "B"; utf8 "C"; utf8 "D"].

Section Parser.

(** [str.upper], the Unicode upper-casing of Python. *)
Variable upper : str -> str.

Definition rule_holds (r : rule) (text opt : str) : bool :=
  match r with
  | PrefixColon => startswith text (opt ++ utf8 ":")
  | PrefixSpace => startswith text (opt ++ utf8 " ")
  | ExactLetter => str_eqb (upper text) opt
  | IsolatedToken =>
      str_in (utf8 " " ++ opt ++ utf8 " ") (utf8 " " ++ upper text ++ utf8 " ")
  end.

(** Body of the loop for one letter: the first check that holds. *)
Definition match_letter (text opt : str) : option rule :=
  if rule_holds PrefixColon text opt then Some PrefixColon
  else if rule_holds PrefixSpace text opt then Some PrefixSpace
  else if rule_holds ExactLetter text opt then Some ExactLetter
  else if rule_holds IsolatedToken text opt then Some IsolatedToken
  else None.

(** [for opt in ["A", "B", "C", "D"]: ... break] *)
Fixpoint parse_letters (text : str) (opts : list str) : option (str * rule) :=
  match opts with
  | [] => None
  | opt :: rest =>
      match match_letter text opt with
      | Some r => Some (opt, r)
      | None => parse_letters text rest
      end
  end.

Definition parse_option (text : str) : option (str * rule) :=
  parse_letters text option_letters.

(** The parser as the specification words it: the four rules in order,
    each tried on every letter before the next rule is considered. *)
Fixpoint first_letter_with (r : rule) (text : str) (opts : list str) : option str :=
  match opts with
  | [] => None
  | opt :: rest =>
      if rule_holds r text opt then Some opt else first_letter_with r text rest
  end.

Fixpoint parse_rules (text : str) (rules : list rule) : option (str * rule) :=
  match rules with
  | [] => None
  | r :: rest =>
      match first_letter_with r text option_letters with
      | Some opt => Some (opt, r)
      | None => parse_rules text rest
      end
  end.

Definition parse_option_by_rule (text : str) : option (str * rule) :=
  parse_rules text [PrefixColon; PrefixSpace; ExactLetter; IsolatedToken].

End Parser.

(** ** Python values, exceptions and results *)

(** What the handlers keep in the session data: [None], booleans, integers,
    strings, lists and (insertion-ordered) dictionaries with string keys. *)
Inductive value :=
| VNone
| VBool (b : bool)
| VInt (z : Z)
| VStr (s : str)
| VList (l : list value)
| VDict (d : list (str * value)).

Inductive exn :=
| IndexError
| KeyError
| TypeError
| AttributeError
| UnboundLocalError
| ValueError
| ExternalError    (* raised by a collaborator: catalog, classifier, gateway *)
| OutOfFuel.       (* not a Python exception: the loop ran out of its steps *)

Inductive result (A : Type) :=
| Ok (a : A)
| Raise (e : exn).
Arguments Ok {A} a.
Arguments Raise {A} e.

(** Truth value of an object, as tested by [if x:] and [not x]. *)
Definition truthy (v : value) : bool :=
  match v with
  | VNone => false
  | VBool b => b
  | VInt z => negb (z =? 0)%Z
  | VStr s => negb (bool_decide (s = []))
  | VList l => match l with [] => false | _ => true end
  | VDict d => match d with [] => false | _ => true end
  end.

Definition len {A} (l : list A) : Z := Z.of_nat (length l).

(** [len(x)] on a value. *)
Definition py_len (v : value) : result Z :=
  match v with
  | VStr s => Ok (len s)
  | VList l => Ok (len l)
  | VDict d => Ok (len d)
  | _ => Raise TypeError
  end.

(** Integers usable as an index or in arithmetic ([bool] is an [int]). *)
Definition as_int (v : value) : option Z :=
  match v with
  | VInt z => Some z
  | VBool b => Some (if b then 1 else 0)%Z
  | _ => None
  end.

(** [l[i]] on a list: negative indices count from the end. *)
Definition index_at {A} (l : list A) (z : Z) : result A :=
  let i := if (z <? 0)%Z then (z + len l)%Z else z in
  if (i <? 0)%Z then Raise IndexError
  else match l !! Z.to_nat i with
       | Some x => Ok x
       | None => Raise IndexError
       end.

Definition py_index {A} (l : list A) (v : value) : result A :=
  match as_int v with
  | Some z => index_at l z
  | None => Raise TypeError
  end.

(** [i + 1] *)
Definition py_succ (v : value) : result Z :=
  match as_int v with
  | Some z => Ok (z + 1)%Z
  | None => Raise TypeError
  end.

(** [d[k] = v] on a dictionary: an existing key keeps its place. *)
Fixpoint dict_set (d : list (str * value)) (k : str) (v : value) : list (str * value) :=
  match d with
  | [] => [(k, v)]
  | (k', v') :: d' =>
      if str_eqb k' k then (k', v) :: d' else (k', v') :: dict_set d' k v
  end.

Definition setitem (c : value) (k : str) (v : value) : result value :=
  match c with
  | VDict d => Ok (VDict (dict_set d k v))
  | _ => Raise TypeError
  end.

(** [d[k]] and [d.get(k)] on a dictionary literal keyed by strings. *)
Fixpoint assoc {A} (d : list (str * A)) (k : str) : option A :=
  match d with
  | [] => None
  | (k', a) :: d' => if str_eqb k' k then Some a else assoc d' k
  end.

Definition getitem {A} (d : list (str * A)) (k : str) : result A :=
  match assoc d k with
  | Some a => Ok a
  | None => Raise KeyError
  end.

(** ** The world a handler runs in *)

Inductive fsm_state := answering_questions | viewing.

#[global] Instance fsm_state_eq_dec : EqDecision fsm_state.
Proof. solve_decision. Defined.

Inductive level := INFO | WARNING | ERROR.

(** Reply markups, by what they offer. *)
Inductive markup :=
| NoMarkup
| MainKeyboard                          (* get_main_keyboard() *)
| CancelKeyboard                        (* the single cancel button *)
| ReadyKeyboard                         (* ready / cancel *)
| OptionsKeyboard (buttons : list str)  (* one button per option, then cancel *)
| ConfirmOverwriteButtons               (* confirm_survey / cancel_survey *)
| AdviceButton                          (* get_advice *)
| DetailsButtons                        (* get_advice / view_profile *)
| AdviceFollowUp                        (* get_advice / view_profile / main_menu *)
| StartSurveyButton                     (* start_survey *)
| SurveyOrMenuButtons                   (* start_survey / main_menu *)
| ProfileButtons                        (* restart_survey / get_advice / main_menu *)
| ViewButtons                           (* get_advice / restart_survey / main_menu *)
| ConfirmResetButtons.                  (* confirm_profile_reset / cancel_profile_reset *)

(** Message templates, with the interpolated pieces as arguments. *)
Inductive body :=
| SurveyCancelled
| NoActiveSurvey
| ConfirmOverwrite
| SurveyIntro
| FirstQuestion (text : str)
| DemoQuestion (n total : Z) (text : str)
| VasiniIntro                            (* ends with the ready prompt *)
| VasiniQuestion (n : Z) (text : str)
| ChooseAgain (n : Z) (text : str)
| Interpretation (text : str)
| SurveyFinished
| GenerationFailed                       (* asks to take the survey again *)
| ProfileText (text : str)
| DetailsNotFound
| BackToMenu
| ReturnToMenu
| AdviceText (text : str)
| WhatNext
| ProfileResetDone                       (* the reset went through *)
| OfferSurveyForAdvice                   (* advice needs a profile first *)
| NoProfileYet
| ProfileNotFound
| MainMenu
| OverwriteCancelled                     (* the profile stays as it is *)
| ConfirmReset                           (* asks before the profile is reset *)
| ResetCancelled.

Inductive event :=
| Answer (b : body) (m : markup)   (* message.answer(...) *)
| EditText (b : body)              (* processing_message.edit_text(...) *)
| DeleteMessage                    (* ....delete() *)
| ChatAction                       (* send_chat_action(..., "typing") *)
| CallbackAnswer (note : string)   (* callback.answer(...) *)
| Log (l : level) (what : string)  (* logger.info / warning / error *)
| RailwayPrint (l : level) (what : string).

Record world := World {
  fsm : option fsm_state;           (* state.get_state() *)
  data : gmap string value;         (* state.get_data() *)
  trace : list event;               (* outbound requests, oldest first *)
  draws : nat                       (* random draws made so far *)
}.

(** A handler runs in a world and returns or raises; what it did before
    raising stays done. *)
Definition handler (A : Type) : Type := world -> result A * world.

Definition ret {A} (a : A) : handler A := fun w => (Ok a, w).

Definition bind {A B} (c : handler A) (k : A -> handler B) : handler B :=
  fun w => match c w with
           | (Ok a, w') => k a w'
           | (Raise e, w') => (Raise e, w')
           end.

Definition lift {A} (r : result A) : handler A := fun w => (r, w).

Definition raise {A} (e : exn) : handler A := fun w => (Raise e, w).

(** [try: body  except Exception as e: on_error] *)
Definition try_except {A} (body : handler A) (on_error : exn -> handler A) : handler A :=
  fun w => match body w with
           | (Ok a, w') => (Ok a, w')
           | (Raise e, w') => on_error e w'
           end.

Notation "x <- c ;; k" := (bind c (fun x => k))
  (at level 100, c at next level, right associativity).
Notation "c ;; k" := (bind c (fun _ => k))
  (at level 100, right associativity).

Definition emit (e : event) : handler unit :=
  fun w => (Ok tt, World (fsm w) (data w) (trace w ++ [e]) (draws w)).

Definition log (l : level) (what : string) : handler unit := emit (Log l what).

(** [state.get_data()].  The handler works on its own copy of the data:
    what it changes reaches the store through [update_data] and [clear]
    only.  A storage that hands out the stored dictionaries themselves
    shows an in-place change of [answers] (lines 215, 377) in the store at
    once; the two agree wherever the handler goes on to [update_data] or
    [clear], and wherever it raises before the change. *)
Definition get_data : handler (gmap string value) := fun w => (Ok (data w), w).

Definition get_state : handler (option fsm_state) := fun w => (Ok (fsm w), w).

Definition set_state (s : option fsm_state) : handler unit :=
  fun w => (Ok tt, World s (data w) (trace w) (draws w)).

(** [state.update_data(k1=v1, ...)] *)
Definition update_data (kwargs : list (string * value)) : handler unit :=
  fun w => (Ok tt, World (fsm w)
                     (foldl (fun d kv => <[kv.1 := kv.2]> d) (data w) kwargs)
                     (trace w) (draws w)).

(** [state.clear()]: no state, empty data. *)
Definition clear : handler unit :=
  fun w => (Ok tt, World None ∅ (trace w) (draws w)).

(** ** Question catalog and inbound messages *)

(** A catalog entry is a dictionary; ["id"] and ["text"] are read on every
    question, ["options"] and ["interpretations"] only on inventory ones and
    may be missing. *)
Record question := Question {
  q_id : str;
  q_text : str;
  q_options : option (list (str * str));
  q_interpretations : option (list (str * str))
}.

(** [message.text] is [None] for a message without text (a photo, a sticker). *)
Record message := Message { text : option str }.

Definition text_value (m : message) : value :=
  match text m with
  | Some t => VStr t
  | None => VNone
  end.

(** [message.text == s] *)
Definition text_is (m : message) (s : str) : bool :=
  match text m with
  | Some t => str_eqb t s
  | None => false
  end.

Definition CANCEL_SURVEY : str := utf8 "❌ Отменить опрос".
Definition READY : str := utf8 "✅ Да, готов(а)".

(** [question["options"]] *)
Definition options_of (q : question) : result (list (str * str)) :=
  match q_options q with
  | Some o => Ok o
  | None => Raise KeyError
  end.

(** [question["interpretations"][option]] *)
Definition interpretation_of (q : question) (opt : str) : result str :=
  match q_interpretations q with
  | Some i => getitem i opt
  | None => Raise KeyError
  end.

(** One button [f"{option}: {text}"] per option, then the cancel button. *)
Definition options_keyboard (options : list (str * str)) : markup :=
  OptionsKeyboard
    (map (fun ot : list N * list N => (ot.1 ++ utf8 ": " ++ ot.2)%list) options
       ++ [CANCEL_SURVEY])%list.

(** ** Splitting a profile into messages (lines 507-521, 693-707, 813-827,
       912-926: four copies of the same loop) *)

Definition max_message_length : Z := 4000.

Definition add_line (st : list str * str) (line : str) : list str * str :=
  let '(parts, current_part) := st in
  if (len current_part + len line + 1 <=? max_message_length)%Z
  then (parts, current_part ++ line ++ [NL])
  else (parts ++ [current_part], line ++ [NL]).

Definition split_into_parts (profile : str) : list str :=
  let '(parts, current_part) := foldl add_line ([], []) (split_lines profile) in
  if negb (bool_decide (current_part = [])) then parts ++ [current_part] else parts.

(** The texts sent for a profile: one message, or the parts. *)
Definition profile_messages (profile : str) : list str :=
  if (max_message_length <? len profile)%Z then split_into_parts profile
  else [profile].

(** The buttons go under the last part only. *)
Fixpoint send_parts (parts : list str) (buttons : markup) : handler unit :=
  match parts with
  | [] => ret tt
  | [part] => emit (Answer (ProfileText part) buttons)
  | part :: rest => emit (Answer (ProfileText part) NoMarkup) ;; send_parts rest buttons
  end.

Definition send_profile (profile : str) (buttons : markup) : handler unit :=
  send_parts (profile_messages profile) buttons.

(** ** The survey state machine *)

Section Survey.

(** Collaborators living outside this file. *)
Variable upper : str -> str.                      (* str.upper *)
Variable demo_questions : list question.          (* get_demo_questions() *)
Variable all_vasini_questions : result (list question).
                                                  (* get_all_vasini_questions() *)
Variable get_personality_type_from_answers : value -> result (value * value * value).
Variable generate_profile : value -> result (option str).
                      (* the gateway: the ["details"] entry of its answer *)

(** start_survey *)
Definition start_survey : handler unit :=
  user_data <- get_data ;;
  let has_profile := default (VBool false) (user_data !! "profile_completed") in
  if truthy has_profile then
    emit (Answer ConfirmOverwrite ConfirmOverwriteButtons)
  else
    emit (Answer SurveyIntro NoMarkup) ;;
    first <- lift (index_at demo_questions 0) ;;
    emit (Answer (FirstQuestion (q_text first)) CancelKeyboard) ;;
    set_state (Some answering_questions) ;;
    update_data [("question_index", VInt 0);
                 ("question_type", VStr (utf8 "demo"));
                 ("answers", VDict []);
                 ("is_demo_questions", VBool true)] ;;
    log INFO "начал опрос".

(** confirm_restart_survey: the confirmed branch of the overwrite dialog *)
Definition confirm_restart_survey : handler unit :=
  emit DeleteMessage ;;
  update_data [("answers", VDict []);
               ("profile_completed", VBool false);
               ("profile_text", VStr []);
               ("personality_type", VNone)] ;;
  start_survey ;;
  emit (CallbackAnswer "Начинаем опрос заново").

(** confirm_profile_reset: the confirmed branch of the reset dialog *)
Definition confirm_profile_reset : handler unit :=
  update_data [("answers", VDict []);
               ("profile_completed", VBool false);
               ("profile_text", VStr []);
               ("profile_details", VStr []);
               ("personality_type", VNone);
               ("waiting_for_vasini_confirmation", VBool false);
               ("question_index", VInt 0);
               ("is_demo_questions", VBool true)] ;;
  emit DeleteMessage ;;
  emit (Answer ProfileResetDone NoMarkup) ;;
  start_survey ;;
  emit (CallbackAnswer "Профиль сброшен, начинаем опрос заново") ;;
  log INFO "сбросил профиль и начал опрос заново".


(** complete_survey *)
Definition complete_survey (answers : value) : handler unit :=
  emit ChatAction ;;
  emit (Answer SurveyFinished NoMarkup) ;;          (* processing_message *)
  types <- lift (get_personality_type_from_answers answers) ;;
  let '(type_counts, primary_type, secondary_type) := types in
  try_except
    (profile_data <- lift (generate_profile answers) ;;
     let detailed_profile := default [] profile_data in
     log INFO "Получен детальный профиль" ;;
     set_state None ;;
     update_data [("answers", answers);
                  ("profile_completed", VBool true);
                  ("profile_details", VStr detailed_profile);
                  ("profile_text", VStr detailed_profile);
                  ("personality_type", primary_type);
                  ("secondary_type", secondary_type);
                  ("type_counts", type_counts)] ;;
     log INFO "Проверка сохранения детального профиля" ;;
     emit DeleteMessage ;;
     send_profile detailed_profile AdviceButton ;;
     emit (Answer BackToMenu MainKeyboard) ;;
     log INFO "завершил опрос, профиль сгенерирован")
    (fun e =>
     log ERROR "Ошибка при генерации профиля" ;;
     emit (EditText GenerationFailed) ;;
     emit (Answer ReturnToMenu MainKeyboard) ;;
     clear).

(** The [try]/[except] around [get_all_vasini_questions()]. *)
Definition load_vasini_questions : handler (list question) :=
  match all_vasini_questions with
  | Ok qs => log INFO "Загружено вопросов Vasini" ;; ret qs
  | Raise e =>
      log ERROR "Ошибка при загрузке вопросов Vasini" ;;
      emit (RailwayPrint ERROR "Не удалось загрузить вопросы Vasini, опрос будет недоступен") ;;
      ret []
  end.

(** The inventory question shown with its option buttons. *)
Definition show_vasini_question (b : Z -> str -> body) (what : string)
    (question_index : Z) (q : question) : handler unit :=
  options <- lift (options_of q) ;;
  log INFO what ;;
  emit (Answer (b (question_index + 1)%Z (q_text q)) (options_keyboard options)).

(** process_survey_answer *)
Definition process_survey_answer (m : message) : handler unit :=
  if text_is m CANCEL_SURVEY then
    clear ;;
    emit (Answer SurveyCancelled MainKeyboard)
  else
    data <- get_data ;;
    let question_index := default (VInt 0) (data !! "question_index") in
    let answers := default (VDict []) (data !! "answers") in
    let is_demo_questions := default (VBool true) (data !! "is_demo_questions") in
    vasini_questions <- load_vasini_questions ;;
    if truthy is_demo_questions then
      current_question <- lift (py_index demo_questions question_index) ;;
      answers <- lift (setitem answers (q_id current_question) (text_value m)) ;;
      question_index <- lift (py_succ question_index) ;;
      if (len demo_questions <=? question_index)%Z then
        emit (Answer VasiniIntro ReadyKeyboard) ;;
        update_data [("question_index", VInt 0);
                     ("answers", answers);
                     ("is_demo_questions", VBool false);
                     ("waiting_for_vasini_confirmation", VBool true)]
      else
        next_question <- lift (index_at demo_questions question_index) ;;
        emit (Answer (DemoQuestion (question_index + 1)%Z (len demo_questions)
                        (q_text next_question)) CancelKeyboard) ;;
        update_data [("question_index", VInt question_index);
                     ("answers", answers);
                     ("is_demo_questions", is_demo_questions)]
    else if truthy (default (VBool false) (data !! "waiting_for_vasini_confirmation")) then
      if text_is m READY then
        current_question <- lift (py_index vasini_questions question_index) ;;
        options <- lift (options_of current_question) ;;
        log INFO "Показываем вопрос 1 с вариантами ответов" ;;
        index <- lift (py_succ question_index) ;;
        emit (Answer (VasiniQuestion index (q_text current_question))
                (options_keyboard options)) ;;
        update_data [("waiting_for_vasini_confirmation", VBool false)]
      else if text_is m CANCEL_SURVEY then
        clear ;;
        emit (Answer SurveyCancelled MainKeyboard)
      else
        (* [current_question] is read here, and no assignment on this
           path has bound it *)
        raise UnboundLocalError
    else
      current_question <- lift (py_index vasini_questions question_index) ;;
      log INFO "Получен ответ на вопрос" ;;
      match text m with
      | None => raise AttributeError          (* None.startswith *)
      | Some t =>
          match parse_option upper t with
          | None =>
              log WARNING "Не удалось распознать вариант ответа в тексте" ;;
              options <- lift (options_of current_question) ;;
              log INFO "Пользователь должен повторить выбор для вопроса" ;;
              index <- lift (py_succ question_index) ;;
              emit (Answer (ChooseAgain index (q_text current_question))
                      (options_keyboard options))
          | Some (option, _) =>
              log INFO "Распознан ответ" ;;
              answers <- lift (setitem answers (q_id current_question) (VStr option)) ;;
              try_except
                (interpretation <- lift (interpretation_of current_question option) ;;
                 emit (Answer (Interpretation interpretation) NoMarkup) ;;
                 emit ChatAction)
                (fun e => log ERROR "Ошибка при отправке интерпретации") ;;
              question_index <- lift (py_succ question_index) ;;
              if (len vasini_questions <=? question_index)%Z then
                complete_survey answers
              else
                next_question <- lift (index_at vasini_questions question_index) ;;
                show_vasini_question VasiniQuestion
                  "Показываем вопрос с вариантами ответов" question_index next_question ;;
                update_data [("question_index", VInt question_index);
                             ("answers", answers);
                             ("is_demo_questions", is_demo_questions)]
          end
      end.

(** show_profile_details *)
Definition show_profile_details : handler unit :=
  emit ChatAction ;;
  user_data <- get_data ;;
  let details_text := default (VStr []) (user_data !! "profile_details") in
  if negb (truthy details_text) then
    log INFO "Запрошен детальный профиль" ;;
    emit (Answer DetailsNotFound NoMarkup) ;;
    emit (CallbackAnswer "Детальный профиль не найден")
  else
    n <- lift (py_len details_text) ;;
    log INFO "Запрошен детальный профиль" ;;
    if (n <? 20)%Z then
      emit (Answer DetailsNotFound NoMarkup) ;;
      emit (CallbackAnswer "Детальный профиль не найден")
    else
      match details_text with
      | VStr profile =>
          send_profile profile DetailsButtons ;;
          emit (Answer BackToMenu MainKeyboard) ;;
          emit (CallbackAnswer "Детальный психологический профиль")
      | _ => raise AttributeError             (* no [split] on it *)
      end.

End Survey.

(** ** The advice engine: its tables *)

(** The canned advice of the fallback mode (get_personalized_advice). *)
Definition advice_by_type : list (list N * list (list N)) :=
  [ (utf8 "Интеллектуальный",
      [utf8 "🧠 Запланируйте 15-20 минут в день для чтения материалов по интересующей вас теме. Это поможет удовлетворить вашу потребность в интеллектуальном развитии.";
       utf8 "🧩 Попробуйте метод «пяти почему» при анализе проблемы — задавайте вопрос «почему» пять раз подряд, чтобы докопаться до первопричины."]);
    (utf8 "Эмоциональный",
      [utf8 "📓 Практикуйте «эмоциональный дневник»: записывайте свои эмоции в течение дня и их триггеры. Это помогает лучше понимать свои чувства и реакции.";
       utf8 "🧘 Используйте технику «дыхание 4-7-8»: вдох на 4 счета, задержка на 7, выдох на 8. Это эффективно снижает тревожность и помогает восстановить эмоциональный баланс."]);
    (utf8 "Практический",
      [utf8 "🐸 Используйте технику «ешьте лягушку»: начинайте день с самой сложной и неприятной задачи, и остальной день пройдет более продуктивно.";
       utf8 "⏱️ Применяйте правило «двух минут»: если задача требует менее двух минут, сделайте ее сразу, не откладывая — это значительно сократит ваш список дел."]);
    (utf8 "Творческий",
      [utf8 "📝 Практикуйте «утренние страницы»: после пробуждения напишите три страницы текста без цензуры и редактирования. Это стимулирует творческое мышление.";
       utf8 "🔄 Используйте технику «случайное слово»: выберите любое слово из словаря и попробуйте связать его с задачей, над которой работаете, чтобы найти новые идеи."]) ].

(** Keywords searched in the profile (extract_key_aspects). *)
Definition keywords : list (list N * list (list N)) :=
  [ (utf8 "Интеллектуальный",
      [utf8 "анализ"; utf8 "логика"; utf8 "мышление"; utf8 "интеллект"; utf8 "знания";
       utf8 "обучение"; utf8 "информация"; utf8 "понимание"; utf8 "исследование";
       utf8 "концепции"; utf8 "стратегическое мышление"; utf8 "критическое мышление";
       utf8 "абстрактное мышление"; utf8 "когнитивные процессы"; utf8 "рациональность";
       utf8 "любознательность"]);
    (utf8 "Эмоциональный",
      [utf8 "эмоции"; utf8 "чувства"; utf8 "эмпатия"; utf8 "сопереживание";
       utf8 "отношения"; utf8 "понимание других"; utf8 "эмоциональный интеллект";
       utf8 "интуиция"; utf8 "настроение"; utf8 "гармония"; utf8 "самосознание";
       utf8 "саморегуляция"; utf8 "внутренний мир"; utf8 "эмоциональная глубина";
       utf8 "чувствительность"; utf8 "психологическая гибкость"]);
    (utf8 "Практический",
      [utf8 "организация"; utf8 "планирование"; utf8 "эффективность"; utf8 "результат";
       utf8 "действие"; utf8 "дисциплина"; utf8 "методичность"; utf8 "пунктуальность";
       utf8 "продуктивность"; utf8 "цели"; utf8 "структура"; utf8 "процессы";
       utf8 "упорядоченность"; utf8 "последовательность"; utf8 "практичность";
       utf8 "прагматизм"; utf8 "конкретика"]);
    (utf8 "Творческий",
      [utf8 "творчество"; utf8 "креативность"; utf8 "воображение"; utf8 "идеи";
       utf8 "инновации"; utf8 "оригинальность"; utf8 "интуиция"; utf8 "вдохновение";
       utf8 "эстетика"; utf8 "экспрессия"; utf8 "искусство"; utf8 "дизайн";
       utf8 "нестандартное мышление"; utf8 "творческий потенциал"; utf8 "визуализация";
       utf8 "новаторство"; utf8 "экспериментирование"]);
    (utf8 "Аналитический тип",
      [utf8 "анализ данных"; utf8 "аналитика"; utf8 "системный подход"; utf8 "детали";
       utf8 "точность"; utf8 "структурирование"; utf8 "классификация"; utf8 "оценка";
       utf8 "закономерности"; utf8 "алгоритмы"; utf8 "методология"; utf8 "верификация";
       utf8 "сравнение"; utf8 "измерение"; utf8 "исследование"; utf8 "аргументация";
       utf8 "факты"; utf8 "логические связи"]) ].

(** Aspect phrases per type (extract_key_aspects). *)
Definition aspects : list (list N * list (list N)) :=
  [ (utf8 "Интеллектуальный",
      [utf8 "аналитическому мышлению"; utf8 "обработке информации";
       utf8 "стратегическому планированию"; utf8 "концептуальному мышлению";
       utf8 "поиску закономерностей"; utf8 "систематизации знаний";
       utf8 "критическому анализу"; utf8 "логическим рассуждениям";
       utf8 "глубокому пониманию"; utf8 "абстрактному мышлению";
       utf8 "поиску связей между концепциями"; utf8 "интеллектуальной любознательности"]);
    (utf8 "Эмоциональный",
      [utf8 "эмпатии"; utf8 "эмоциональному восприятию"; utf8 "чувственному опыту";
       utf8 "эмоциональному самоанализу"; utf8 "глубоким переживаниям";
       utf8 "интуитивному пониманию"; utf8 "эмоциональной осознанности";
       utf8 "сопереживанию"; utf8 "построению глубоких отношений";
       utf8 "эмоциональной восприимчивости"; utf8 "эмоциональному резонансу";
       utf8 "пониманию чувств других"]);
    (utf8 "Практический",
      [utf8 "организованности"; utf8 "структурированию задач";
       utf8 "достижению конкретных результатов"; utf8 "эффективному планированию";
       utf8 "практическому подходу"; utf8 "детальному анализу";
       utf8 "последовательным действиям"; utf8 "конкретным шагам";
       utf8 "организации процессов"; utf8 "управлению ресурсами";
       utf8 "оптимизации деятельности"; utf8 "доведению дел до конца"]);
    (utf8 "Творческий",
      [utf8 "нестандартному мышлению"; utf8 "творческой свободе";
       utf8 "генерации новых идей"; utf8 "креативному подходу";
       utf8 "образному мышлению"; utf8 "творческой визуализации";
       utf8 "поиску уникальных решений"; utf8 "эстетическому восприятию";
       utf8 "оригинальности"; utf8 "творческому самовыражению";
       utf8 "инновационным подходам"; utf8 "дивергентному мышлению"]);
    (utf8 "Аналитический тип",
      [utf8 "детальному анализу"; utf8 "систематизации информации";
       utf8 "выявлению закономерностей"; utf8 "точной оценке данных";
       utf8 "методологическому подходу"; utf8 "структурированию сложных проблем";
       utf8 "последовательной аргументации"; utf8 "построению логических моделей";
       utf8 "фактологическому анализу"; utf8 "исследовательскому мышлению";
       utf8 "категоризации"; utf8 "точности формулировок"]) ].

(** Emoji per type (generate_unique_advice). *)
Definition emoji_map : list (list N * list (list N)) :=
  [ (utf8 "Интеллектуальный",
      [utf8 "🧠"; utf8 "📚"; utf8 "🔍"; utf8 "🧩"; utf8 "📝"]);
    (utf8 "Эмоциональный",
      [utf8 "❤️"; utf8 "🧘"; utf8 "🙏"; utf8 "🌱"; utf8 "🫂"]);
    (utf8 "Практический",
      [utf8 "⏱️"; utf8 "✅"; utf8 "📊"; utf8 "🚫"; utf8 "📋"]);
    (utf8 "Творческий",
      [utf8 "🎨"; utf8 "🔄"; utf8 "🌈"; utf8 "🧠"; utf8 "🎭"]);
    (utf8 "Аналитический тип",
      [utf8 "📊"; utf8 "🔍"; utf8 "📈"; utf8 "🧮"; utf8 "📋"]) ].

(** Techniques per type. *)
Definition techniques : list (list N * list (list N)) :=
  [ (utf8 "Интеллектуальный",
      [utf8 "технику глубокого чтения"; utf8 "метод интервального повторения";
       utf8 "технику создания ментальных карт"; utf8 "метод Фейнмана";
       utf8 "технику активного вопрошания"; utf8 "SQ3R метод для работы с текстами";
       utf8 "технику поиска межпредметных связей"; utf8 "дебаты с самим собой";
       utf8 "технику ведения интеллектуального дневника"; utf8 "метод соединения идей"]);
    (utf8 "Эмоциональный",
      [utf8 "практику осознанности"; utf8 "технику эмоционального дистанцирования";
       utf8 "методику прогрессивной мышечной релаксации"; utf8 "практику благодарности";
       utf8 "технику эмоционального картирования"; utf8 "метод «заземления» эмоций";
       utf8 "журнал эмоций"; utf8 "практику сострадания к себе";
       utf8 "технику эмоционального резонанса";
       utf8 "метод переключения эмоциональных состояний"]);
    (utf8 "Практический",
      [utf8 "систему Getting Things Done"; utf8 "технику Помодоро"; utf8 "метод «3-2-1»";
       utf8 "технику единой задачи"; utf8 "блокирование времени";
       utf8 "правило двух минут"; utf8 "технику контекстных списков";
       utf8 "еженедельный обзор задач"; utf8 "метод PARA для организации информации";
       utf8 "технику выравнивания энергии"]);
    (utf8 "Творческий",
      [utf8 "технику случайных стимулов"; utf8 "метод шести шляп";
       utf8 "технику творческих ограничений"; utf8 "метод мозгового штурма наоборот";
       utf8 "практику творческих комбинаций"; utf8 "метод синектики";
       utf8 "технику 'что если'"; utf8 "метод SCAMPER";
       utf8 "технику дивергентного мышления"; utf8 "метод случайных ассоциаций"]);
    (utf8 "Аналитический тип",
      [utf8 "технику декомпозиции сложных проблем"; utf8 "метод SWOT-анализа";
       utf8 "технику критериального ранжирования"; utf8 "методологию 5W1H";
       utf8 "технику последовательной декомпозиции";
       utf8 "прием проверки противоположных гипотез";
       utf8 "технику анализа корневых причин";
       utf8 "метод систематической проверки фактов";
       utf8 "прием построения причинно-следственных диаграмм"; utf8 "метод ABC-анализа"]) ].

(** Contexts of use per type. *)
Definition contexts : list (list N * list (list N)) :=
  [ (utf8 "Интеллектуальный",
      [utf8 "в процессе обучения новому"; utf8 "при работе со сложной информацией";
       utf8 "при подготовке к важной презентации";
       utf8 "во время интеллектуального застоя"; utf8 "для улучшения запоминания";
       utf8 "при анализе сложных проблем"; utf8 "для развития критического мышления";
       utf8 "при работе с абстрактными концепциями"; utf8 "для систематизации знаний";
       utf8 "при освоении новой области знаний"]);
    (utf8 "Эмоциональный",
      [utf8 "в стрессовых ситуациях"; utf8 "при общении с сложными людьми";
       utf8 "когда вы чувствуете эмоциональное выгорание"; utf8 "в моменты тревоги";
       utf8 "для улучшения отношений с близкими"; utf8 "при эмоциональных перепадах";
       utf8 "в ситуациях конфликта"; utf8 "для усиления позитивных эмоций";
       utf8 "во время важных переговоров"; utf8 "в периоды эмоциональной нестабильности"]);
    (utf8 "Практический",
      [utf8 "при большом объеме задач"; utf8 "в начале рабочего дня";
       utf8 "при работе над долгосрочными проектами";
       utf8 "когда чувствуете прокрастинацию"; utf8 "при планировании сложных задач";
       utf8 "для повышения личной эффективности"; utf8 "при внедрении новых привычек";
       utf8 "при управлении несколькими проектами";
       utf8 "для достижения баланса работы и отдыха";
       utf8 "при оптимизации рабочих процессов"]);
    (utf8 "Творческий",
      [utf8 "при работе над творческими проектами";
       utf8 "когда нужны нестандартные решения"; utf8 "в моменты творческого блока";
       utf8 "при генерации новых идей"; utf8 "для развития творческого мышления";
       utf8 "когда нужно преодолеть шаблонное мышление";
       utf8 "для нахождения новых подходов к старым проблемам";
       utf8 "при разработке инноваций"; utf8 "в коллективном творческом процессе";
       utf8 "для расширения границ мышления"]);
    (utf8 "Аналитический тип",
      [utf8 "при анализе сложных данных";
       utf8 "когда нужно принять обоснованное решение";
       utf8 "при необходимости объективной оценки";
       utf8 "во время сбора и анализа информации";
       utf8 "для выявления скрытых закономерностей";
       utf8 "при разработке аналитических моделей"; utf8 "для построения прогнозов";
       utf8 "при валидации гипотез";
       utf8 "в ситуациях, требующих точности и объективности";
       utf8 "при решении многофакторных задач"]) ].

(** Outcomes per type. *)
Definition results : list (list N * list (list N)) :=
  [ (utf8 "Интеллектуальный",
      [utf8 "глубину понимания"; utf8 "долгосрочное запоминание";
       utf8 "аналитические способности"; utf8 "когнитивную гибкость";
       utf8 "критическое мышление"; utf8 "способность к синтезу информации";
       utf8 "интеллектуальную выносливость"; utf8 "качество принимаемых решений";
       utf8 "скорость обработки информации"; utf8 "концептуальное мышление"]);
    (utf8 "Эмоциональный",
      [utf8 "эмоциональную устойчивость"; utf8 "глубину эмпатии";
       utf8 "эмоциональный интеллект"; utf8 "способность к самосостраданию";
       utf8 "качество отношений"; utf8 "эмоциональное благополучие";
       utf8 "способность к регуляции эмоций"; utf8 "осознанность в отношениях";
       utf8 "внутреннюю гармонию"; utf8 "резилиентность"]);
    (utf8 "Практический",
      [utf8 "личную продуктивность"; utf8 "эффективность рабочих процессов";
       utf8 "достижение целей"; utf8 "управление временем"; utf8 "жизненный баланс";
       utf8 "организационные навыки"; utf8 "способность доводить дела до конца";
       utf8 "качество результатов"; utf8 "стабильность рабочих привычек";
       utf8 "уверенность в принятии решений"]);
    (utf8 "Творческий",
      [utf8 "творческую продуктивность"; utf8 "оригинальность идей";
       utf8 "способность к нестандартному мышлению"; utf8 "инновационный потенциал";
       utf8 "творческую уверенность"; utf8 "креативное решение проблем";
       utf8 "гибкость мышления"; utf8 "способность видеть возможности";
       utf8 "творческую смелость"; utf8 "расширение творческих горизонтов"]);
    (utf8 "Аналитический тип",
      [utf8 "точность анализа"; utf8 "объективность суждений";
       utf8 "глубину исследования"; utf8 "обоснованность выводов";
       utf8 "эффективность системного подхода";
       utf8 "способность выявлять закономерности"; utf8 "качество аналитических моделей";
       utf8 "методологическую точность"; utf8 "достоверность результатов";
       utf8 "способность к комплексной оценке"]) ].

Definition default_type : str := utf8 "Интеллектуальный".

(** ** The advice engine: its functions *)

(** [d.get(k, dflt)] with any object as the key: lists and dictionaries
    cannot be hashed, and only a string can be found among string keys. *)
Definition dict_get {A} (d : list (str * A)) (k : value) (dflt : A) : result A :=
  match k with
  | VStr s => Ok (default dflt (assoc d s))
  | VList _ | VDict _ => Raise TypeError
  | _ => Ok dflt
  end.

(** [x in container] for a string [x]. *)
Definition py_contains (container : value) (x : str) : result bool :=
  match container with
  | VList l =>
      Ok (existsb (fun v => match v with VStr s => str_eqb s x | _ => false end) l)
  | VStr s => Ok (str_in x s)
  | VDict d => Ok (bool_decide (is_Some (assoc d x)))
  | _ => Raise TypeError
  end.

(** [max(items, key=lambda x: x[1])]: the first item with the largest count. *)
Fixpoint max_from (best : str * nat) (items : list (str * nat)) : str * nat :=
  match items with
  | [] => best
  | it :: rest => max_from (if (best.2 <? it.2)%nat then it else best) rest
  end.

Definition py_max (items : list (str * nat)) : result (str * nat) :=
  match items with
  | [] => Raise ValueError
  | it :: rest => Ok (max_from it rest)
  end.

(** [x[-20:]] *)
Definition last_20 {A} (l : list A) : list A := drop (length l - 20) l.

Section Advice.

Variable lower : str -> str.       (* str.lower *)
Variable rng : nat -> nat.         (* the draws the random module makes, in order *)
Variable fuel : nat.               (* steps granted to the resampling loop *)

(** [random.choice(seq)] *)
Definition random_choice {A} (seq : list A) : handler A :=
  fun w =>
    match seq !! (rng (draws w) mod length seq)%nat with
    | Some x => (Ok x, World (fsm w) (data w) (trace w) (S (draws w)))
    | None => (Raise IndexError, w)
    end.

Definition all_keywords : list str := concat (map snd keywords).

Definition found_keywords (profile_text : str) : list str :=
  filter (fun keyword => Is_true (str_in (lower keyword) (lower profile_text)))
         all_keywords.

(** The tally of one type over the found keywords. *)
Definition type_count (found : list str) (type_keywords : list str) : nat :=
  length (filter (fun keyword => lower keyword ∈ map lower type_keywords) found).

Definition type_counts (found : list str) : list (str * nat) :=
  map (fun kv : list N * list (list N) => (kv.1, type_count found kv.2)) keywords.

(** [personality_type != dominant_type] *)
Definition differs (dominant_type : str) (personality_type : value) : bool :=
  match personality_type with
  | VStr s => negb (str_eqb dominant_type s)
  | _ => true
  end.

(** extract_key_aspects *)
Definition extract_key_aspects (profile_text personality_type : value)
    : handler (list str) :=
  log INFO "Запрошены аспекты для типа личности" ;;
  match profile_text with
  | VStr profile =>
      let found := found_keywords profile in
      match found with
      | _ :: _ =>
          dominant <- lift (py_max (type_counts found)) ;;
          let dominant_type := dominant.1 in
          let dominant_aspects :=
            default (default [] (assoc aspects default_type)) (assoc aspects dominant_type) in
          personality_aspects <-
            lift (dict_get aspects personality_type (default [] (assoc aspects default_type))) ;;
          if differs dominant_type personality_type
          then ret (personality_aspects ++ dominant_aspects)
          else ret personality_aspects
      | [] =>
          lift (dict_get aspects personality_type (default [] (assoc aspects default_type)))
      end
  | _ => raise AttributeError        (* no [lower] on it *)
  end.

(** The sentence template. *)
Definition compose (emoji aspect technique result context : str) : str :=
  emoji ++ utf8 " Учитывая вашу склонность к " ++ lower aspect
    ++ utf8 ", попробуйте " ++ technique
    ++ utf8 ", чтобы усилить " ++ result
    ++ utf8 ". Это особенно полезно " ++ context ++ utf8 ".".

(** [while advice in history and attempts < 5: ...], returning the advice
    and the number of times it was composed again. *)
Fixpoint resample (steps : nat)
    (aspect_list emoji_list technique_list context_list result_list : list str)
    (history : value) (attempts : Z) (advice : str) : handler (str * Z) :=
  used <- lift (py_contains history advice) ;;
  if used && (attempts <? 5)%Z then
    match steps with
    | O => raise OutOfFuel
    | S steps' =>
        aspect <- random_choice aspect_list ;;
        technique <- random_choice technique_list ;;
        context <- random_choice context_list ;;
        result <- random_choice result_list ;;
        emoji <- random_choice emoji_list ;;
        resample steps' aspect_list emoji_list technique_list context_list result_list
          history (attempts + 1)%Z (compose emoji aspect technique result context)
    end
  else ret (advice, attempts).

(** generate_unique_advice, with the count of resamplings kept. *)
Definition generate_unique_advice_counted (profile_text personality_type history : value)
    : handler (str * Z) :=
  n <- lift (py_len profile_text) ;;
  log INFO "Генерация уникального совета на основе профиля" ;;
  extracted <- extract_key_aspects profile_text personality_type ;;
  let aspect_list :=
    match extracted with [] => [utf8 "саморазвитию"] | _ => extracted end in
  emoji_list <-
    lift (dict_get emoji_map personality_type
            (default [utf8 "💡"] (assoc emoji_map default_type))) ;;
  emoji <- random_choice emoji_list ;;
  aspect <- random_choice aspect_list ;;
  technique_list <-
    lift (dict_get techniques personality_type
            (default [utf8 "практику саморазвития"] (assoc techniques default_type))) ;;
  technique <- random_choice technique_list ;;
  context_list <-
    lift (dict_get contexts personality_type
            (default [utf8 "в повседневной жизни"] (assoc contexts default_type))) ;;
  context <- random_choice context_list ;;
  result_list <-
    lift (dict_get results personality_type
            (default [utf8 "эффективность"] (assoc results default_type))) ;;
  result <- random_choice result_list ;;
  out <- resample fuel aspect_list emoji_list technique_list context_list result_list
           history 0%Z (compose emoji aspect technique result context) ;;
  log INFO "Сгенерирован уникальный совет" ;;
  ret out.

Definition generate_unique_advice (profile_text personality_type history : value)
    : handler str :=
  out <- generate_unique_advice_counted profile_text personality_type history ;;
  ret out.1.

(** get_personalized_advice *)
Definition get_personalized_advice (personality_type profile_text used_advices : value)
    : handler str :=
  if negb (truthy profile_text) then
    log WARNING "Текст профиля отсутствует, используем стандартные советы" ;;
    fallback <- lift (getitem advice_by_type default_type) ;;
    advice_list <- lift (dict_get advice_by_type personality_type fallback) ;;
    advice <- random_choice advice_list ;;
    log INFO "Выбран стандартный совет для типа личности" ;;
    ret advice
  else
    generate_unique_advice profile_text personality_type
      (if truthy used_advices then used_advices else VList []).

(** get_advice_callback *)
Definition get_advice_callback : handler unit :=
  emit ChatAction ;;
  user_data <- get_data ;;
  let personality_type := default (VStr default_type) (user_data !! "personality_type") in
  let profile_details := default (VStr []) (user_data !! "profile_details") in
  let used_advices := default (VList []) (user_data !! "used_advices") in
  advice <- get_personalized_advice personality_type profile_details used_advices ;;
  match used_advices with
  | VList l =>
      let appended := l ++ [VStr advice] in
      let kept := if (20 <? len appended)%Z then last_20 appended else appended in
      update_data [("used_advices", VList kept)] ;;
      emit (Answer (AdviceText advice) NoMarkup) ;;
      emit (Answer WhatNext AdviceFollowUp) ;;
      emit (Answer BackToMenu MainKeyboard) ;;
      emit (CallbackAnswer "Совет получен")
  | _ => raise AttributeError          (* no [append] on it *)
  end.

End Advice.

(** ** The other handlers of the profile and of the advice *)

(** [not details_text or len(details_text) < 20] *)
Definition details_missing (details_text : value) : result bool :=
  if negb (truthy details_text) then Ok true
  else match py_len details_text with
       | Ok n => Ok (n <? 20)%Z
       | Raise e => Raise e
       end.

(** The profile sent in one message or in parts, as the three display
    handlers do after their checks. *)
Definition send_details (details_text : value) (buttons : markup) : handler unit :=
  match details_text with
  | VStr profile => send_profile profile buttons
  | _ => raise AttributeError              (* no [split] on it *)
  end.

(** view_profile_callback *)
Definition view_profile_callback : handler unit :=
  emit ChatAction ;;
  user_data <- get_data ;;
  let profile_completed := default (VBool false) (user_data !! "profile_completed") in
  if negb (truthy profile_completed) then
    emit (Answer ProfileNotFound SurveyOrMenuButtons) ;;
    emit (Answer ReturnToMenu MainKeyboard) ;;
    emit (CallbackAnswer "Профиль не найден")
  else
    let details_text := default (VStr []) (user_data !! "profile_details") in
    missing <- lift (details_missing details_text) ;;
    if missing then
      emit (Answer DetailsNotFound NoMarkup) ;;
      emit (CallbackAnswer "Детальный профиль не найден")
    else
      send_details details_text ViewButtons ;;
      emit (Answer BackToMenu MainKeyboard) ;;
      emit (CallbackAnswer "Профиль загружен") ;;
      log INFO "просмотрел свой профиль".

(** command_profile *)
Definition command_profile : handler unit :=
  user_data <- get_data ;;
  let profile_completed := default (VBool false) (user_data !! "profile_completed") in
  if truthy profile_completed then
    emit ChatAction ;;
    let details_text := default (VStr []) (user_data !! "profile_details") in
    missing <- lift (details_missing details_text) ;;
    if missing then
      emit (Answer DetailsNotFound NoMarkup)
    else
      send_details details_text ProfileButtons ;;
      set_state (Some viewing)
  else
    emit (Answer NoProfileYet StartSurveyButton).







Section AdviceCommand.

Variable lower : str -> str.
Variable rng : nat -> nat.
Variable fuel : nat.

(** command_advice *)
Definition command_advice : handler unit :=
  user_data <- get_data ;;
  let profile_completed := default (VBool false) (user_data !! "profile_completed") in
  if truthy profile_completed then
    let personality_type := default (VStr default_type) (user_data !! "personality_type") in
    let profile_details := default (VStr []) (user_data !! "profile_details") in
    let used_advices := default (VList []) (user_data !! "used_advices") in
    advice <- get_personalized_advice lower rng fuel personality_type profile_details
                used_advices ;;
    match used_advices with
    | VList l =>
        let appended := l ++ [VStr advice] in
        let kept := if (20 <? len appended)%Z then last_20 appended else appended in
        update_data [("used_advices", VList kept)] ;;
        emit (Answer (AdviceText advice) NoMarkup) ;;
        emit (Answer WhatNext AdviceFollowUp)
    | _ => raise AttributeError          (* no [append] on it *)
    end
  else
    emit (Answer OfferSurveyForAdvice StartSurveyButton).

End AdviceCommand.

(** ** The router *)



Section Router.

Variable upper : str -> str.
Variable demo_questions : list question.
Variable all_vasini_questions : result (list question).
Variable get_personality_type_from_answers : value -> result (value * value * value).
Variable generate_profile : value -> result (option str).
Variable lower : str -> str.
Variable rng : nat -> nat.
Variable fuel : nat.



End Router.

(** * Vocabulary of the properties *)

(** The handlers run one after the other, each in the world the previous
    one left, whether it returned or raised. *)
Definition run_all (hs : list (handler unit)) (w : world) : world :=
  foldl (fun w h => (h w).2) w hs.

Definition is_log (e : event) : bool :=
  match e with
  | Log _ _ | RailwayPrint _ _ => true
  | _ => false
  end.

(** The phases of the specification, read off the session data the way
    the handler reads them. *)
Definition in_demo (w : world) : Prop :=
  truthy (default (VBool true) (data w !! "is_demo_questions")) = true.

Definition awaiting_confirmation (w : world) : Prop :=
  truthy (default (VBool true) (data w !! "is_demo_questions")) = false /\
  truthy (default (VBool false) (data w !! "waiting_for_vasini_confirmation")) = true.

Definition answering_inventory (w : world) : Prop :=
  truthy (default (VBool true) (data w !! "is_demo_questions")) = false /\
  truthy (default (VBool false) (data w !! "waiting_for_vasini_confirmation")) = false.

Section Vocabulary.

Variable upper : str -> str.
Variable lower : str -> str.
Variable all_vasini_questions : result (list question).

(** What loading the inventory gives and logs. *)
Definition loaded_questions : list question :=
  match all_vasini_questions with
  | Ok qs => qs
  | Raise _ => []
  end.

Definition loading_logs : list event :=
  match all_vasini_questions with
  | Ok _ => [Log INFO "Загружено вопросов Vasini"]
  | Raise _ =>
      [Log ERROR "Ошибка при загрузке вопросов Vasini";
       RailwayPrint ERROR "Не удалось загрузить вопросы Vasini, опрос будет недоступен"]
  end.

(** An unparseable text, in the words of the accepted formats: none of
    the four checks holds for any of the four letters. *)
Definition unparseable (t : str) : Prop :=
  forall opt r, opt ∈ option_letters -> rule_holds upper r t opt = false.

(** An advice put together from one entry of each pool. *)
Definition composed_from (emoji_list aspect_list technique_list result_list context_list : list str)
    (advice : str) : Prop :=
  exists emoji aspect technique result context,
    emoji ∈ emoji_list /\ aspect ∈ aspect_list /\ technique ∈ technique_list /\
    result ∈ result_list /\ context ∈ context_list /\
    advice = compose lower emoji aspect technique result context.

End Vocabulary.

(** What is sent and logged for the interpretation of a recorded letter:
    the [try]/[except] around the lookup. *)
Definition interpretation_events (q : question) (opt : str) : list event :=
  match interpretation_of q opt with
  | Ok interpretation => [Answer (Interpretation interpretation) NoMarkup; ChatAction]
  | Raise _ => [Log ERROR "Ошибка при отправке интерпретации"]
  end.

(** The events of [send_parts]. *)
Fixpoint part_events (parts : list str) (buttons : markup) : list event :=
  match parts with
  | [] => []
  | [part] => [Answer (ProfileText part) buttons]
  | part :: rest => Answer (ProfileText part) NoMarkup :: part_events rest buttons
  end.

(** The session data once a profile has been stored. *)
Definition completed_data (w : world) (answers type_counts primary_type secondary_type : value)
    (profile : str) : gmap string value :=
  <["type_counts" := type_counts]>
    (<["secondary_type" := secondary_type]>
       (<["personality_type" := primary_type]>
          (<["profile_text" := VStr profile]>
             (<["profile_details" := VStr profile]>
                (<["profile_completed" := VBool true]>
                   (<["answers" := answers]> (data w))))))).

(** A part is a group of whole lines, each followed by a newline. *)
Definition render (group : list str) : str :=
  concat (map (fun line : list N => line ++ [NL]) group).

(** The loop of [split_into_parts], on groups of lines instead of texts. *)
Definition add_line_to_groups (st : list (list str) * list str) (line : str)
    : list (list str) * list str :=
  let '(groups, current) := st in
  if (len (render current) + len line + 1 <=? max_message_length)%Z
  then (groups, current ++ [line])
  else (groups ++ [current], [line]).

(** A group fits the limit, or it is one line that is too long by itself. *)
Definition group_ok (group : list str) : Prop :=
  (len (render group) <= max_message_length)%Z \/
  exists line, group = [line] /\ (max_message_length <= len line)%Z.

(** The entry of a table under a type. *)
Definition pool (table : list (str * list str)) (type : str) : list str :=
  default [] (assoc table type).

(** The known enumeration: the keys the five tables of the engine share. *)
Definition known_types : list str := map fst aspects.


Definition hashable (v : value) : bool :=
  match v with
  | VList _ | VDict _ => false
  | _ => true
  end.

(** What supports [x in history]. *)
Definition is_container (v : value) : bool :=
  match v with
  | VList _ | VStr _ | VDict _ => true
  | _ => false
  end.

(** What [table.get(key, fallback)] gives for a key that can be hashed. *)
Definition resolve (table : list (str * list str)) (key : value) (fallback : list str)
    : list str :=
  match key with
  | VStr s => default fallback (assoc table s)
  | _ => fallback
  end.

Definition nonempty_pools (table : list (str * list str)) : bool :=
  forallb (fun kv : list N * list (list N) => negb (bool_decide (kv.2 = []))) table.

(** The pools the composer draws from. *)
Definition emoji_pool (personality_type : value) : list str :=
  resolve emoji_map personality_type (pool emoji_map default_type).

Definition technique_pool (personality_type : value) : list str :=
  resolve techniques personality_type (pool techniques default_type).

Definition context_pool (personality_type : value) : list str :=
  resolve contexts personality_type (pool contexts default_type).

Definition result_pool (personality_type : value) : list str :=
  resolve results personality_type (pool results default_type).

Definition aspect_pool (extracted : list str) : list str :=
  match extracted with
  | [] => [utf8 "саморазвитию"]
  | _ => extracted
  end.

(** The fields [confirm_restart_survey] and [start_survey] write. *)
Definition restart_keys : list string :=
  ["answers"; "profile_completed"; "profile_text"; "personality_type";
   "question_index"; "question_type"; "is_demo_questions"].

(** The fields [confirm_profile_reset] and [start_survey] write. *)
Definition reset_keys : list string :=
  ["answers"; "profile_completed"; "profile_text"; "profile_details"; "personality_type";
   "waiting_for_vasini_confirmation"; "question_index"; "question_type";
   "is_demo_questions"].

(** The answers recorded by a run of demo answers. *)
Definition record_all (d : list (str * value)) (qs : list question) (ms : list message)
    : list (str * value) :=
  foldl (fun d qm => dict_set d (q_id qm.1) (text_value qm.2)) d (zip qs ms).

(** A handler keeps a relation between the world it starts in and the one
    it leaves, whether it returns or raises. *)
Definition preserves {A} (R : world -> world -> Prop) (h : handler A) : Prop :=
  forall w, R w (h w).2.

Definition same_session (w w' : world) : Prop :=
  fsm w' = fsm w /\ data w' = data w /\ draws w' = draws w.

Definition same_data (w w' : world) : Prop :=
  data w' = data w /\ draws w' = draws w.

(** A part that can be sent: not empty, and closed by a newline. *)
Definition closed_part (part : str) : Prop := part <> [] /\ last part = Some NL.

(** The history after one more advice: what the handlers store. *)
Definition cut_history (used : list value) (advice : str) : list value :=
  if (20 <? len (used ++ [VStr advice]))%Z
  then last_20 (used ++ [VStr advice])
  else used ++ [VStr advice].

(** The canned list the fallback mode draws from. *)
Definition canned_pool (personality_type : value) : list str :=
  resolve advice_by_type personality_type (pool advice_by_type default_type).

(** A text that is not the cancel button and that the parser reads as the
    letter [opt]. *)
Definition reads_as (upper : str -> str) (t opt : str) : Prop :=
  t <> CANCEL_SURVEY /\ exists r, parse_option upper t = Some (opt, r).

(** Entries written to a dictionary one after the other. *)
Definition record (d entries : list (str * value)) : list (str * value) :=
  foldl (fun d kv => dict_set d kv.1 kv.2) d entries.

(** What completion stores in the session. *)
Definition stored_profile (w : world) (answers type_counts primary_type secondary_type : value)
    (profile : str) : Prop :=
  data w !! "answers" = Some answers /\
  data w !! "profile_completed" = Some (VBool true) /\
  data w !! "profile_details" = Some (VStr profile) /\
  data w !! "profile_text" = Some (VStr profile) /\
  data w !! "personality_type" = Some primary_type /\
  data w !! "secondary_type" = Some secondary_type /\
  data w !! "type_counts" = Some type_counts.






(** * Sample catalog, collaborators and sessions *)

Definition sample_demo : list question :=
  [ Question (utf8 "name") (utf8 "Как вас зовут?") None None;
    Question (utf8 "age") (utf8 "Сколько вам лет?") None None ].

Definition sample_question (id : string) (letters : list string) : question :=
  Question (utf8 id) (utf8 "Что вам ближе?")
    (Some (map (fun l => (utf8 l, utf8 "вариант")) letters))
    (Some (map (fun l => (utf8 l, utf8 "толкование")) letters)).

(** The second question offers only two options. *)
Definition sample_inventory : list question :=
  [ sample_question "q1" ["A"; "B"; "C"; "D"];
    sample_question "q2" ["A"; "B"];
    sample_question "q3" ["A"; "B"; "C"; "D"] ].

Definition sample_counts : value :=
  VDict [(utf8 "Интеллектуальный", VInt 2); (utf8 "Творческий", VInt 1)].

Definition sample_classifier (answers : value) : result (value * value * value) :=
  Ok (sample_counts, VStr (utf8 "Интеллектуальный"), VStr (utf8 "Творческий")).

Definition gateway_down (answers : value) : result (option str) := Raise ExternalError.

Definition short_profile : str := utf8 "Профиль готов".

Definition gateway_short (answers : value) : result (option str) := Ok (Some short_profile).

Definition sample_answers : value :=
  VDict [(utf8 "name", VStr (utf8 "Анна")); (utf8 "q1", VStr (utf8 "A"))].

Definition idle : world := World None ∅ [] 0.

(** A session in the inventory phase, with the cursor on question [i]. *)
Definition in_inventory (i : Z) (waiting : bool) : world :=
  World (Some answering_questions)
    (<["question_index" := VInt i]>
       (<["answers" := VDict [(utf8 "name", VStr (utf8 "Анна"))]]>
          (<["is_demo_questions" := VBool false]>
             (<["waiting_for_vasini_confirmation" := VBool waiting]> ∅))))
    [] 0.

Definition prior_profile : str :=
  utf8 "Вас отличает логика и анализ, а также воображение.".

(** A session whose survey was completed earlier. *)
Definition completed_session : world :=
  World None
    (<["profile_completed" := VBool true]>
       (<["profile_details" := VStr prior_profile]>
          (<["profile_text" := VStr prior_profile]>
             (<["personality_type" := VStr (utf8 "Интеллектуальный")]>
                (<["type_counts" := sample_counts]>
                   (<["answers" := sample_answers]> ∅))))))
    [] 0.

Definition sample_process : message -> handler unit :=
  process_survey_answer simple_upper sample_demo (Ok sample_inventory)
    sample_classifier gateway_short.

Definition is_retry_prompt (e : event) : bool :=
  match e with
  | EditText GenerationFailed => true
  | _ => false
  end.

Definition is_error_log (e : event) : bool :=
  match e with
  | Log ERROR _ => true
  | _ => false
  end.

Definition two_long_lines : str := replicate 2500 97%N ++ [NL] ++ replicate 2500 98%N.


(** The composition made when every draw is the first entry. *)
Definition first_advice : str :=
  compose simple_lower (utf8 "🧠") (utf8 "аналитическому мышлению")
    (utf8 "технику глубокого чтения") (utf8 "глубину понимания")
    (utf8 "в процессе обучения новому").

(** The session as [start_survey] leaves it. *)
Definition started : world :=
  World (Some answering_questions)
    (<["is_demo_questions" := VBool true]>
       (<["answers" := VDict []]>
          (<["question_type" := VStr (utf8 "demo")]>
             (<["question_index" := VInt 0]> ∅))))
    [] 0.

(** A typed name, then a message without text. *)
Definition demo_replies : list message := [Message (Some (utf8 "Анна")); Message None].

(** A pressed button, a typed lower-case letter and a typed letter. *)
Definition inventory_replies : list str := [utf8 "A: вариант"; utf8 "b"; utf8 "D"].

Definition inventory_letters : list str := [utf8 "A"; utf8 "B"; utf8 "D"].

Definition classifier_down (answers : value) : result (value * value * value) :=
  Raise ExternalError.

Definition creative : str := utf8 "Творческий".



(** * Properties *)

Arguments utf8 : simpl never.
Arguments advice_by_type : simpl never.
Arguments keywords : simpl never.
Arguments aspects : simpl never.
Arguments emoji_map : simpl never.
Arguments techniques : simpl never.
Arguments contexts : simpl never.
Arguments results : simpl never.

(** ** Running handlers *)

Lemma bind_ok {A B} (c : handler A) (k : A -> handler B) w a w' :
  c w = (Ok a, w') -> bind c k w = k a w'.
Proof. intros H. unfold bind. now rewrite H. Qed.

Lemma bind_raise {A B} (c : handler A) (k : A -> handler B) w e w' :
  c w = (Raise e, w') -> bind c k w = (Raise e, w').
Proof. intros H. unfold bind. now rewrite H. Qed.

(** Unfolds the plumbing of the handler monad and runs what is closed. *)
Ltac run :=
  repeat progress
    (unfold bind, lift, log, emit, ret, raise, get_data, get_state, set_state,
       update_data, clear, try_except;
     cbn [fsm data trace draws foldl fst snd]).

(** ** The parser *)

Section ParserFacts.

Variable upper : str -> str.

Lemma match_letter_none text opt :
  match_letter upper text opt = None <->
  forall r, rule_holds upper r text opt = false.
Proof.
  unfold match_letter. split.
  - intros H r.
    destruct (rule_holds upper PrefixColon text opt) eqn:E1; [discriminate|].
    destruct (rule_holds upper PrefixSpace text opt) eqn:E2; [discriminate|].
    destruct (rule_holds upper ExactLetter text opt) eqn:E3; [discriminate|].
    destruct (rule_holds upper IsolatedToken text opt) eqn:E4; [discriminate|].
    now destruct r.
  - intros H.
    now rewrite (H PrefixColon), (H PrefixSpace), (H ExactLetter), (H IsolatedToken).
Qed.

Lemma match_letter_some text opt r :
  match_letter upper text opt = Some r -> rule_holds upper r text opt = true.
Proof.
  unfold match_letter.
  destruct (rule_holds upper PrefixColon text opt) eqn:E1; [congruence|].
  destruct (rule_holds upper PrefixSpace text opt) eqn:E2; [congruence|].
  destruct (rule_holds upper ExactLetter text opt) eqn:E3; [congruence|].
  destruct (rule_holds upper IsolatedToken text opt) eqn:E4; congruence.
Qed.

Lemma parse_letters_none text opts :
  parse_letters upper text opts = None <->
  forall opt r, opt ∈ opts -> rule_holds upper r text opt = false.
Proof.
  induction opts as [|o opts IH]; simpl.
  - split; [intros _ opt r Hin; inversion Hin | reflexivity].
  - destruct (match_letter upper text o) eqn:E.
    + split; [discriminate|]. intros H.
      apply match_letter_some in E. rewrite H in E; [discriminate|constructor].
    + rewrite IH. split.
      * intros H opt r Hin. apply elem_of_cons in Hin as [->|Hin].
        -- now apply match_letter_none.
        -- now apply H.
      * intros H opt r Hin. apply H. now constructor.
Qed.

(** What the loop returns is a letter of the list for which the reported
    check holds, and no check holds for any letter before it. *)
Lemma parse_letters_some text opts opt r :
  parse_letters upper text opts = Some (opt, r) ->
  exists before after,
    opts = before ++ opt :: after /\
    rule_holds upper r text opt = true /\
    forall o r', o ∈ before -> rule_holds upper r' text o = false.
Proof.
  induction opts as [|o opts IH]; simpl; [discriminate|].
  destruct (match_letter upper text o) eqn:E.
  - intros [= <- <-]. exists [], opts. split; [reflexivity|].
    split; [now apply match_letter_some|]. intros ? ? Hin. inversion Hin.
  - intros H. destruct (IH H) as (before & after & -> & Hr & Hb).
    exists (o :: before), after. split; [reflexivity|]. split; [assumption|].
    intros o' r' Hin. apply elem_of_cons in Hin as [->|Hin].
    + now apply match_letter_none.
    + now apply Hb.
Qed.

Lemma parse_option_letter text opt r :
  parse_option upper text = Some (opt, r) -> opt ∈ option_letters.
Proof.
  intros H. apply parse_letters_some in H as (before & after & Heq & _).
  unfold parse_option in *. rewrite Heq. apply elem_of_app. right. constructor.
Qed.

End ParserFacts.

(** C1. The four checks are chained inside the loop over the letters, so a
    loose match on an earlier letter is taken before a strict match on a
    later one: the button text ["B: a"] starts with ["B:"], the first rule
    of the specification, and the parser records [A] through the
    isolated-token check. *)
Theorem C1_prefix_rule_loses_to_earlier_letter :
  rule_holds simple_upper PrefixColon (utf8 "B: a") (utf8 "B") = true /\
  parse_option_by_rule simple_upper (utf8 "B: a") = Some (utf8 "B", PrefixColon) /\
  parse_option simple_upper (utf8 "B: a") = Some (utf8 "A", IsolatedToken).
Proof. vm_compute. repeat split. Qed.

(** ** The survey state machine *)

Section SurveyFacts.

Variable upper : str -> str.
Variable demo_questions : list question.
Variable all_vasini_questions : result (list question).
Variable get_personality_type_from_answers : value -> result (value * value * value).
Variable generate_profile : value -> result (option str).

Let process :=
  process_survey_answer upper demo_questions all_vasini_questions
    get_personality_type_from_answers generate_profile.

Lemma load_vasini_questions_run w :
  load_vasini_questions all_vasini_questions w =
  (Ok (loaded_questions all_vasini_questions), World (fsm w) (data w) (trace w ++ (loading_logs all_vasini_questions)) (draws w)).
Proof.
  unfold load_vasini_questions, loaded_questions, loading_logs.
  destruct all_vasini_questions; cbn; [reflexivity|].
  now rewrite <- app_assoc.
Qed.

Lemma loading_logs_are_logs : forallb is_log (loading_logs all_vasini_questions) = true.
Proof. unfold loading_logs. now destruct all_vasini_questions. Qed.

(** Entering the handler with a message that is not the cancel button:
    the session data is read and the inventory loaded. *)
Ltac enter_process Hc :=
  unfold process, process_survey_answer; rewrite Hc;
  unfold bind at 1, get_data at 1; cbv beta iota zeta;
  unfold bind at 1; rewrite load_vasini_questions_run; cbv beta iota zeta.

(** C2. While the confirmation is awaited, a message that is neither the
    ready button nor the cancel button makes the handler raise
    [UnboundLocalError] (it reads [current_question], which this path
    never assigned) before anything is sent: the session is left as it
    was, and no prompt is issued again. *)
Theorem C2_unexpected_confirmation_input_raises (m : message) (w : world) :
  awaiting_confirmation w ->
  text_is m READY = false ->
  text_is m CANCEL_SURVEY = false ->
  process m w =
    (Raise UnboundLocalError,
     World (fsm w) (data w) (trace w ++ (loading_logs all_vasini_questions)) (draws w)) /\
  forallb is_log (loading_logs all_vasini_questions) = true.
Proof.
  intros [Hdemo Hwait] Hready Hc. split; [|apply loading_logs_are_logs].
  enter_process Hc. rewrite Hdemo, Hwait, Hready. reflexivity.
Qed.

(** The cancel button, whatever the phase and the cursor. *)
Lemma process_cancel (m : message) (w : world) :
  text_is m CANCEL_SURVEY = true ->
  process m w =
    (Ok tt, World None ∅ (trace w ++ [Answer SurveyCancelled MainKeyboard]) (draws w)).
Proof.
  intros Hc. unfold process, process_survey_answer. now rewrite Hc.
Qed.

(** One round of the inventory on an unparseable text: the question under
    the cursor is shown again and the session is left as it was. *)
Lemma process_unparseable (t : str) (w : world) (q : question)
      (options : list (str * str)) (n : Z) :
  answering_inventory w ->
  t <> CANCEL_SURVEY ->
  unparseable upper t ->
  py_index (loaded_questions all_vasini_questions) (default (VInt 0) (data w !! "question_index")) = Ok q ->
  options_of q = Ok options ->
  py_succ (default (VInt 0) (data w !! "question_index")) = Ok n ->
  process (Message (Some t)) w =
    (Ok tt,
     World (fsm w) (data w)
       (trace w ++ (loading_logs all_vasini_questions) ++
          [Log INFO "Получен ответ на вопрос";
           Log WARNING "Не удалось распознать вариант ответа в тексте";
           Log INFO "Пользователь должен повторить выбор для вопроса";
           Answer (ChooseAgain n (q_text q)) (options_keyboard options)])
       (draws w)).
Proof.
  intros [Hdemo Hwait] Hne Hun Hq Ho Hn.
  assert (Hc : text_is (Message (Some t)) CANCEL_SURVEY = false).
  { unfold text_is, str_eqb. cbn. now apply bool_decide_eq_false. }
  assert (Hp : parse_option upper t = None) by now apply parse_letters_none.
  enter_process Hc. rewrite Hdemo, Hwait.
  unfold bind at 1, lift at 1. rewrite Hq.
  cbn [text]. rewrite Hp.
  unfold bind, log, emit, lift. cbn [fsm data trace draws].
  rewrite Ho, Hn. cbn [fsm data trace draws].
  repeat rewrite <- app_assoc. reflexivity.
Qed.

(** An unparseable text (other than the cancel button, which is handled
    before any parsing) changes neither the cursor nor the answers nor any
    other session field, however many times it is sent, and every round
    answers with the question under the cursor and its option buttons. *)
Lemma unparseable_text_is_idempotent (t : str) (w : world) (q : question)
      (options : list (str * str)) (n : Z) (times : nat) :
  answering_inventory w ->
  t <> CANCEL_SURVEY ->
  unparseable upper t ->
  py_index (loaded_questions all_vasini_questions) (default (VInt 0) (data w !! "question_index")) = Ok q ->
  options_of q = Ok options ->
  py_succ (default (VInt 0) (data w !! "question_index")) = Ok n ->
  let w' := run_all (replicate times (process (Message (Some t)))) w in
  fsm w' = fsm w /\
  data w' = data w /\
  exists shown,
    process (Message (Some t)) w' =
      (Ok tt,
       World (fsm w) (data w)
         (trace w' ++ shown ++ [Answer (ChooseAgain n (q_text q)) (options_keyboard options)])
         (draws w)) /\
    forallb is_log shown = true.
Proof.
  intros Hph Hne Hun Hq Ho Hn.
  assert (Hinv : forall k,
    let w' := run_all (replicate k (process (Message (Some t)))) w in
    fsm w' = fsm w /\ data w' = data w /\ draws w' = draws w).
  { induction k as [|k IH]; [now cbn|].
    unfold run_all in *. rewrite replicate_S_end, foldl_app. cbn [foldl].
    destruct IH as (Hf & Hd & Hr).
    set (wk := foldl _ w _) in *.
    rewrite (process_unparseable t wk q options n); cbn;
      rewrite ?Hd; try assumption; [tauto|].
    unfold answering_inventory in *. now rewrite Hd. }
  intros w'. destruct (Hinv times) as (Hf & Hd & Hr). fold w' in Hf, Hd, Hr.
  split; [assumption|]. split; [assumption|].
  exists ((loading_logs all_vasini_questions) ++
          [Log INFO "Получен ответ на вопрос";
           Log WARNING "Не удалось распознать вариант ответа в тексте";
           Log INFO "Пользователь должен повторить выбор для вопроса"]).
  split.
  - rewrite (process_unparseable t w' q options n);
      rewrite ?Hd; try assumption.
    + rewrite Hf, Hr. now rewrite <- !app_assoc.
    + unfold answering_inventory in *. now rewrite Hd.
  - rewrite forallb_app, loading_logs_are_logs. reflexivity.
Qed.

(** One round of the inventory on a message without text: [None] has no
    [startswith]. *)
Lemma process_without_text (w : world) (q : question) :
  answering_inventory w ->
  py_index (loaded_questions all_vasini_questions)
    (default (VInt 0) (data w !! "question_index")) = Ok q ->
  process (Message None) w =
    (Raise AttributeError,
     World (fsm w) (data w)
       (trace w ++ loading_logs all_vasini_questions ++ [Log INFO "Получен ответ на вопрос"])
       (draws w)).
Proof.
  intros [Hdemo Hwait] Hq.
  assert (Hc : text_is (Message None) CANCEL_SURVEY = false) by reflexivity.
  enter_process Hc. rewrite Hdemo, Hwait.
  unfold bind at 1, lift at 1. rewrite Hq. run.
  now rewrite <- !app_assoc.
Qed.

(** C4. In the inventory phase a message that holds none of the four
    letters in an accepted format, an unparseable text or no text at all,
    changes neither the cursor nor the answers nor any other session
    field, however many times it is sent.  The question under the cursor
    is shown again, with its option buttons, only when the message is a
    text: on a message without text (the handler takes every message of
    the state) it raises [AttributeError] before anything is sent, round
    after round, and only log records are written. *)
Theorem C4_message_without_text_is_not_asked_again (w : world) (q : question)
      (options : list (str * str)) (n : Z) (times : nat) :
  answering_inventory w ->
  py_index (loaded_questions all_vasini_questions)
    (default (VInt 0) (data w !! "question_index")) = Ok q ->
  options_of q = Ok options ->
  py_succ (default (VInt 0) (data w !! "question_index")) = Ok n ->
  (forall t, t <> CANCEL_SURVEY -> unparseable upper t ->
     let w' := run_all (replicate times (process (Message (Some t)))) w in
     fsm w' = fsm w /\
     data w' = data w /\
     exists shown,
       process (Message (Some t)) w' =
         (Ok tt,
          World (fsm w) (data w)
            (trace w' ++ shown ++
               [Answer (ChooseAgain n (q_text q)) (options_keyboard options)])
            (draws w)) /\
       forallb is_log shown = true) /\
  (let w' := run_all (replicate times (process (Message None))) w in
   fsm w' = fsm w /\
   data w' = data w /\
   exists logged,
     process (Message None) w' =
       (Raise AttributeError, World (fsm w) (data w) (trace w' ++ logged) (draws w)) /\
     forallb is_log logged = true).
Proof.
  intros Hph Hq Ho Hn. split.
  - intros t Hne Hun. now apply unparseable_text_is_idempotent.
  - assert (Hinv : forall k,
      let w' := run_all (replicate k (process (Message None))) w in
      fsm w' = fsm w /\ data w' = data w /\ draws w' = draws w).
    { induction k as [|k IH]; [now cbn|].
      unfold run_all in *. rewrite replicate_S_end, foldl_app. cbn [foldl].
      destruct IH as (Hf & Hd & Hr).
      set (wk := foldl _ w _) in *.
      rewrite (process_without_text wk q); cbn [snd fsm data draws];
        rewrite ?Hd; try assumption; [tauto|].
      unfold answering_inventory in *. now rewrite Hd. }
    intros w'. destruct (Hinv times) as (Hf & Hd & Hr). fold w' in Hf, Hd, Hr.
    split; [assumption|]. split; [assumption|].
    exists (loading_logs all_vasini_questions ++ [Log INFO "Получен ответ на вопрос"]).
    split.
    + rewrite (process_without_text w' q); rewrite ?Hd; try assumption.
      * now rewrite Hf, Hr.
      * unfold answering_inventory in *. now rewrite Hd.
    + rewrite forallb_app, loading_logs_are_logs. reflexivity.
Qed.

(** C9 (amended). A recognised letter is recorded and the cursor advances
    whether or not the question has an interpretation (or even an option)
    under that letter: the failed lookup is caught and logged at error
    level, the interpretation message is skipped, and the handler goes on
    to the next question.  The recorded letter is one of A, B, C, D. *)
Theorem C9_missing_interpretation_is_logged_and_skipped
      (t opt : str) (r : rule) (w : world) (q next : question)
      (answers : list (str * value)) (i : Z) (options : list (str * str)) :
  answering_inventory w ->
  t <> CANCEL_SURVEY ->
  parse_option upper t = Some (opt, r) ->
  as_int (default (VInt 0) (data w !! "question_index")) = Some i ->
  index_at (loaded_questions all_vasini_questions) i = Ok q ->
  default (VDict []) (data w !! "answers") = VDict answers ->
  (i + 1 < len (loaded_questions all_vasini_questions))%Z ->
  index_at (loaded_questions all_vasini_questions) (i + 1) = Ok next ->
  options_of next = Ok options ->
  opt ∈ option_letters /\
  process (Message (Some t)) w =
    (Ok tt,
     World (fsm w)
       (<["is_demo_questions" := default (VBool true) (data w !! "is_demo_questions")]>
          (<["answers" := VDict (dict_set answers (q_id q) (VStr opt))]>
             (<["question_index" := VInt (i + 1)]> (data w))))
       (trace w ++ (loading_logs all_vasini_questions) ++
          [Log INFO "Получен ответ на вопрос"; Log INFO "Распознан ответ"] ++
          interpretation_events q opt ++
          [Log INFO "Показываем вопрос с вариантами ответов";
           Answer (VasiniQuestion (i + 1 + 1) (q_text next)) (options_keyboard options)])
       (draws w)).
Proof.
  intros [Hdemo Hwait] Hne Hp Hi Hq Ha Hlt Hnext Ho.
  split; [eapply parse_option_letter; eassumption|].
  assert (Hc : text_is (Message (Some t)) CANCEL_SURVEY = false).
  { unfold text_is, str_eqb. cbn. now apply bool_decide_eq_false. }
  enter_process Hc. rewrite Hdemo, Hwait.
  unfold py_index, py_succ. rewrite Hi, Ha. cbn [text]. rewrite Hp.
  unfold bind at 1, lift at 1. rewrite Hq.
  unfold bind at 1, log at 1, emit at 1. cbn [fsm data trace draws].
  unfold bind at 1, log at 1, emit at 1. cbn [fsm data trace draws].
  unfold bind at 1, lift at 1, setitem.
  unfold bind at 1, try_except, interpretation_events.
  assert (Hge : (len (loaded_questions all_vasini_questions) <=? i + 1)%Z = false) by lia.
  destruct (interpretation_of q opt) as [interpretation|e];
    unfold bind, lift, log, emit, update_data;
    cbn [fsm data trace draws foldl fst snd];
    rewrite Hge, Hnext; unfold show_vasini_question, bind, lift, log, emit;
    rewrite Ho; cbn [fsm data trace draws foldl fst snd];
    repeat rewrite <- app_assoc; reflexivity.
Qed.

(** ** Completion *)

Lemma send_parts_run parts buttons w :
  send_parts parts buttons w =
  (Ok tt, World (fsm w) (data w) (trace w ++ part_events parts buttons) (draws w)).
Proof.
  revert w. induction parts as [|part rest IH]; intros w.
  - cbn. rewrite app_nil_r. now destruct w.
  - destruct rest as [|part' rest]; [reflexivity|].
    change (send_parts (part :: part' :: rest) buttons)
      with (emit (Answer (ProfileText part) NoMarkup) ;; send_parts (part' :: rest) buttons).
    unfold bind, emit. rewrite IH. cbn [fsm data trace draws part_events].
    now rewrite <- app_assoc.
Qed.

Let complete := complete_survey get_personality_type_from_answers generate_profile.

Lemma complete_survey_gateway_raises answers w types e :
  get_personality_type_from_answers answers = Ok types ->
  generate_profile answers = Raise e ->
  complete answers w =
    (Ok tt,
     World None ∅
       (trace w ++ [ChatAction; Answer SurveyFinished NoMarkup;
                    Log ERROR "Ошибка при генерации профиля";
                    EditText GenerationFailed;
                    Answer ReturnToMenu MainKeyboard])
       (draws w)).
Proof.
  intros Ht Hg. unfold complete, complete_survey.
  run. rewrite Ht. destruct types as [[type_counts primary_type] secondary_type].
  run. rewrite Hg. run.
  repeat rewrite <- app_assoc. reflexivity.
Qed.

Lemma complete_survey_gateway_answers answers w type_counts primary_type secondary_type details :
  get_personality_type_from_answers answers = Ok (type_counts, primary_type, secondary_type) ->
  generate_profile answers = Ok details ->
  let profile := default [] details in
  complete answers w =
    (Ok tt,
     World None (completed_data w answers type_counts primary_type secondary_type profile)
       (trace w ++ [ChatAction; Answer SurveyFinished NoMarkup;
                    Log INFO "Получен детальный профиль";
                    Log INFO "Проверка сохранения детального профиля";
                    DeleteMessage] ++
          part_events (profile_messages profile) AdviceButton ++
          [Answer BackToMenu MainKeyboard;
           Log INFO "завершил опрос, профиль сгенерирован"])
       (draws w)).
Proof.
  intros Ht Hg profile. unfold complete, complete_survey.
  run. rewrite Ht. run. rewrite Hg. run.
  fold profile. unfold send_profile.
  rewrite send_parts_run. run.
  repeat rewrite <- app_assoc. reflexivity.
Qed.

(** C3 (amended). Completion is aborted exactly when the gateway raises:
    the retry prompt is shown, the state is idle and the session data is
    empty, so that it is not marked completed and holds no answers,
    [type_counts] or [profile_text].  A text the gateway returns is stored
    and the session marked completed whatever its length; a text shorter
    than 20 characters is refused only later, when the profile is asked
    for, with the not-found message. *)
Theorem C3_completion_aborts_only_when_gateway_raises
      (answers type_counts primary_type secondary_type : value) (w : world) :
  get_personality_type_from_answers answers = Ok (type_counts, primary_type, secondary_type) ->
  (forall e, generate_profile answers = Raise e ->
     complete answers w =
       (Ok tt,
        World None ∅
          (trace w ++ [ChatAction; Answer SurveyFinished NoMarkup;
                       Log ERROR "Ошибка при генерации профиля";
                       EditText GenerationFailed;
                       Answer ReturnToMenu MainKeyboard])
          (draws w))) /\
  (forall details, generate_profile answers = Ok details ->
     let profile := default [] details in
     let w' :=
       World None (completed_data w answers type_counts primary_type secondary_type profile)
         (trace w ++ [ChatAction; Answer SurveyFinished NoMarkup;
                      Log INFO "Получен детальный профиль";
                      Log INFO "Проверка сохранения детального профиля";
                      DeleteMessage] ++
            part_events (profile_messages profile) AdviceButton ++
            [Answer BackToMenu MainKeyboard;
             Log INFO "завершил опрос, профиль сгенерирован"])
         (draws w) in
     complete answers w = (Ok tt, w') /\
     data w' !! "profile_completed" = Some (VBool true) /\
     data w' !! "profile_text" = Some (VStr profile) /\
     data w' !! "type_counts" = Some type_counts /\
     data w' !! "answers" = Some answers /\
     ((len profile < 20)%Z ->
      show_profile_details w' =
        (Ok tt,
         World None (data w')
           (trace w' ++ [ChatAction; Log INFO "Запрошен детальный профиль";
                         Answer DetailsNotFound NoMarkup;
                         CallbackAnswer "Детальный профиль не найден"])
           (draws w')))).
Proof.
  intros Ht. split.
  - intros e Hg. eapply complete_survey_gateway_raises; eassumption.
  - intros details Hg profile w'. split.
    { now apply complete_survey_gateway_answers. }
    assert (Hd : data w' !! "profile_details" = Some (VStr profile)).
    { cbn [data w']. unfold completed_data. by simplify_map_eq. }
    repeat split; try (cbn [data w']; unfold completed_data; by simplify_map_eq).
    intros Hshort. unfold show_profile_details. run. rewrite Hd.
    cbn [default from_option id].
    destruct (truthy (VStr profile)); cbn [negb].
    + run. cbn [py_len]. run. apply Z.ltb_lt in Hshort. rewrite Hshort. run.
      repeat rewrite <- app_assoc. reflexivity.
    + run. repeat rewrite <- app_assoc. reflexivity.
Qed.

End SurveyFacts.

(** ** Splitting a profile into parts *)

Lemma len_app {A} (l k : list A) : len (l ++ k) = (len l + len k)%Z.
Proof. unfold len. rewrite length_app. lia. Qed.

Lemma render_app g h : render (g ++ h) = render g ++ render h.
Proof. unfold render. now rewrite map_app, concat_app. Qed.

Lemma render_single line : render [line] = line ++ [NL].
Proof. unfold render. cbn. now rewrite app_nil_r. Qed.

Lemma render_nil_inv g : render g = [] -> g = [].
Proof.
  destruct g as [|line g]; [reflexivity|]. unfold render. cbn.
  intros H. apply (f_equal length) in H. rewrite !length_app in H. cbn in H. lia.
Qed.

(** Joining the lines back gives the text, with one newline at the end. *)
Lemma render_split_lines s : render (split_lines s) = s ++ [NL].
Proof.
  induction s as [|c s IH]; [reflexivity|].
  cbn [split_lines]. destruct (N.eqb_spec c NL) as [->|Hc].
  - unfold render in *. cbn. now rewrite IH.
  - destruct (split_lines s) as [|l ls].
    + unfold render in IH. cbn in IH. now destruct s.
    + unfold render in *. cbn in *. now rewrite IH.
Qed.

Lemma add_line_render groups current line :
  add_line (map render groups, render current) line =
  let st := add_line_to_groups (groups, current) line in
  (map render st.1, render st.2).
Proof.
  unfold add_line, add_line_to_groups.
  destruct (len (render current) + len line + 1 <=? max_message_length)%Z; cbn [fst snd].
  - now rewrite render_app, render_single.
  - now rewrite map_app, render_single.
Qed.

Lemma foldl_add_line_render lines groups current :
  foldl add_line (map render groups, render current) lines =
  let st := foldl add_line_to_groups (groups, current) lines in
  (map render st.1, render st.2).
Proof.
  revert groups current. induction lines as [|line lines IH]; intros; [reflexivity|].
  cbn [foldl]. rewrite add_line_render. cbn zeta.
  destruct (add_line_to_groups (groups, current) line) as [g c]. apply IH.
Qed.

Lemma len_render_snoc current line :
  len (render (current ++ [line])) = (len (render current) + len line + 1)%Z.
Proof. rewrite render_app, render_single, !len_app. unfold len. cbn. lia. Qed.

(** The loop keeps the lines, in order, and every group it closes is fine. *)
Lemma foldl_add_line_to_groups lines groups current :
  Forall group_ok groups -> group_ok current ->
  let st := foldl add_line_to_groups (groups, current) lines in
  concat st.1 ++ st.2 = concat groups ++ current ++ lines /\
  Forall group_ok st.1 /\ group_ok st.2 /\
  (current <> [] \/ lines <> [] -> st.2 <> []).
Proof.
  revert groups current. induction lines as [|line lines IH]; intros groups current Hg Hc.
  - cbn. rewrite app_nil_r. intuition congruence.
  - intros st. subst st. cbn [foldl].
    destruct (Z.le_gt_cases (len (render current) + len line + 1) max_message_length)
      as [Hfit|Hbig].
    + assert (Hstep : add_line_to_groups (groups, current) line = (groups, current ++ [line])).
      { unfold add_line_to_groups. apply Z.leb_le in Hfit. now rewrite Hfit. }
      rewrite Hstep.
      destruct (IH groups (current ++ [line])) as (Hcat & Hok & Hcur & Hne); [assumption| |].
      { left. rewrite len_render_snoc. lia. }
      rewrite Hcat, <- !app_assoc. repeat split; try assumption.
      intros _. apply Hne. left. now destruct current.
    + assert (Hstep : add_line_to_groups (groups, current) line = (groups ++ [current], [line])).
      { unfold add_line_to_groups. apply Z.leb_gt in Hbig. now rewrite Hbig. }
      rewrite Hstep.
      destruct (IH (groups ++ [current]) [line]) as (Hcat & Hok & Hcur & Hne).
      { apply Forall_app. split; [assumption|]. now constructor. }
      { destruct (Z.le_gt_cases (len (render [line])) max_message_length) as [Hle|Hgt];
          [now left|right]. exists line. split; [reflexivity|].
        change [line] with ([] ++ [line]) in Hgt. rewrite len_render_snoc in Hgt.
        change (len (render [])) with 0%Z in Hgt. lia. }
      rewrite Hcat, concat_app. cbn [concat]. rewrite app_nil_r, <- !app_assoc.
      repeat split; try assumption.
      intros _. apply Hne. now left.
Qed.

Lemma group_ok_nil : group_ok [].
Proof. left. change (0 <= 4000)%Z. lia. Qed.

(** What [split_into_parts] returns, as groups of lines. *)
Lemma split_into_parts_groups profile :
  exists groups : list (list str),
    split_into_parts profile = map render groups /\
    concat groups = split_lines profile /\
    Forall group_ok groups.
Proof.
  unfold split_into_parts.
  change (@nil (list N), @nil N) with (map render [], render []).
  rewrite foldl_add_line_render. cbn zeta.
  pose proof (foldl_add_line_to_groups (split_lines profile) [] []
                (Forall_nil_2 _) group_ok_nil) as H.
  cbv zeta in H. destruct H as (Hcat & Hok & Hcur & Hne).
  destruct (foldl add_line_to_groups ([], []) (split_lines profile)) as [groups current].
  cbn [fst snd] in *.
  assert (Hcurrent : current <> []).
  { apply Hne. right. now destruct profile as [|c s]; cbn;
      [| destruct (c =? NL)%N; [| destruct (split_lines s)]]. }
  assert (Hrender : render current <> []).
  { intros H. now apply render_nil_inv in H. }
  rewrite bool_decide_eq_false_2 by assumption. cbn [negb].
  exists (groups ++ [current]). split; [now rewrite map_app|]. split.
  - rewrite concat_app. cbn. now rewrite app_nil_r.
  - apply Forall_app. split; [assumption|]. now constructor.
Qed.

Lemma concat_map_render groups : concat (map render groups) = render (concat groups).
Proof.
  induction groups as [|g groups IH]; [reflexivity|].
  cbn [map concat]. now rewrite render_app, IH.
Qed.

(** C6 (amended). A profile of at most 4000 characters is one message.  A
    longer one is cut between lines only: every part is a run of whole
    lines, each with its newline, the parts put together are the profile
    (followed by one newline), and a part is longer than 4000 characters
    only when it is a single line of 4000 characters or more; when every
    line is shorter than that, no part exceeds 4000 characters. *)
Theorem C6_profile_is_cut_between_lines (profile : str) :
  ((len profile <= max_message_length)%Z -> profile_messages profile = [profile]) /\
  ((max_message_length < len profile)%Z ->
   exists groups : list (list str),
     profile_messages profile = map render groups /\
     concat groups = split_lines profile /\
     concat (profile_messages profile) = profile ++ [NL] /\
     Forall group_ok groups /\
     (Forall (fun line => (len line < max_message_length)%Z) (split_lines profile) ->
      Forall (fun part => (len part <= max_message_length)%Z) (profile_messages profile))).
Proof.
  unfold profile_messages. split; intros Hlen.
  - apply Z.ltb_ge in Hlen. now rewrite Hlen.
  - apply Z.ltb_lt in Hlen. rewrite Hlen.
    destruct (split_into_parts_groups profile) as (groups & Hparts & Hcat & Hok).
    exists groups. rewrite Hparts. repeat split; try assumption.
    + now rewrite concat_map_render, Hcat, render_split_lines.
    + intros Hlines. apply Forall_map. rewrite <- Hcat in Hlines.
      apply Forall_forall. intros g Hin.
      rewrite Forall_forall in Hok. destruct (Hok g Hin) as [Hle|(line & -> & Hbig)];
        [assumption|].
      exfalso. rewrite Forall_forall in Hlines.
      assert (Hl : (len line < max_message_length)%Z); [|lia].
      apply Hlines. apply list_elem_of_In, in_concat. exists [line].
      split; [now apply list_elem_of_In | now left].
Qed.

(** ** The advice engine *)

Lemma dict_get_hashable table key fallback :
  hashable key = true -> dict_get table key fallback = Ok (resolve table key fallback).
Proof. now destruct key. Qed.

Lemma assoc_none_keys {A} (table : list (str * A)) s :
  assoc table s = None <-> s ∉ map fst table.
Proof.
  induction table as [|[k a] table IH]; cbn.
  - split; [intros _ H; inversion H | reflexivity].
  - unfold str_eqb. rewrite not_elem_of_cons. case_bool_decide as Hk.
    + split; [discriminate|]. intros [Hne _]. congruence.
    + rewrite IH. split; [intros H; split; [congruence|assumption] | tauto].
Qed.

Lemma assoc_some_in {A} (table : list (str * A)) s a :
  assoc table s = Some a -> (s, a) ∈ table.
Proof.
  induction table as [|[k b] table IH]; cbn; [discriminate|].
  unfold str_eqb. case_bool_decide as Hk.
  - intros [= ->]. subst. constructor.
  - intros H. apply elem_of_cons. right. now apply IH.
Qed.

Lemma resolve_nonempty table key fallback :
  nonempty_pools table = true -> fallback <> [] -> resolve table key fallback <> [].
Proof.
  intros Ht Hf. destruct key; cbn; try assumption.
  destruct (assoc table s) as [l|] eqn:E; cbn; [|assumption].
  apply assoc_some_in in E. unfold nonempty_pools in Ht.
  rewrite forallb_forall in Ht. apply list_elem_of_In, Ht in E.
  cbn in E. apply negb_true_iff, bool_decide_eq_false in E. exact E.
Qed.


(** Facts read off the tables. *)
Lemma tables_share_keys :
  map fst keywords = known_types /\ map fst emoji_map = known_types /\
  map fst techniques = known_types /\ map fst contexts = known_types /\
  map fst results = known_types.
Proof. vm_compute. repeat split. Qed.

Lemma tables_have_no_empty_pool :
  nonempty_pools aspects = true /\ nonempty_pools emoji_map = true /\
  nonempty_pools techniques = true /\ nonempty_pools contexts = true /\
  nonempty_pools results = true /\ nonempty_pools advice_by_type = true.
Proof. vm_compute. repeat split. Qed.

Lemma default_type_is_in_tables :
  is_Some (assoc aspects default_type) /\ is_Some (assoc emoji_map default_type) /\
  is_Some (assoc techniques default_type) /\ is_Some (assoc contexts default_type) /\
  is_Some (assoc results default_type) /\ is_Some (assoc advice_by_type default_type).
Proof. vm_compute. repeat split; eexists; reflexivity. Qed.

Lemma pool_nonempty table type :
  nonempty_pools table = true -> is_Some (assoc table type) -> pool table type <> [].
Proof.
  intros Ht [l Hl]. unfold pool. rewrite Hl. cbn.
  apply assoc_some_in in Hl. unfold nonempty_pools in Ht.
  rewrite forallb_forall in Ht. apply list_elem_of_In, Ht in Hl.
  cbn in Hl. apply negb_true_iff, bool_decide_eq_false in Hl. exact Hl.
Qed.

(** The fallback written at a lookup site is the pool of the default type. *)
Lemma site_fallback table spare :
  is_Some (assoc table default_type) ->
  default spare (assoc table default_type) = pool table default_type.
Proof. intros [l Hl]. unfold pool. now rewrite Hl. Qed.

Lemma max_from_in best items : max_from best items ∈ best :: items.
Proof.
  revert best. induction items as [|it items IH]; intros best; cbn [max_from].
  - constructor.
  - specialize (IH (if (best.2 <? it.2)%nat then it else best)).
    apply elem_of_cons in IH as [->|IH].
    + destruct (best.2 <? it.2)%nat; [right; left | left].
    + right. now right.
Qed.

Lemma py_max_in items :
  items <> [] -> exists best, py_max items = Ok best /\ best ∈ items.
Proof.
  destruct items as [|it items]; [congruence|]. intros _.
  exists (max_from it items). split; [reflexivity | apply max_from_in].
Qed.

Section AdviceFacts.

Variable lower : str -> str.
Variable rng : nat -> nat.
Variable fuel : nat.

(** A draw from a non-empty list returns one of its entries and costs one
    draw. *)
Lemma random_choice_run {A} (seq : list A) (w : world) :
  seq <> [] ->
  exists x, x ∈ seq /\
    random_choice rng seq w = (Ok x, World (fsm w) (data w) (trace w) (S (draws w))).
Proof.
  intros Hne. unfold random_choice.
  destruct (seq !! (rng (draws w) mod length seq)%nat) as [x|] eqn:E.
  - exists x. split; [|reflexivity]. eapply list_elem_of_lookup_2. eassumption.
  - apply lookup_ge_None in E.
    assert (length seq <> 0%nat) by now destruct seq.
    pose proof (Nat.mod_upper_bound (rng (draws w)) (length seq)). lia.
Qed.

(** Runs the draw at the head of the goal. *)
Ltac draw pool H x :=
  cbv beta iota;
  match goal with
  | |- context [bind (random_choice _ pool) _ ?w] =>
      let Hin := fresh "Hin" in
      let Hd := fresh "Hd" in
      destruct (random_choice_run pool w H) as (x & Hin & Hd);
      rewrite (bind_ok _ _ _ _ _ Hd); clear Hd;
      cbn [fsm data trace draws]
  end.

Lemma py_contains_container history x :
  is_container history = true -> exists b, py_contains history x = Ok b.
Proof. destruct history; cbn; try discriminate; eauto. Qed.

(** The loop: it stops after at most five new compositions, each of five
    draws, on an advice that is not in the history unless the five were
    used up. *)
Lemma resample_run (steps : nat) (A E T C R : list str) (history : value) :
  A <> [] -> E <> [] -> T <> [] -> C <> [] -> R <> [] ->
  is_container history = true ->
  forall (attempts : Z) (advice : str) (w : world),
    (0 <= attempts <= 5)%Z ->
    (5 - attempts <= Z.of_nat steps)%Z ->
    composed_from lower E A T R C advice ->
    exists advice' n,
      resample lower rng steps A E T C R history attempts advice w =
        (Ok (advice', n),
         World (fsm w) (data w) (trace w) (draws w + 5 * Z.to_nat (n - attempts))) /\
      (attempts <= n <= 5)%Z /\
      composed_from lower E A T R C advice' /\
      ((n < 5)%Z -> py_contains history advice' = Ok false).
Proof.
  intros HA HE HT HC HR Hh.
  induction steps as [|steps IH]; intros attempts advice w Hat Hst Hco;
    destruct (py_contains_container history advice Hh) as [used Hused];
    cbn [resample]; unfold bind at 1, lift at 1; rewrite Hused;
    destruct (used && (attempts <? 5)%Z) eqn:Hcond.
  - apply andb_true_iff in Hcond as [_ Hlt]. apply Z.ltb_lt in Hlt. lia.
  - exists advice, attempts. unfold ret.
    replace (Z.to_nat (attempts - attempts)) with 0%nat by lia.
    rewrite Nat.mul_0_r, Nat.add_0_r. destruct w. cbn.
    repeat split; try lia; try assumption.
  - apply andb_true_iff in Hcond as [_ Hlt]. apply Z.ltb_lt in Hlt.
    draw A HA aspect. draw T HT technique. draw C HC place.
    draw R HR outcome. draw E HE emoji.
    match goal with |- context [resample _ _ _ _ _ _ _ _ _ _ _ ?w'] =>
      destruct (IH (attempts + 1)%Z (compose lower emoji aspect technique outcome place) w')
        as (advice' & n & Hrun & Hn & Hco' & Hfresh); [lia | lia | |]
    end.
    { exists emoji, aspect, technique, outcome, place. repeat split; assumption. }
    exists advice', n. rewrite Hrun. cbn [fsm data trace draws].
    repeat split; try lia; try assumption.
    do 2 f_equal. lia.
  - exists advice, attempts. unfold ret.
    replace (Z.to_nat (attempts - attempts)) with 0%nat by lia.
    rewrite Nat.mul_0_r, Nat.add_0_r. destruct w. cbn.
    repeat split; try lia; try assumption.
    intros Hlt. apply Z.ltb_lt in Hlt. rewrite Hlt, andb_true_r in Hcond. now subst.
Qed.

(** The aspects handed to the composer: those of the type the lookup
    resolves to, followed by those of the dominant type of the text when
    the two differ. *)
Lemma extract_key_aspects_run (profile : str) (personality_type : value) :
  hashable personality_type = true ->
  exists extracted,
    (forall w,
       extract_key_aspects lower (VStr profile) personality_type w =
         (Ok extracted,
          World (fsm w) (data w)
            (trace w ++ [Log INFO "Запрошены аспекты для типа личности"]) (draws w))) /\
    let own := resolve aspects personality_type (pool aspects default_type) in
    (extracted = own \/
     exists dominant_type, dominant_type ∈ known_types /\
       (extracted = own ++ pool aspects dominant_type \/
        extracted = own /\ personality_type = VStr dominant_type)).
Proof.
  intros Hh.
  assert (Hfb : default [] (assoc aspects default_type) = pool aspects default_type)
    by reflexivity.
  unfold extract_key_aspects.
  destruct (found_keywords lower profile) as [|keyword found] eqn:Hfound.
  - eexists. split.
    + intros w. run. rewrite Hfb, (dict_get_hashable _ _ _ Hh). reflexivity.
    + now left.
  - destruct (py_max_in (type_counts lower (keyword :: found))) as (best & Hmax & Hin).
    { unfold type_counts, keywords. discriminate. }
    assert (Hknown : best.1 ∈ known_types).
    { destruct tables_share_keys as (<- & _).
      unfold type_counts in Hin. apply list_elem_of_fmap in Hin as (kv & -> & Hkv).
      cbn [fst]. apply list_elem_of_fmap. exists kv. split; [reflexivity | exact Hkv]. }
    assert (Hdom : default (pool aspects default_type) (assoc aspects best.1)
                   = pool aspects best.1).
    { unfold pool. destruct (assoc aspects best.1) eqn:E; [reflexivity|].
      apply assoc_none_keys in E. contradiction. }
    destruct (differs best.1 personality_type) eqn:Hdiff.
    + eexists. split.
      * intros w. run. rewrite Hmax. run.
        rewrite Hfb, (dict_get_hashable _ _ _ Hh), Hdom, Hdiff. reflexivity.
      * right. exists best.1. split; [assumption|]. now left.
    + eexists. split.
      * intros w. run. rewrite Hmax. run.
        rewrite Hfb, (dict_get_hashable _ _ _ Hh), Hdiff. reflexivity.
      * right. exists best.1. split; [assumption|]. right. split; [reflexivity|].
        destruct personality_type; try discriminate. cbn in Hdiff.
        apply negb_false_iff, bool_decide_eq_true in Hdiff. now subst.
Qed.

(** One run of the generator. *)
Lemma generate_unique_advice_counted_run
      (profile : str) (personality_type history : value) (w : world) :
  (5 <= fuel)%nat ->
  hashable personality_type = true ->
  is_container history = true ->
  exists extracted advice n,
    (forall w0,
       extract_key_aspects lower (VStr profile) personality_type w0 =
         (Ok extracted,
          World (fsm w0) (data w0)
            (trace w0 ++ [Log INFO "Запрошены аспекты для типа личности"]) (draws w0))) /\
    generate_unique_advice_counted lower rng fuel (VStr profile) personality_type history w =
      (Ok (advice, n),
       World (fsm w) (data w)
         (trace w ++ [Log INFO "Генерация уникального совета на основе профиля";
                      Log INFO "Запрошены аспекты для типа личности";
                      Log INFO "Сгенерирован уникальный совет"])
         (draws w + 5 * (1 + Z.to_nat n))) /\
    (0 <= n <= 5)%Z /\
    composed_from lower (emoji_pool personality_type) (aspect_pool extracted)
      (technique_pool personality_type) (result_pool personality_type)
      (context_pool personality_type) advice /\
    ((n < 5)%Z -> py_contains history advice = Ok false).
Proof.
  intros Hfuel Hh Hc.
  destruct (extract_key_aspects_run profile personality_type Hh) as (extracted & Hex & _).
  destruct tables_have_no_empty_pool as (_ & Ne & Nt & Nc & Nr & _).
  destruct default_type_is_in_tables as (_ & De & Dt & Dc & Dr & _).
  assert (HE : emoji_pool personality_type <> []).
  { apply resolve_nonempty; [assumption | now apply pool_nonempty]. }
  assert (HT : technique_pool personality_type <> []).
  { apply resolve_nonempty; [assumption | now apply pool_nonempty]. }
  assert (HC : context_pool personality_type <> []).
  { apply resolve_nonempty; [assumption | now apply pool_nonempty]. }
  assert (HR : result_pool personality_type <> []).
  { apply resolve_nonempty; [assumption | now apply pool_nonempty]. }
  assert (HA : aspect_pool extracted <> []) by now destruct extracted.
  exists extracted.
  unfold generate_unique_advice_counted.
  unfold bind at 1, lift at 1, py_len. unfold bind at 1, log at 1, emit at 1.
  unfold bind at 1. rewrite Hex. cbn [fsm data trace draws].
  change (match extracted with [] => [utf8 "саморазвитию"] | _ :: _ => extracted end)
    with (aspect_pool extracted).
  rewrite !site_fallback by assumption.
  unfold bind at 1, lift at 1. rewrite (dict_get_hashable _ _ _ Hh).
  fold (emoji_pool personality_type).
  draw (emoji_pool personality_type) HE emoji.
  draw (aspect_pool extracted) HA aspect.
  unfold bind at 1, lift at 1. rewrite (dict_get_hashable _ _ _ Hh).
  fold (technique_pool personality_type).
  draw (technique_pool personality_type) HT technique.
  unfold bind at 1, lift at 1. rewrite (dict_get_hashable _ _ _ Hh).
  fold (context_pool personality_type).
  draw (context_pool personality_type) HC place.
  unfold bind at 1, lift at 1. rewrite (dict_get_hashable _ _ _ Hh).
  fold (result_pool personality_type).
  draw (result_pool personality_type) HR outcome.
  match goal with |- context [bind (resample _ _ _ _ _ _ _ _ _ _ ?advice) _ ?w'] =>
    destruct (resample_run fuel (aspect_pool extracted) (emoji_pool personality_type)
                (technique_pool personality_type) (context_pool personality_type)
                (result_pool personality_type) history HA HE HT HC HR Hc 0%Z advice w')
      as (advice' & n & Hrun & Hn & Hco & Hfresh); [lia | lia | |]
  end.
  { exists emoji, aspect, technique, outcome, place. repeat split; assumption. }
  exists advice', n. split; [assumption|].
  unfold bind at 1. rewrite Hrun. run.
  repeat split; try lia; try assumption.
  do 2 f_equal.
  - now rewrite <- !app_assoc.
  - rewrite Z.sub_0_r. lia.
Qed.



(** C10. With no personality type and no profile details in the session
    data, the advice callback still answers: the type defaults to the
    default type, the empty profile text selects the canned list of that
    type, one of its entries is drawn, sent, and appended to the history
    (kept to its last 20 entries). *)
Theorem C10_advice_without_a_profile (w : world) (used : list value) :
  data w !! "personality_type" = None ->
  data w !! "profile_details" = None ->
  default (VList []) (data w !! "used_advices") = VList used ->
  exists advice,
    advice ∈ pool advice_by_type default_type /\
    get_advice_callback lower rng fuel w =
      (Ok tt,
       World (fsm w)
         (<["used_advices" :=
              VList (if (20 <? len (used ++ [VStr advice]))%Z
                     then last_20 (used ++ [VStr advice])
                     else used ++ [VStr advice])]> (data w))
         (trace w ++
            [ChatAction;
             Log WARNING "Текст профиля отсутствует, используем стандартные советы";
             Log INFO "Выбран стандартный совет для типа личности";
             Answer (AdviceText advice) NoMarkup;
             Answer WhatNext AdviceFollowUp;
             Answer BackToMenu MainKeyboard;
             CallbackAnswer "Совет получен"])
         (S (draws w))).
Proof.
  intros Hpt Hpd Hused.
  destruct tables_have_no_empty_pool as (_ & _ & _ & _ & _ & Nadv).
  destruct default_type_is_in_tables as (_ & _ & _ & _ & _ & Dadv).
  assert (Hpool : pool advice_by_type default_type <> []) by now apply pool_nonempty.
  assert (Hget : getitem advice_by_type default_type = Ok (pool advice_by_type default_type)).
  { unfold getitem, pool. destruct Dadv as [l ->]. reflexivity. }
  assert (Hres : dict_get advice_by_type (VStr default_type)
                   (pool advice_by_type default_type)
                 = Ok (pool advice_by_type default_type)).
  { unfold dict_get, pool. destruct Dadv as [l ->]. reflexivity. }
  unfold get_advice_callback.
  unfold bind at 1, emit at 1. unfold bind at 1, get_data at 1.
  cbn [fsm data trace draws]. rewrite Hpt, Hpd, Hused.
  cbn [default from_option id].
  unfold get_personalized_advice.
  change (truthy (VStr [])) with false. cbn [negb].
  unfold bind at 1. unfold bind at 1, log at 1, emit at 1.
  unfold bind at 1, lift at 1. rewrite Hget.
  unfold bind at 1, lift at 1. rewrite Hres.
  draw (pool advice_by_type default_type) Hpool advice.
  exists advice. split; [assumption|].
  run. repeat rewrite <- app_assoc. reflexivity.
Qed.

End AdviceFacts.

(** ** What the handlers leave alone *)

Section Frames.

Variable R : world -> world -> Prop.
Variable allowed : string -> Prop.
Hypothesis R_trans : forall w1 w2 w3, R w1 w2 -> R w2 w3 -> R w1 w3.
Hypothesis R_same : forall w w', fsm w' = fsm w -> data w' = data w -> R w w'.
Hypothesis R_set : forall w key v, allowed key ->
  R w (World (fsm w) (<[key := v]> (data w)) (trace w) (draws w)).
Hypothesis R_state : forall w s, s <> Some answering_questions ->
  R w (World s (data w) (trace w) (draws w)).
Hypothesis R_clear : forall w, R w (World None ∅ (trace w) (draws w)).

Variable upper : str -> str.
Variable demo_questions : list question.
Variable all_vasini_questions : result (list question).
Variable get_personality_type_from_answers : value -> result (value * value * value).
Variable generate_profile : value -> result (option str).
Variable lower : str -> str.
Variable rng : nat -> nat.
Variable fuel : nat.

Hypothesis R_complete : forall answers,
  preserves R (complete_survey get_personality_type_from_answers generate_profile answers).
Hypothesis allowed_index : allowed "question_index".
Hypothesis allowed_answers : allowed "answers".
Hypothesis allowed_demo : allowed "is_demo_questions".
Hypothesis allowed_waiting : allowed "waiting_for_vasini_confirmation".
Hypothesis allowed_used : allowed "used_advices".



















(** *** The handlers that show something *)









(** *** The advice *)







(** *** The survey *)




End Frames.

(** ** Sessions the handlers can reach *)





















Section Reach.

Variable upper : str -> str.
Variable demo_questions : list question.
Variable all_vasini_questions : result (list question).
Variable get_personality_type_from_answers : value -> result (value * value * value).
Variable generate_profile : value -> result (option str).
Variable lower : str -> str.
Variable rng : nat -> nat.
Variable fuel : nat.



Let process :=
  process_survey_answer upper demo_questions all_vasini_questions
    get_personality_type_from_answers generate_profile.







End Reach.

(** ** The claims at concrete inputs *)

Lemma C2_witness :
  awaiting_confirmation (in_inventory 0 true) /\
  sample_process (Message (Some (utf8 "привет"))) (in_inventory 0 true) =
    (Raise UnboundLocalError,
     World (Some answering_questions) (data (in_inventory 0 true))
       [Log INFO "Загружено вопросов Vasini"] 0).
Proof.
  assert (H : awaiting_confirmation (in_inventory 0 true))
    by (split; vm_compute; reflexivity).
  split; [exact H|].
  exact (proj1 (C2_unexpected_confirmation_input_raises simple_upper sample_demo
                  (Ok sample_inventory) sample_classifier gateway_short
                  (Message (Some (utf8 "привет"))) (in_inventory 0 true)
                  H eq_refl eq_refl)).
Defined.

(** C3, as stated, fails: a profile of 13 characters returned by the
    gateway is stored, the session is marked completed with its answers,
    [type_counts] and [profile_text], and no retry prompt is shown. *)
Lemma C3_short_profile_is_stored_as_completed :
  let w' := (complete_survey sample_classifier gateway_short sample_answers idle).2 in
  (len short_profile < 20)%Z /\
  data w' !! "profile_completed" = Some (VBool true) /\
  data w' !! "answers" = Some sample_answers /\
  data w' !! "type_counts" = Some sample_counts /\
  data w' !! "profile_text" = Some (VStr short_profile) /\
  existsb is_retry_prompt (trace w') = false.
Proof. vm_compute. repeat split. Qed.

Lemma C3_witness :
  sample_classifier sample_answers =
    Ok (sample_counts, VStr (utf8 "Интеллектуальный"), VStr (utf8 "Творческий")) /\
  gateway_down sample_answers = Raise ExternalError /\
  complete_survey sample_classifier gateway_down sample_answers idle =
    (Ok tt,
     World None ∅
       [ChatAction; Answer SurveyFinished NoMarkup;
        Log ERROR "Ошибка при генерации профиля";
        EditText GenerationFailed;
        Answer ReturnToMenu MainKeyboard] 0).
Proof.
  split; [reflexivity|]. split; [reflexivity|].
  exact (proj1 (C3_completion_aborts_only_when_gateway_raises
                  sample_classifier gateway_down sample_answers
                  sample_counts (VStr (utf8 "Интеллектуальный")) (VStr (utf8 "Творческий"))
                  idle eq_refl) ExternalError eq_refl).
Defined.

Lemma sample_text_is_unparseable : unparseable simple_upper (utf8 "не знаю").
Proof. unfold unparseable. apply parse_letters_none. vm_compute. reflexivity. Qed.

Lemma C4_witness :
  answering_inventory (in_inventory 1 false) /\
  py_index (loaded_questions (Ok sample_inventory))
    (default (VInt 0) (data (in_inventory 1 false) !! "question_index"))
    = Ok (sample_question "q2" ["A"; "B"]) /\
  let w' := run_all (replicate 3 (sample_process (Message None))) (in_inventory 1 false) in
  fsm w' = fsm (in_inventory 1 false) /\
  data w' = data (in_inventory 1 false) /\
  (sample_process (Message None) w').1 = Raise AttributeError.
Proof.
  assert (H1 : answering_inventory (in_inventory 1 false))
    by (split; vm_compute; reflexivity).
  assert (H2 : py_index (loaded_questions (Ok sample_inventory))
                 (default (VInt 0) (data (in_inventory 1 false) !! "question_index"))
               = Ok (sample_question "q2" ["A"; "B"])) by (vm_compute; reflexivity).
  assert (H3 : options_of (sample_question "q2" ["A"; "B"])
               = Ok [(utf8 "A", utf8 "вариант"); (utf8 "B", utf8 "вариант")])
    by (vm_compute; reflexivity).
  assert (H4 : py_succ (default (VInt 0) (data (in_inventory 1 false) !! "question_index"))
               = Ok 2%Z) by (vm_compute; reflexivity).
  split; [exact H1|]. split; [exact H2|].
  pose proof (C4_message_without_text_is_not_asked_again simple_upper sample_demo
                (Ok sample_inventory) sample_classifier gateway_short
                (in_inventory 1 false) (sample_question "q2" ["A"; "B"])
                [(utf8 "A", utf8 "вариант"); (utf8 "B", utf8 "вариант")] 2%Z 3
                H1 H2 H3 H4) as [_ H].
  cbv zeta in H. destruct H as (Hf & Hd & logged & Hrun & _).
  cbv zeta. unfold sample_process.
  split; [exact Hf|]. split; [exact Hd|]. rewrite Hrun. reflexivity.
Defined.

(** The exemption of C5 at work: once the overwrite dialog was confirmed,
    the profile is unmarked while its details and type counts are still
    stored; cancelling the new survey deletes them with everything
    else. *)
Example cancel_after_a_confirmed_overwrite_erases_the_rest :
  let restarted := (confirm_restart_survey sample_demo completed_session).2 in
  let cancelled := (sample_process (Message (Some CANCEL_SURVEY)) restarted).2 in
  fsm restarted = Some answering_questions /\
  data restarted !! "profile_completed" = Some (VBool false) /\
  data restarted !! "profile_details" = Some (VStr prior_profile) /\
  data restarted !! "type_counts" = Some sample_counts /\
  data cancelled !! "profile_details" = None /\
  data cancelled !! "type_counts" = None.
Proof. vm_compute. repeat split. Qed.


(** C6, as stated, fails: a profile of 4001 characters on a single line is
    sent as an empty part followed by a part of 4002 characters. *)
Lemma C6_long_line_exceeds_the_limit :
  let profile := replicate 4001 97%N in
  (max_message_length < len profile)%Z /\
  profile_messages profile = [[]; profile ++ [NL]] /\
  existsb (fun part : list N => (max_message_length <? len part)%Z)
    (profile_messages profile) = true.
Proof. vm_compute. repeat split. Qed.

Lemma C6_witness :
  (max_message_length < len two_long_lines)%Z /\
  Forall (fun line : list N => (len line < max_message_length)%Z) (split_lines two_long_lines) /\
  concat (profile_messages two_long_lines) = two_long_lines ++ [NL] /\
  Forall (fun part : list N => (len part <= max_message_length)%Z)
    (profile_messages two_long_lines).
Proof.
  assert (H1 : (max_message_length < len two_long_lines)%Z) by (vm_compute; reflexivity).
  assert (H2 : Forall (fun line : list N => (len line < max_message_length)%Z)
                 (split_lines two_long_lines)).
  { apply Forall_forall. intros line Hin.
    assert (Hb : forallb (fun line : list N => (len line <? max_message_length)%Z)
                   (split_lines two_long_lines) = true) by (vm_compute; reflexivity).
    rewrite forallb_forall in Hb. apply Z.ltb_lt, Hb. now apply list_elem_of_In. }
  split; [exact H1|]. split; [exact H2|].
  destruct (proj2 (C6_profile_is_cut_between_lines two_long_lines) H1)
    as (groups & _ & _ & Hcat & _ & Hfit).
  split; [exact Hcat | exact (Hfit H2)].
Defined.



(** When every composition is already in the history, the sixth one is
    returned although it is a duplicate. *)
Example resampling_gives_up_after_five :
  generate_unique_advice_counted simple_lower (fun _ => 0%nat) 5 (VStr (utf8 "x"))
    (VStr default_type) (VList [VStr first_advice]) idle
  = (Ok (first_advice, 5%Z),
     World None ∅
       [Log INFO "Генерация уникального совета на основе профиля";
        Log INFO "Запрошены аспекты для типа личности";
        Log INFO "Сгенерирован уникальный совет"] 30) /\
  py_contains (VList [VStr first_advice]) first_advice = Ok true.
Proof. vm_compute. split; reflexivity. Qed.

(** C9, as stated, fails: the second sample question has options and
    interpretations for A and B only; the answer D is recorded for it, the
    cursor advances, and the failed lookup only leaves an error in the
    log. *)
Lemma C9_unmapped_letter_is_recorded :
  let q2 := sample_question "q2" ["A"; "B"] in
  let run := sample_process (Message (Some (utf8 "D"))) (in_inventory 1 false) in
  index_at sample_inventory 1 = Ok q2 /\
  options_of q2 = Ok [(utf8 "A", utf8 "вариант"); (utf8 "B", utf8 "вариант")] /\
  assoc [(utf8 "A", utf8 "вариант"); (utf8 "B", utf8 "вариант")] (utf8 "D") = None /\
  interpretation_of q2 (utf8 "D") = Raise KeyError /\
  run.1 = Ok tt /\
  data run.2 !! "answers" =
    Some (VDict [(utf8 "name", VStr (utf8 "Анна")); (utf8 "q2", VStr (utf8 "D"))]) /\
  data run.2 !! "question_index" = Some (VInt 2) /\
  filter (fun e => Is_true (is_error_log e)) (trace run.2) =
    [Log ERROR "Ошибка при отправке интерпретации"].
Proof. vm_compute. repeat split. Qed.

Lemma C9_witness :
  answering_inventory (in_inventory 1 false) /\
  utf8 "D" <> CANCEL_SURVEY /\
  parse_option simple_upper (utf8 "D") = Some (utf8 "D", ExactLetter) /\
  sample_process (Message (Some (utf8 "D"))) (in_inventory 1 false) =
    (Ok tt,
     World (Some answering_questions)
       (<["is_demo_questions" := VBool false]>
          (<["answers" := VDict (dict_set [(utf8 "name", VStr (utf8 "Анна"))]
                                   (utf8 "q2") (VStr (utf8 "D")))]>
             (<["question_index" := VInt 2]> (data (in_inventory 1 false)))))
       ([Log INFO "Загружено вопросов Vasini";
         Log INFO "Получен ответ на вопрос"; Log INFO "Распознан ответ";
         Log ERROR "Ошибка при отправке интерпретации";
         Log INFO "Показываем вопрос с вариантами ответов";
         Answer (VasiniQuestion 3 (utf8 "Что вам ближе?"))
           (options_keyboard
              [(utf8 "A", utf8 "вариант"); (utf8 "B", utf8 "вариант");
               (utf8 "C", utf8 "вариант"); (utf8 "D", utf8 "вариант")])])
       0).
Proof.
  assert (H1 : answering_inventory (in_inventory 1 false))
    by (split; vm_compute; reflexivity).
  assert (H2 : utf8 "D" <> CANCEL_SURVEY) by (vm_compute; discriminate).
  assert (H3 : parse_option simple_upper (utf8 "D") = Some (utf8 "D", ExactLetter))
    by (vm_compute; reflexivity).
  assert (H4 : as_int (default (VInt 0) (data (in_inventory 1 false) !! "question_index"))
               = Some 1%Z) by (vm_compute; reflexivity).
  assert (H5 : index_at (loaded_questions (Ok sample_inventory)) 1
               = Ok (sample_question "q2" ["A"; "B"])) by (vm_compute; reflexivity).
  assert (H6 : default (VDict []) (data (in_inventory 1 false) !! "answers")
               = VDict [(utf8 "name", VStr (utf8 "Анна"))]) by (vm_compute; reflexivity).
  assert (H7 : (1 + 1 < len (loaded_questions (Ok sample_inventory)))%Z)
    by (vm_compute; reflexivity).
  assert (H8 : index_at (loaded_questions (Ok sample_inventory)) (1 + 1)
               = Ok (sample_question "q3" ["A"; "B"; "C"; "D"])) by (vm_compute; reflexivity).
  assert (H9 : options_of (sample_question "q3" ["A"; "B"; "C"; "D"])
               = Ok [(utf8 "A", utf8 "вариант"); (utf8 "B", utf8 "вариант");
                     (utf8 "C", utf8 "вариант"); (utf8 "D", utf8 "вариант")])
    by (vm_compute; reflexivity).
  split; [exact H1|]. split; [exact H2|]. split; [exact H3|].
  destruct (C9_missing_interpretation_is_logged_and_skipped simple_upper sample_demo
              (Ok sample_inventory) sample_classifier gateway_short
              (utf8 "D") (utf8 "D") ExactLetter (in_inventory 1 false)
              (sample_question "q2" ["A"; "B"])
              (sample_question "q3" ["A"; "B"; "C"; "D"])
              [(utf8 "name", VStr (utf8 "Анна"))] 1%Z
              [(utf8 "A", utf8 "вариант"); (utf8 "B", utf8 "вариант");
               (utf8 "C", utf8 "вариант"); (utf8 "D", utf8 "вариант")]
              H1 H2 H3 H4 H5 H6 H7 H8 H9) as [_ Hrun].
  unfold sample_process. rewrite Hrun. vm_compute. reflexivity.
Defined.

Lemma C10_witness :
  data idle !! "personality_type" = None /\
  data idle !! "profile_details" = None /\
  exists advice,
    advice ∈ pool advice_by_type default_type /\
    (get_advice_callback simple_lower (fun n => n) 5 idle).1 = Ok tt /\
    data (get_advice_callback simple_lower (fun n => n) 5 idle).2 !! "used_advices"
      = Some (VList [VStr advice]).
Proof.
  split; [reflexivity|]. split; [reflexivity|].
  destruct (C10_advice_without_a_profile simple_lower (fun n => n) 5 idle []
              eq_refl eq_refl eq_refl) as (advice & Hin & Hrun).
  exists advice. split; [exact Hin|]. rewrite Hrun. split; [reflexivity|].
  cbn [snd data]. apply lookup_insert_eq.
Defined.

(** * Further properties of the code *)

(** ** The parser, completely *)

Section ParserOrder.

Variable upper : str -> str.

Lemma match_letter_first text opt r :
  match_letter upper text opt = Some r <->
  exists earlier later,
    [PrefixColon; PrefixSpace; ExactLetter; IsolatedToken] = earlier ++ r :: later /\
    rule_holds upper r text opt = true /\
    forall r', r' ∈ earlier -> rule_holds upper r' text opt = false.
Proof.
  unfold match_letter. split.
  - destruct (rule_holds upper PrefixColon text opt) eqn:E1.
    { intros [= <-]. exists [], [PrefixSpace; ExactLetter; IsolatedToken].
      repeat split; try assumption. intros r' H. inversion H. }
    destruct (rule_holds upper PrefixSpace text opt) eqn:E2.
    { intros [= <-]. exists [PrefixColon], [ExactLetter; IsolatedToken].
      repeat split; try assumption. intros r' ->%list_elem_of_singleton. assumption. }
    destruct (rule_holds upper ExactLetter text opt) eqn:E3.
    { intros [= <-]. exists [PrefixColon; PrefixSpace], [IsolatedToken].
      repeat split; try assumption.
      intros r' H. repeat (apply elem_of_cons in H as [->|H]); try assumption. inversion H. }
    destruct (rule_holds upper IsolatedToken text opt) eqn:E4; [|discriminate].
    intros [= <-]. exists [PrefixColon; PrefixSpace; ExactLetter], [].
    repeat split; try assumption.
    intros r' H. repeat (apply elem_of_cons in H as [->|H]); try assumption. inversion H.
  - intros (earlier & later & Heq & Hr & Hb).
    destruct earlier as [|r1 earlier]; cbn in Heq.
    { injection Heq as <- _. now rewrite Hr. }
    injection Heq as <- Heq. rewrite (Hb PrefixColon) by constructor.
    destruct earlier as [|r2 earlier]; cbn in Heq.
    { injection Heq as <- _. now rewrite Hr. }
    injection Heq as <- Heq. rewrite (Hb PrefixSpace) by (right; left).
    destruct earlier as [|r3 earlier]; cbn in Heq.
    { injection Heq as <- _. now rewrite Hr. }
    injection Heq as <- Heq. rewrite (Hb ExactLetter) by (right; right; left).
    destruct earlier as [|r4 earlier]; cbn in Heq.
    { injection Heq as <- _. now rewrite Hr. }
    now destruct earlier.
Qed.

Lemma parse_letters_first text opts opt r :
  parse_letters upper text opts = Some (opt, r) <->
  exists before after,
    opts = before ++ opt :: after /\
    match_letter upper text opt = Some r /\
    forall o r', o ∈ before -> rule_holds upper r' text o = false.
Proof.
  split.
  - induction opts as [|o opts IH]; cbn [parse_letters]; [discriminate|].
    destruct (match_letter upper text o) eqn:E.
    + intros [= <- <-]. exists [], opts. repeat split; try assumption.
      intros ? ? H. inversion H.
    + intros H. destruct (IH H) as (before & after & -> & Hm & Hb).
      exists (o :: before), after. repeat split; try assumption.
      intros o' r' Hin. apply elem_of_cons in Hin as [->|Hin].
      * now apply match_letter_none.
      * now apply Hb.
  - intros (before & after & -> & Hm & Hb).
    induction before as [|o before IH]; cbn [parse_letters app].
    + now rewrite Hm.
    + assert (Ho : match_letter upper text o = None).
      { apply match_letter_none. intros r'. apply Hb. constructor. }
      rewrite Ho. apply IH. intros o' r' Hin. apply Hb. now right.
Qed.

Lemma parse_option_first (text opt : str) (r : rule) :
  parse_option upper text = Some (opt, r) <->
  exists before after earlier later,
    option_letters = before ++ opt :: after /\
    [PrefixColon; PrefixSpace; ExactLetter; IsolatedToken] = earlier ++ r :: later /\
    rule_holds upper r text opt = true /\
    (forall r', r' ∈ earlier -> rule_holds upper r' text opt = false) /\
    (forall o r', o ∈ before -> rule_holds upper r' text o = false).
Proof.
  unfold parse_option. rewrite parse_letters_first. split.
  - intros (before & after & Heq & Hm & Hb).
    apply match_letter_first in Hm as (earlier & later & Hrules & Hr & He).
    exists before, after, earlier, later. repeat split; assumption.
  - intros (before & after & earlier & later & Heq & Hrules & Hr & He & Hb).
    exists before, after. repeat split; try assumption.
    apply match_letter_first. exists earlier, later. repeat split; assumption.
Qed.

(** X1. What the parser returns, exactly: the first of A, B, C, D for
    which any of the four checks holds, with the first check, in the order
    of the [if]/[elif] chain, that holds for that letter. *)
Theorem X1_parse_option_is_letter_major (text opt : str) (r : rule) :
  parse_option upper text = Some (opt, r) <->
  exists before after earlier later,
    option_letters = before ++ opt :: after /\
    [PrefixColon; PrefixSpace; ExactLetter; IsolatedToken] = earlier ++ r :: later /\
    rule_holds upper r text opt = true /\
    (forall r', r' ∈ earlier -> rule_holds upper r' text opt = false) /\
    (forall o r', o ∈ before -> rule_holds upper r' text o = false).
Proof. apply parse_option_first. Qed.

Lemma first_letter_with_none r text opts :
  (forall o, o ∈ opts -> rule_holds upper r text o = false) ->
  first_letter_with upper r text opts = None.
Proof.
  induction opts as [|o opts IH]; intros H; cbn [first_letter_with]; [reflexivity|].
  rewrite (H o) by constructor. apply IH. intros o' Hin. apply H. now right.
Qed.

Lemma first_letter_with_some r text opts opt :
  opt ∈ opts ->
  rule_holds upper r text opt = true ->
  (forall o, o ∈ opts -> rule_holds upper r text o = true -> o = opt) ->
  first_letter_with upper r text opts = Some opt.
Proof.
  induction opts as [|o opts IH]; intros Hin Hr Hu; [inversion Hin|].
  cbn [first_letter_with]. destruct (rule_holds upper r text o) eqn:E.
  - f_equal. apply Hu; [constructor | assumption].
  - apply elem_of_cons in Hin as [->|Hin]; [congruence|].
    apply IH; try assumption. intros o' Hin' Hr'. apply Hu; [now right | assumption].
Qed.

(** X2. On a text that fits the accepted formats of one letter only, the
    letter-by-letter loop of the code and the rule-by-rule parser of the
    specification return the same letter and the same check. *)
Theorem X2_parsers_agree_when_one_letter_matches (text : str) :
  (forall o o' r r', o ∈ option_letters -> o' ∈ option_letters ->
     rule_holds upper r text o = true -> rule_holds upper r' text o' = true -> o = o') ->
  parse_option upper text = parse_option_by_rule upper text.
Proof.
  intros Hone.
  destruct (parse_option upper text) as [[opt r]|] eqn:Hp.
  - apply parse_option_first in Hp
      as (before & after & earlier & later & Heq & Hrules & Hr & He & Hb).
    assert (Hin : opt ∈ option_letters).
    { rewrite Heq. apply elem_of_app. right. constructor. }
    assert (Hnone : forall r', r' ∈ earlier ->
              first_letter_with upper r' text option_letters = None).
    { intros r' Hr'. apply first_letter_with_none. intros o Ho.
      destruct (rule_holds upper r' text o) eqn:E; [|reflexivity].
      rewrite (Hone o opt r' r Ho Hin E Hr) in E. rewrite (He r' Hr') in E. discriminate. }
    assert (Hsome : first_letter_with upper r text option_letters = Some opt).
    { apply first_letter_with_some; try assumption.
      intros o Ho Hro. exact (Hone o opt r r Ho Hin Hro Hr). }
    unfold parse_option_by_rule. rewrite Hrules. clear Hrules.
    induction earlier as [|r1 earlier IH]; cbn [parse_rules app].
    + now rewrite Hsome.
    + rewrite (Hnone r1) by constructor. apply IH.
      * intros r' Hr'. apply He. now right.
      * intros r' Hr'. apply Hnone. now right.
  - pose proof (proj1 (parse_letters_none upper text option_letters) Hp) as Hn.
    unfold parse_option_by_rule, parse_rules.
    now rewrite !first_letter_with_none by (intros o Ho; now apply Hn).
Qed.

(** X3. Pressing an option button: the text of a button is the letter, a
    colon, a space and the option text, and it parses back to its letter by
    the colon-prefix check as long as no check holds for an earlier
    letter; for the first letter, always. *)
Theorem X3_option_button_parses_to_its_letter (opt option_text : str) (before after : list str) :
  option_letters = before ++ opt :: after ->
  (forall o r', o ∈ before ->
     rule_holds upper r' (opt ++ utf8 ": " ++ option_text) o = false) ->
  parse_option upper (opt ++ utf8 ": " ++ option_text) = Some (opt, PrefixColon).
Proof.
  intros Heq Hb. apply parse_option_first.
  exists before, after, [], [PrefixSpace; ExactLetter; IsolatedToken].
  repeat split; try assumption.
  - cbn [rule_holds].
    assert (Hopt : exists c, opt = [c]).
    { assert (Hin : opt ∈ option_letters).
      { rewrite Heq. apply elem_of_app. right. constructor. }
      unfold option_letters in Hin.
      repeat (apply elem_of_cons in Hin as [->|Hin]); try (eexists; vm_compute; reflexivity).
      inversion Hin. }
    destruct Hopt as [c ->]. change (utf8 ": ") with [58%N; 32%N].
    change (utf8 ":") with [58%N]. cbn. now rewrite !N.eqb_refl.
  - intros r' H. inversion H.
Qed.

End ParserOrder.

Lemma X3_witness :
  parse_option simple_upper (utf8 "C" ++ utf8 ": " ++ utf8 "спокойно и по плану")
  = Some (utf8 "C", PrefixColon).
Proof.
  apply (X3_option_button_parses_to_its_letter simple_upper (utf8 "C")
           (utf8 "спокойно и по плану") [utf8 "A"; utf8 "B"] [utf8 "D"]).
  - reflexivity.
  - intros o r' Hin.
    repeat (apply elem_of_cons in Hin as [->|Hin]);
      try (destruct r'; vm_compute; reflexivity).
    inversion Hin.
Defined.

Lemma X2_witness :
  parse_option simple_upper (utf8 "ответ d наверное")
  = parse_option_by_rule simple_upper (utf8 "ответ d наверное").
Proof.
  apply X2_parsers_agree_when_one_letter_matches.
  intros o o' r r' Ho Ho'. unfold option_letters in Ho, Ho'.
  repeat (apply elem_of_cons in Ho as [->|Ho]); try (now inversion Ho);
    repeat (apply elem_of_cons in Ho' as [->|Ho']); try (now inversion Ho');
    destruct r, r'; vm_compute; congruence.
Defined.

(** ** Starting a survey over *)

Section Restart.

Variable first : question.
Variable rest : list question.

(** X4. Confirming the overwrite dialog always starts the survey: the
    profile is unmarked first, so the guard of [start_survey] cannot ask
    again.  The first demo question is shown, the cursor and the answers
    are reset, and every field outside the seven written ones, among them
    [profile_details], [type_counts] and [used_advices] of the earlier
    session, is left as it was. *)
Theorem X4_confirmed_overwrite_starts_the_survey (w : world) :
  let run := confirm_restart_survey (first :: rest) w in
  run.1 = Ok tt /\
  fsm run.2 = Some answering_questions /\
  trace run.2 = trace w ++
    [DeleteMessage; Answer SurveyIntro NoMarkup;
     Answer (FirstQuestion (q_text first)) CancelKeyboard;
     Log INFO "начал опрос"; CallbackAnswer "Начинаем опрос заново"] /\
  data run.2 !! "profile_completed" = Some (VBool false) /\
  data run.2 !! "profile_text" = Some (VStr []) /\
  data run.2 !! "personality_type" = Some VNone /\
  data run.2 !! "answers" = Some (VDict []) /\
  data run.2 !! "question_index" = Some (VInt 0) /\
  data run.2 !! "is_demo_questions" = Some (VBool true) /\
  forall key, key ∉ restart_keys -> data run.2 !! key = data w !! key.
Proof.
  unfold confirm_restart_survey, start_survey. run.
  rewrite lookup_insert_ne, lookup_insert_ne, lookup_insert_eq by done.
  cbn [default from_option id truthy]. run.
  change (index_at (first :: rest) 0) with (Ok first). run.
  repeat split; try (by simplify_map_eq).
  - now rewrite <- !app_assoc.
  - intros key Hkey. unfold restart_keys in Hkey.
    repeat (apply not_elem_of_cons in Hkey as [? Hkey]).
    by rewrite !lookup_insert_ne.
Qed.

(** X5. Confirming the reset dialog starts the survey as well and, unlike
    the overwrite dialog, empties [profile_details] too; [type_counts],
    [secondary_type] and [used_advices] are still left in place. *)
Theorem X5_confirmed_reset_starts_the_survey (w : world) :
  let run := confirm_profile_reset (first :: rest) w in
  run.1 = Ok tt /\
  fsm run.2 = Some answering_questions /\
  data run.2 !! "profile_completed" = Some (VBool false) /\
  data run.2 !! "profile_details" = Some (VStr []) /\
  data run.2 !! "profile_text" = Some (VStr []) /\
  data run.2 !! "personality_type" = Some VNone /\
  data run.2 !! "answers" = Some (VDict []) /\
  data run.2 !! "question_index" = Some (VInt 0) /\
  data run.2 !! "is_demo_questions" = Some (VBool true) /\
  data run.2 !! "waiting_for_vasini_confirmation" = Some (VBool false) /\
  forall key, key ∉ reset_keys -> data run.2 !! key = data w !! key.
Proof.
  unfold confirm_profile_reset, start_survey. run.
  rewrite !lookup_insert_ne, lookup_insert_eq by done.
  cbn [default from_option id truthy]. run.
  change (index_at (first :: rest) 0) with (Ok first). run.
  repeat split; try (by simplify_map_eq).
  intros key Hkey. unfold reset_keys in Hkey.
  repeat (apply not_elem_of_cons in Hkey as [? Hkey]).
  by rewrite !lookup_insert_ne.
Qed.

End Restart.

(** X6. With an empty list of demo questions the confirmed overwrite
    unmarks the profile and then fails on the first question: the handler
    raises [IndexError] after the introduction was sent, and no survey is
    running. *)
Theorem X6_restart_on_an_empty_catalog_fails (w : world) :
  let run := confirm_restart_survey [] w in
  run.1 = Raise IndexError /\
  fsm run.2 = fsm w /\
  data run.2 !! "profile_completed" = Some (VBool false) /\
  trace run.2 = trace w ++ [DeleteMessage; Answer SurveyIntro NoMarkup].
Proof.
  unfold confirm_restart_survey, start_survey. run.
  rewrite lookup_insert_ne, lookup_insert_ne, lookup_insert_eq by done.
  cbn [default from_option id truthy]. run.
  change (index_at (@nil question) 0) with (@Raise question IndexError). run.
  repeat split; try (by simplify_map_eq). now rewrite <- !app_assoc.
Qed.

(** ** Walking through the survey *)

Lemma index_at_middle {A} (done : list A) (q : A) (todo : list A) :
  index_at (done ++ q :: todo) (len done) = Ok q.
Proof.
  unfold index_at, len.
  destruct (Z.ltb_spec (Z.of_nat (length done)) 0) as [H|_]; [lia|].
  destruct (Z.ltb_spec (Z.of_nat (length done)) 0) as [H|_]; [lia|].
  rewrite Nat2Z.id, list_lookup_middle by reflexivity. reflexivity.
Qed.

Lemma run_all_cons (h : handler unit) (hs : list (handler unit)) (w : world) :
  run_all (h :: hs) w = run_all hs (h w).2.
Proof. reflexivity. Qed.

Lemma dict_set_fresh (d : list (str * value)) (k : str) (v : value) :
  k ∉ map fst d -> dict_set d k v = d ++ [(k, v)].
Proof.
  induction d as [|[k' v'] d IH]; intros Hk; [reflexivity|].
  cbn [map fst] in Hk. apply not_elem_of_cons in Hk as [Hne Hk].
  cbn [dict_set app]. unfold str_eqb. rewrite bool_decide_eq_false_2 by congruence.
  now rewrite IH.
Qed.

Section Walk.

Variable upper : str -> str.
Variable demo_questions : list question.
Variable all_vasini_questions : result (list question).
Variable get_personality_type_from_answers : value -> result (value * value * value).
Variable generate_profile : value -> result (option str).

Let process :=
  process_survey_answer upper demo_questions all_vasini_questions
    get_personality_type_from_answers generate_profile.

Ltac enter Hc :=
  unfold process, process_survey_answer; rewrite Hc;
  unfold bind at 1, get_data at 1; cbv beta iota zeta;
  unfold bind at 1;
  rewrite (load_vasini_questions_run upper demo_questions all_vasini_questions
             get_personality_type_from_answers generate_profile);
  cbv beta iota zeta.

(** One demo answer that is not the last. *)
Lemma demo_answer_advances (m : message) (w : world) (done : list question)
      (q next : question) (todo : list question) (d : list (str * value)) :
  demo_questions = done ++ q :: next :: todo ->
  text_is m CANCEL_SURVEY = false ->
  data w !! "question_index" = Some (VInt (len done)) ->
  data w !! "answers" = Some (VDict d) ->
  truthy (default (VBool true) (data w !! "is_demo_questions")) = true ->
  process m w =
    (Ok tt,
     World (fsm w)
       (<["is_demo_questions" := default (VBool true) (data w !! "is_demo_questions")]>
          (<["answers" := VDict (dict_set d (q_id q) (text_value m))]>
             (<["question_index" := VInt (len done + 1)]> (data w))))
       (trace w ++ loading_logs all_vasini_questions ++
          [Answer (DemoQuestion (len done + 1 + 1) (len demo_questions) (q_text next))
             CancelKeyboard])
       (draws w)).
Proof.
  intros Hdemo Hc Hi Ha Ht. enter Hc. rewrite Ht, Hi, Ha.
  cbn [default from_option id py_index as_int py_succ].
  assert (Hq : index_at demo_questions (len done) = Ok q)
    by (rewrite Hdemo; apply index_at_middle).
  assert (Hn : index_at demo_questions (len done + 1) = Ok next).
  { rewrite Hdemo. replace (len done + 1)%Z with (len (done ++ [q])).
    - change (done ++ q :: next :: todo) with (done ++ [q] ++ next :: todo).
      rewrite (app_assoc done [q] (next :: todo)). apply index_at_middle.
    - unfold len. rewrite length_app. cbn [length]. lia. }
  assert (Hlen : (len demo_questions <=? len done + 1)%Z = false).
  { apply Z.leb_gt. rewrite Hdemo. unfold len. rewrite length_app. cbn [length]. lia. }
  run. rewrite Hq. run. cbn [setitem]. run. rewrite Hlen. run. rewrite Hn. run.
  now rewrite <- !app_assoc.
Qed.

(** The last demo answer: the cursor goes back to 0 and the confirmation
    is awaited. *)
Lemma demo_answer_finishes (m : message) (w : world) (done : list question)
      (q : question) (d : list (str * value)) :
  demo_questions = done ++ [q] ->
  text_is m CANCEL_SURVEY = false ->
  data w !! "question_index" = Some (VInt (len done)) ->
  data w !! "answers" = Some (VDict d) ->
  truthy (default (VBool true) (data w !! "is_demo_questions")) = true ->
  process m w =
    (Ok tt,
     World (fsm w)
       (<["waiting_for_vasini_confirmation" := VBool true]>
          (<["is_demo_questions" := VBool false]>
             (<["answers" := VDict (dict_set d (q_id q) (text_value m))]>
                (<["question_index" := VInt 0]> (data w)))))
       (trace w ++ loading_logs all_vasini_questions ++ [Answer VasiniIntro ReadyKeyboard])
       (draws w)).
Proof.
  intros Hdemo Hc Hi Ha Ht. enter Hc. rewrite Ht, Hi, Ha.
  cbn [default from_option id py_index as_int py_succ].
  assert (Hq : index_at demo_questions (len done) = Ok q)
    by (rewrite Hdemo; apply index_at_middle).
  assert (Hlen : (len demo_questions <=? len done + 1)%Z = true).
  { apply Z.leb_le. rewrite Hdemo. unfold len. rewrite length_app. cbn [length]. lia. }
  run. rewrite Hq. run. cbn [setitem]. run. rewrite Hlen. run.
  now rewrite <- !app_assoc.
Qed.

Lemma demo_walk (todo : list question) :
  forall (done : list question) (ms : list message) (w : world) (d : list (str * value)),
    demo_questions = done ++ todo ->
    todo <> [] ->
    length ms = length todo ->
    Forall (fun m => text_is m CANCEL_SURVEY = false) ms ->
    data w !! "question_index" = Some (VInt (len done)) ->
    data w !! "answers" = Some (VDict d) ->
    truthy (default (VBool true) (data w !! "is_demo_questions")) = true ->
    let w' := run_all (map process ms) w in
    fsm w' = fsm w /\
    data w' !! "answers" = Some (VDict (record_all d todo ms)) /\
    data w' !! "question_index" = Some (VInt 0) /\
    awaiting_confirmation w'.
Proof.
  induction todo as [|q todo IH]; intros done ms w d Hdemo Hne Hlen Hms Hi Ha Ht;
    [congruence|].
  destruct ms as [|m ms]; [discriminate|]. cbn [length] in Hlen.
  apply Forall_cons in Hms as [Hm Hms].
  cbn [map]. rewrite run_all_cons.
  destruct todo as [|next todo].
  - destruct ms; [|discriminate]. cbn [map]. unfold run_all at 1 2 3 4. cbn [foldl].
    rewrite (demo_answer_finishes m w done q d Hdemo Hm Hi Ha Ht).
    cbn [snd fsm data]. unfold awaiting_confirmation, record_all.
    cbn [data zip zip_with foldl fst snd].
    repeat split; by simplify_map_eq.
  - rewrite (demo_answer_advances m w done q next todo d Hdemo Hm Hi Ha Ht).
    cbn [snd].
    match goal with |- context [run_all _ ?w1] =>
      destruct (IH (done ++ [q]) ms w1 (dict_set d (q_id q) (text_value m)))
        as (Hf & Han & Hix & Haw)
    end.
    + now rewrite <- app_assoc.
    + discriminate.
    + now injection Hlen.
    + assumption.
    + cbn [data]. rewrite lookup_insert_ne, lookup_insert_ne, lookup_insert_eq by done.
      do 2 f_equal. unfold len. rewrite length_app. cbn [length]. lia.
    + cbn [data]. by rewrite lookup_insert_ne, lookup_insert_eq.
    + cbn [data]. rewrite lookup_insert_eq. cbn [default from_option id]. exact Ht.
    + cbn [fsm] in Hf. split; [exact Hf|]. split; [exact Han|].
      split; [exact Hix | exact Haw].
Qed.

Lemma record_all_fresh (qs : list question) :
  forall (ms : list message) (d : list (str * value)),
    length ms = length qs ->
    NoDup (map fst d ++ map q_id qs) ->
    record_all d qs ms = d ++ zip (map q_id qs) (map text_value ms).
Proof.
  induction qs as [|q qs IH]; intros ms d Hlen Hnd.
  - destruct ms; [|discriminate]. unfold record_all. cbn. now rewrite app_nil_r.
  - destruct ms as [|m ms]; [discriminate|].
    unfold record_all. cbn [zip zip_with foldl fst snd map].
    fold (record_all (dict_set d (q_id q) (text_value m)) qs ms).
    assert (Hfresh : q_id q ∉ map fst d).
    { apply NoDup_app in Hnd as (_ & Hdis & _). intros Hin.
      apply (Hdis _ Hin). cbn. constructor. }
    rewrite dict_set_fresh by assumption.
    rewrite IH.
    + now rewrite <- app_assoc.
    + now injection Hlen.
    + rewrite map_app. cbn [map fst]. rewrite <- app_assoc. exact Hnd.
Qed.

(** X7. The demo phase, from the state [start_survey] leaves: when the
    demo questions have distinct ids, answering each of them (with anything
    but the cancel button, a message without text included) records the
    answers one per question in question order, takes the cursor back to 0
    and ends awaiting the confirmation of the inventory. *)
Theorem X7_demo_phase_records_one_answer_per_question (ms : list message) (w : world) :
  demo_questions <> [] ->
  NoDup (map q_id demo_questions) ->
  length ms = length demo_questions ->
  Forall (fun m => text_is m CANCEL_SURVEY = false) ms ->
  data w !! "question_index" = Some (VInt 0) ->
  data w !! "answers" = Some (VDict []) ->
  truthy (default (VBool true) (data w !! "is_demo_questions")) = true ->
  let w' := run_all (map process ms) w in
  fsm w' = fsm w /\
  data w' !! "answers" =
    Some (VDict (zip (map q_id demo_questions) (map text_value ms))) /\
  data w' !! "question_index" = Some (VInt 0) /\
  awaiting_confirmation w'.
Proof.
  intros Hne Hnd Hlen Hms Hi Ha Ht.
  pose proof (demo_walk demo_questions [] ms w [] eq_refl Hne Hlen Hms Hi Ha Ht) as H.
  cbv zeta in H. rewrite (record_all_fresh demo_questions ms [] Hlen Hnd) in H.
  exact H.
Qed.

End Walk.

Section Inventory.

Variable upper : str -> str.
Variable demo_questions : list question.
Variable all_vasini_questions : result (list question).
Variable get_personality_type_from_answers : value -> result (value * value * value).
Variable generate_profile : value -> result (option str).

Let process :=
  process_survey_answer upper demo_questions all_vasini_questions
    get_personality_type_from_answers generate_profile.

Ltac enter Hc :=
  unfold process, process_survey_answer; rewrite Hc;
  unfold bind at 1, get_data at 1; cbv beta iota zeta;
  unfold bind at 1;
  rewrite (load_vasini_questions_run upper demo_questions all_vasini_questions
             get_personality_type_from_answers generate_profile);
  cbv beta iota zeta.

Lemma ready_is_not_cancel (m : message) :
  text_is m READY = true -> text_is m CANCEL_SURVEY = false.
Proof.
  unfold text_is, str_eqb. destruct (text m) as [t|]; [|discriminate].
  intros ->%bool_decide_eq_true. now vm_compute.
Qed.

Lemma ready_answer_run (m : message) (w : world) (q : question)
      (options : list (str * str)) (i : Z) :
  awaiting_confirmation w ->
  text_is m READY = true ->
  as_int (default (VInt 0) (data w !! "question_index")) = Some i ->
  index_at (loaded_questions all_vasini_questions) i = Ok q ->
  options_of q = Ok options ->
  let w' :=
    World (fsm w) (<["waiting_for_vasini_confirmation" := VBool false]> (data w))
      (trace w ++ loading_logs all_vasini_questions ++
         [Log INFO "Показываем вопрос 1 с вариантами ответов";
          Answer (VasiniQuestion (i + 1) (q_text q)) (options_keyboard options)])
      (draws w) in
  process m w = (Ok tt, w') /\
  answering_inventory w' /\
  data w' !! "question_index" = data w !! "question_index" /\
  data w' !! "answers" = data w !! "answers".
Proof.
  intros [Hdemo Hwait] Hready Hi Hq Ho w'.
  pose proof (ready_is_not_cancel m Hready) as Hc.
  split; [|split; [|split]].
  - enter Hc. rewrite Hdemo, Hwait, Hready.
    unfold py_index, py_succ. rewrite Hi. run. rewrite Hq. run. rewrite Ho. run.
    subst w'. now rewrite <- !app_assoc.
  - unfold answering_inventory. subst w'. cbn [data].
    rewrite lookup_insert_ne by done. rewrite lookup_insert_eq. split; [exact Hdemo | reflexivity].
  - subst w'. cbn [data]. by rewrite lookup_insert_ne.
  - subst w'. cbn [data]. by rewrite lookup_insert_ne.
Qed.

(** X8. The ready button, while the confirmation is awaited: the question
    under the cursor is shown with its option buttons, only the waiting
    flag is written, and the session is in the inventory phase afterwards,
    cursor and answers as they were. *)
Theorem X8_ready_opens_the_inventory (m : message) (w : world) (q : question)
      (options : list (str * str)) (i : Z) :
  awaiting_confirmation w ->
  text_is m READY = true ->
  as_int (default (VInt 0) (data w !! "question_index")) = Some i ->
  index_at (loaded_questions all_vasini_questions) i = Ok q ->
  options_of q = Ok options ->
  let w' :=
    World (fsm w) (<["waiting_for_vasini_confirmation" := VBool false]> (data w))
      (trace w ++ loading_logs all_vasini_questions ++
         [Log INFO "Показываем вопрос 1 с вариантами ответов";
          Answer (VasiniQuestion (i + 1) (q_text q)) (options_keyboard options)])
      (draws w) in
  process m w = (Ok tt, w') /\
  answering_inventory w' /\
  data w' !! "question_index" = data w !! "question_index" /\
  data w' !! "answers" = data w !! "answers".
Proof. apply ready_answer_run. Qed.

Lemma last_inventory_answer (t opt : str) (r : rule) (w : world) (q : question)
      (answers : list (str * value)) (i : Z) :
  answering_inventory w ->
  t <> CANCEL_SURVEY ->
  parse_option upper t = Some (opt, r) ->
  as_int (default (VInt 0) (data w !! "question_index")) = Some i ->
  index_at (loaded_questions all_vasini_questions) i = Ok q ->
  default (VDict []) (data w !! "answers") = VDict answers ->
  (len (loaded_questions all_vasini_questions) <= i + 1)%Z ->
  process (Message (Some t)) w =
    complete_survey get_personality_type_from_answers generate_profile
      (VDict (dict_set answers (q_id q) (VStr opt)))
      (World (fsm w) (data w)
         (trace w ++ loading_logs all_vasini_questions ++
            [Log INFO "Получен ответ на вопрос"; Log INFO "Распознан ответ"] ++
            interpretation_events q opt)
         (draws w)).
Proof.
  intros [Hdemo Hwait] Hne Hp Hi Hq Ha Hlast.
  assert (Hc : text_is (Message (Some t)) CANCEL_SURVEY = false).
  { unfold text_is, str_eqb. cbn. now apply bool_decide_eq_false. }
  enter Hc. rewrite Hdemo, Hwait.
  unfold py_index, py_succ. rewrite Hi, Ha. cbn [text]. rewrite Hp.
  unfold bind at 1, lift at 1. rewrite Hq.
  unfold bind at 1, log at 1, emit at 1. cbn [fsm data trace draws].
  unfold bind at 1, log at 1, emit at 1. cbn [fsm data trace draws].
  unfold bind at 1, lift at 1, setitem.
  unfold bind at 1, try_except, interpretation_events.
  apply Z.leb_le in Hlast.
  destruct (interpretation_of q opt) as [interpretation|e].
  - unfold bind at 1, lift at 1. unfold bind at 1, emit at 1. cbn [fsm data trace draws].
    unfold emit at 1. cbn [fsm data trace draws].
    unfold bind at 1, lift at 1. rewrite Hlast.
    f_equal. f_equal. now rewrite <- !app_assoc.
  - unfold bind at 1, lift at 1. unfold log at 1, emit at 1. cbn [fsm data trace draws].
    unfold bind at 1, lift at 1. rewrite Hlast.
    f_equal. f_equal. now rewrite <- !app_assoc.
Qed.

(** X9. The answer to the last inventory question, when the classifier
    returns: the letter is recorded, its interpretation sent (or the failed
    lookup logged), and the survey is completed in the same round.  If the
    gateway raises, the retry prompt is shown and the session is idle and
    empty; if it answers, the session is idle and holds the answers with
    the new letter, the completion mark and the profile.  The cursor itself
    is never stored for the last question. *)
Theorem X9_last_answer_runs_completion (t opt : str) (r : rule) (w : world) (q : question)
      (answers : list (str * value)) (i : Z)
      (type_counts primary_type secondary_type : value) :
  answering_inventory w ->
  t <> CANCEL_SURVEY ->
  parse_option upper t = Some (opt, r) ->
  as_int (default (VInt 0) (data w !! "question_index")) = Some i ->
  index_at (loaded_questions all_vasini_questions) i = Ok q ->
  default (VDict []) (data w !! "answers") = VDict answers ->
  (len (loaded_questions all_vasini_questions) <= i + 1)%Z ->
  let recorded := VDict (dict_set answers (q_id q) (VStr opt)) in
  let shown :=
    trace w ++ loading_logs all_vasini_questions ++
      [Log INFO "Получен ответ на вопрос"; Log INFO "Распознан ответ"] ++
      interpretation_events q opt ++ [ChatAction; Answer SurveyFinished NoMarkup] in
  get_personality_type_from_answers recorded
    = Ok (type_counts, primary_type, secondary_type) ->
  (forall e, generate_profile recorded = Raise e ->
     process (Message (Some t)) w =
       (Ok tt,
        World None ∅
          (shown ++ [Log ERROR "Ошибка при генерации профиля";
                     EditText GenerationFailed;
                     Answer ReturnToMenu MainKeyboard])
          (draws w))) /\
  (forall details, generate_profile recorded = Ok details ->
     process (Message (Some t)) w =
       (Ok tt,
        World None
          (completed_data w recorded type_counts primary_type secondary_type
             (default [] details))
          (shown ++ [Log INFO "Получен детальный профиль";
                     Log INFO "Проверка сохранения детального профиля";
                     DeleteMessage] ++
             part_events (profile_messages (default [] details)) AdviceButton ++
             [Answer BackToMenu MainKeyboard;
              Log INFO "завершил опрос, профиль сгенерирован"])
          (draws w))).
Proof.
  intros Hph Hne Hp Hi Hq Ha Hlast recorded shown Hcl.
  pose proof (last_inventory_answer t opt r w q answers i Hph Hne Hp Hi Hq Ha Hlast) as Hrun.
  fold recorded in Hrun. split.
  - intros e Hgw. rewrite Hrun.
    rewrite (complete_survey_gateway_raises get_personality_type_from_answers
               generate_profile recorded _ _ e Hcl Hgw).
    cbn [fsm data trace draws]. subst shown. f_equal. f_equal.
    now rewrite <- !app_assoc.
  - intros details Hgw. rewrite Hrun.
    pose proof (complete_survey_gateway_answers get_personality_type_from_answers
                  generate_profile recorded) as Hdone.
    cbv zeta in Hdone. rewrite (Hdone _ _ _ _ _ Hcl Hgw).
    cbn [fsm data trace draws]. subst shown. f_equal. f_equal.
    now rewrite <- !app_assoc.
Qed.

(** X10. A classifier that raises is not caught: [complete_survey] calls it
    before its [try], so the exception leaves the handler after the
    "generating" message, with no retry prompt, and the state and the
    session data are as before; a raising gateway, by contrast, is caught
    and clears the session. *)
Theorem X10_a_raising_classifier_is_not_caught (answers : value) (w : world) (e : exn) :
  get_personality_type_from_answers answers = Raise e ->
  complete_survey get_personality_type_from_answers generate_profile answers w =
    (Raise e,
     World (fsm w) (data w)
       (trace w ++ [ChatAction; Answer SurveyFinished NoMarkup]) (draws w)).
Proof.
  intros Hcl. unfold complete_survey. run. rewrite Hcl. run.
  now rewrite <- !app_assoc.
Qed.

(** One recognised inventory answer that is not the last. *)
Lemma inventory_answer_advances (t opt : str) (w : world) (done : list question)
      (q next : question) (todo : list question) (d : list (str * value)) :
  loaded_questions all_vasini_questions = done ++ q :: next :: todo ->
  answering_inventory w ->
  reads_as upper t opt ->
  data w !! "question_index" = Some (VInt (len done)) ->
  data w !! "answers" = Some (VDict d) ->
  is_Some (q_options next) ->
  exists shown,
    process (Message (Some t)) w =
      (Ok tt,
       World (fsm w)
         (<["is_demo_questions" := default (VBool true) (data w !! "is_demo_questions")]>
            (<["answers" := VDict (dict_set d (q_id q) (VStr opt))]>
               (<["question_index" := VInt (len done + 1)]> (data w))))
         (trace w ++ shown)
         (draws w)).
Proof.
  intros Hloaded [Hdemo Hwait] [Hne [r Hp]] Hi Ha [options Ho].
  assert (Hc : text_is (Message (Some t)) CANCEL_SURVEY = false).
  { unfold text_is, str_eqb. cbn. now apply bool_decide_eq_false. }
  assert (Hq : index_at (loaded_questions all_vasini_questions) (len done) = Ok q)
    by (rewrite Hloaded; apply index_at_middle).
  assert (Hn : index_at (loaded_questions all_vasini_questions) (len done + 1) = Ok next).
  { rewrite Hloaded. replace (len done + 1)%Z with (len (done ++ [q])).
    - change (done ++ q :: next :: todo) with (done ++ [q] ++ next :: todo).
      rewrite (app_assoc done [q] (next :: todo)). apply index_at_middle.
    - unfold len. rewrite length_app. cbn [length]. lia. }
  assert (Hlen : (len (loaded_questions all_vasini_questions) <=? len done + 1)%Z = false).
  { apply Z.leb_gt. rewrite Hloaded. unfold len. rewrite length_app. cbn [length]. lia. }
  assert (Hopt : options_of next = Ok options) by (unfold options_of; now rewrite Ho).
  enter Hc. rewrite Hdemo, Hwait, Hi, Ha.
  cbn [default from_option id py_index as_int py_succ text]. rewrite Hp.
  unfold bind at 1, lift at 1. rewrite Hq.
  unfold bind at 1, log at 1, emit at 1. cbn [fsm data trace draws].
  unfold bind at 1, log at 1, emit at 1. cbn [fsm data trace draws].
  unfold bind at 1, lift at 1, setitem.
  unfold bind at 1, try_except.
  destruct (interpretation_of q opt) as [interpretation|e];
    unfold bind, lift, log, emit, update_data;
    cbn [fsm data trace draws foldl fst snd];
    rewrite Hlen, Hn; unfold show_vasini_question, bind, lift, log, emit;
    rewrite Hopt; cbn [fsm data trace draws foldl fst snd];
    repeat rewrite <- app_assoc; eexists; reflexivity.
Qed.

(** The inventory from any question on, every answer recognised. *)
Lemma inventory_walk (todo : list question) :
  forall (done : list question) (ts letters : list str) (w : world) (d : list (str * value))
         (type_counts primary_type secondary_type : value) (details : option str),
    loaded_questions all_vasini_questions = done ++ todo ->
    todo <> [] ->
    Forall (fun q => is_Some (q_options q)) todo ->
    length ts = length todo ->
    Forall2 (reads_as upper) ts letters ->
    answering_inventory w ->
    data w !! "question_index" = Some (VInt (len done)) ->
    data w !! "answers" = Some (VDict d) ->
    let answers := VDict (record d (zip (map q_id todo) (map VStr letters))) in
    get_personality_type_from_answers answers = Ok (type_counts, primary_type, secondary_type) ->
    generate_profile answers = Ok details ->
    let w' := run_all (map (fun t => process (Message (Some t))) ts) w in
    fsm w' = None /\
    stored_profile w' answers type_counts primary_type secondary_type (default [] details).
Proof.
  induction todo as [|q todo IH];
    intros done ts letters w d type_counts primary_type secondary_type details
      Hloaded Hne Hopts Hlen Hts Hph Hi Ha; [congruence|].
  destruct Hts as [|t opt ts letters Ht Hts]; [discriminate|].
  cbn [length] in Hlen. apply Forall_cons in Hopts as [_ Hopts].
  cbn [map]. rewrite run_all_cons.
  destruct todo as [|next todo].
  - destruct Hts; [|discriminate]. cbv zeta. cbn [map zip zip_with]. unfold record.
    cbn [foldl fst snd]. intros Hcl Hgw. unfold run_all. cbn [foldl].
    destruct Ht as [Hnc [r Hp]].
    rewrite (last_inventory_answer t opt r w q d (len done) Hph Hnc Hp).
    + pose proof (complete_survey_gateway_answers get_personality_type_from_answers
                    generate_profile (VDict (dict_set d (q_id q) (VStr opt)))) as Hrun.
      cbv zeta in Hrun. rewrite (Hrun _ _ _ _ _ Hcl Hgw).
      cbn [snd fsm data]. unfold stored_profile, completed_data. cbn [data].
      split; [reflexivity|]. repeat split; by simplify_map_eq.
    + rewrite Hi. reflexivity.
    + rewrite Hloaded. apply index_at_middle.
    + rewrite Ha. reflexivity.
    + rewrite Hloaded. unfold len. rewrite length_app. cbn [length]. lia.
  - apply Forall_cons in Hopts as Hnext. destruct Hnext as [Hnext _].
    destruct (inventory_answer_advances t opt w done q next todo d Hloaded Hph Ht Hi Ha Hnext)
      as [shown Hstep].
    rewrite Hstep. cbn [snd]. cbv zeta.
    change (record d (zip (map q_id (q :: next :: todo)) (map VStr (opt :: letters))))
      with (record (dict_set d (q_id q) (VStr opt))
              (zip (map q_id (next :: todo)) (map VStr letters))).
    intros Hcl Hgw.
    match goal with |- context [run_all _ ?w1] =>
      apply (IH (done ++ [q]) ts letters w1 (dict_set d (q_id q) (VStr opt))
               type_counts primary_type secondary_type details)
    end.
    + now rewrite <- app_assoc.
    + discriminate.
    + exact Hopts.
    + now injection Hlen.
    + exact Hts.
    + destruct Hph as [Hdemo Hwait]. unfold answering_inventory. cbn [data].
      rewrite lookup_insert_eq. cbn [default from_option id].
      rewrite !lookup_insert_ne by done. split; [exact Hdemo | exact Hwait].
    + cbn [data]. rewrite lookup_insert_ne, lookup_insert_ne, lookup_insert_eq by done.
      do 2 f_equal. unfold len. rewrite length_app. cbn [length]. lia.
    + cbn [data]. by rewrite lookup_insert_ne, lookup_insert_eq.
    + exact Hcl.
    + exact Hgw.
Qed.

Lemma record_fresh (entries : list (str * value)) :
  forall d : list (str * value),
    NoDup (map fst d ++ map fst entries) -> record d entries = d ++ entries.
Proof.
  induction entries as [|[k v] entries IH]; intros d Hnd.
  - unfold record. cbn [foldl]. now rewrite app_nil_r.
  - unfold record. cbn [foldl fst snd]. fold (record (dict_set d k v) entries).
    assert (Hfresh : k ∉ map fst d).
    { apply NoDup_app in Hnd as (_ & Hdis & _). intros Hin.
      apply (Hdis _ Hin). cbn. constructor. }
    rewrite dict_set_fresh by assumption.
    rewrite IH.
    + now rewrite <- app_assoc.
    + rewrite map_app. cbn [map fst]. rewrite <- app_assoc. exact Hnd.
Qed.

(** X18. The inventory phase from its first question: when every
    question has options and the ids are distinct and not yet among the
    answers, a run of texts the parser recognises, one per question, ends
    with the survey completed: the state is idle, and the stored answers
    are the earlier ones followed by one letter per question in question
    order, with the profile the gateway gave for exactly these answers. *)
Theorem X18_answering_the_inventory_completes_the_survey
      (ts letters : list str) (w : world) (d : list (str * value))
      (type_counts primary_type secondary_type : value) (details : option str) :
  loaded_questions all_vasini_questions <> [] ->
  Forall (fun q => is_Some (q_options q)) (loaded_questions all_vasini_questions) ->
  NoDup (map fst d ++ map q_id (loaded_questions all_vasini_questions)) ->
  length ts = length (loaded_questions all_vasini_questions) ->
  Forall2 (reads_as upper) ts letters ->
  answering_inventory w ->
  data w !! "question_index" = Some (VInt 0) ->
  data w !! "answers" = Some (VDict d) ->
  let answers :=
    VDict (d ++ zip (map q_id (loaded_questions all_vasini_questions)) (map VStr letters)) in
  get_personality_type_from_answers answers = Ok (type_counts, primary_type, secondary_type) ->
  generate_profile answers = Ok details ->
  let w' := run_all (map (fun t => process (Message (Some t))) ts) w in
  fsm w' = None /\
  stored_profile w' answers type_counts primary_type secondary_type (default [] details).
Proof.
  intros Hne Hopts Hnd Hlen Hts Hph Hi Ha answers Hcl Hgw.
  assert (Hrec : record d (zip (map q_id (loaded_questions all_vasini_questions))
                             (map VStr letters))
                 = d ++ zip (map q_id (loaded_questions all_vasini_questions))
                          (map VStr letters)).
  { apply record_fresh. rewrite fst_zip; [exact Hnd|].
    rewrite !length_map. apply Forall2_length in Hts. lia. }
  pose proof (inventory_walk (loaded_questions all_vasini_questions) [] ts letters w d
                type_counts primary_type secondary_type details eq_refl Hne Hopts Hlen Hts
                Hph Hi Ha) as H.
  cbv zeta in H. rewrite Hrec in H. exact (H Hcl Hgw).
Qed.

Lemma run_all_app (hs hs' : list (handler unit)) (w : world) :
  run_all (hs ++ hs') w = run_all hs' (run_all hs w).
Proof. unfold run_all. apply foldl_app. Qed.

Lemma start_survey_run (first : question) (rest : list question) (w : world) :
  demo_questions = first :: rest ->
  truthy (default (VBool false) (data w !! "profile_completed")) = false ->
  start_survey demo_questions w =
    (Ok tt,
     World (Some answering_questions)
       (<["is_demo_questions" := VBool true]>
          (<["answers" := VDict []]>
             (<["question_type" := VStr (utf8 "demo")]>
                (<["question_index" := VInt 0]> (data w)))))
       (trace w ++ [Answer SurveyIntro NoMarkup;
                    Answer (FirstQuestion (q_text first)) CancelKeyboard;
                    Log INFO "начал опрос"])
       (draws w)).
Proof.
  intros Hdemo Hprofile. unfold start_survey. run. rewrite Hprofile, Hdemo.
  change (index_at (first :: rest) 0) with (Ok first). run.
  now rewrite <- !app_assoc.
Qed.

(** X19. A whole survey.  For a user without a completed profile, with
    distinct question ids and options on every inventory question: the
    start, one answer per demo question, the ready button and one
    recognised text per inventory question end with the state idle and the
    session marked completed, holding the demo answers as typed and then
    the inventory letters, in question order, and the profile the gateway
    returned for exactly these answers. *)
Theorem X19_a_whole_survey_stores_every_answer_in_order
      (w : world) (ms : list message) (ready : message) (ts letters : list str)
      (type_counts primary_type secondary_type : value) (details : option str) :
  truthy (default (VBool false) (data w !! "profile_completed")) = false ->
  demo_questions <> [] ->
  loaded_questions all_vasini_questions <> [] ->
  Forall (fun q => is_Some (q_options q)) (loaded_questions all_vasini_questions) ->
  NoDup (map q_id demo_questions ++ map q_id (loaded_questions all_vasini_questions)) ->
  length ms = length demo_questions ->
  Forall (fun m => text_is m CANCEL_SURVEY = false) ms ->
  text_is ready READY = true ->
  length ts = length (loaded_questions all_vasini_questions) ->
  Forall2 (reads_as upper) ts letters ->
  let answers :=
    VDict (zip (map q_id demo_questions) (map text_value ms) ++
           zip (map q_id (loaded_questions all_vasini_questions)) (map VStr letters)) in
  get_personality_type_from_answers answers = Ok (type_counts, primary_type, secondary_type) ->
  generate_profile answers = Ok details ->
  let w' :=
    run_all (start_survey demo_questions ::
             map process ms ++
             process ready ::
             map (fun t => process (Message (Some t))) ts) w in
  fsm w' = None /\
  stored_profile w' answers type_counts primary_type secondary_type (default [] details).
Proof.
  intros Hprofile Hdemo Hinv Hopts Hnd Hms Hnc Hready Hts Hletters answers Hcl Hgw.
  assert (Efirst : exists first rest, demo_questions = first :: rest).
  { destruct demo_questions as [|first rest]; [congruence|]. now exists first, rest. }
  destruct Efirst as (first & rest & Edemo).
  rewrite run_all_cons, (start_survey_run first rest w Edemo Hprofile). cbn [snd].
  rewrite run_all_app, run_all_cons.
  match goal with |- context [run_all (map process ms) ?w0] => set (w1 := w0) end.
  set (w2 := run_all (map process ms) w1).
  assert (Hwalk : fsm w2 = fsm w1 /\
                  data w2 !! "answers" = Some (VDict (record_all [] demo_questions ms)) /\
                  data w2 !! "question_index" = Some (VInt 0) /\
                  awaiting_confirmation w2).
  { assert (Hi1 : data w1 !! "question_index" = Some (VInt (len (@nil question))))
      by (subst w1; cbn [data]; by simplify_map_eq).
    assert (Ha1 : data w1 !! "answers" = Some (VDict []))
      by (subst w1; cbn [data]; by simplify_map_eq).
    assert (Ht1 : truthy (default (VBool true) (data w1 !! "is_demo_questions")) = true)
      by (subst w1; cbn [data]; by simplify_map_eq).
    exact (demo_walk upper demo_questions all_vasini_questions
             get_personality_type_from_answers generate_profile
             demo_questions [] ms w1 [] eq_refl Hdemo Hms Hnc Hi1 Ha1 Ht1). }
  destruct Hwalk as (Hf & Han & Hix & Haw).
  assert (Hnd1 : NoDup (map fst (@nil (str * value)) ++ map q_id demo_questions))
    by (apply NoDup_app in Hnd as (H1 & _ & _); exact H1).
  rewrite (record_all_fresh demo_questions ms [] Hms Hnd1) in Han. cbn [app] in Han.
  assert (Eq : exists q inventory, loaded_questions all_vasini_questions = q :: inventory).
  { destruct (loaded_questions all_vasini_questions) as [|q inventory]; [congruence|].
    now exists q, inventory. }
  destruct Eq as (q & inventory & Einv).
  assert (Hq : index_at (loaded_questions all_vasini_questions) 0 = Ok q)
    by (rewrite Einv; reflexivity).
  assert (Hoq : is_Some (q_options q)).
  { rewrite Einv in Hopts. now apply Forall_cons in Hopts as [Hoq _]. }
  destruct Hoq as [options Hoq].
  assert (Hoptions : options_of q = Ok options) by (unfold options_of; now rewrite Hoq).
  assert (Hi0 : as_int (default (VInt 0) (data w2 !! "question_index")) = Some 0%Z)
    by (rewrite Hix; reflexivity).
  pose proof (ready_answer_run ready w2 q options 0 Haw Hready Hi0 Hq Hoptions) as Hopen.
  cbv zeta in Hopen. destruct Hopen as (Hrun & Hph & Hix' & Han').
  rewrite Hrun. cbn [snd].
  match goal with |- context [run_all _ ?w0] => set (w3 := w0) in * end.
  rewrite Hix in Hix'. rewrite Han in Han'.
  assert (Hrec : record (zip (map q_id demo_questions) (map text_value ms))
                   (zip (map q_id (loaded_questions all_vasini_questions)) (map VStr letters))
                 = zip (map q_id demo_questions) (map text_value ms) ++
                   zip (map q_id (loaded_questions all_vasini_questions)) (map VStr letters)).
  { apply record_fresh. rewrite !fst_zip; [exact Hnd| |].
    - rewrite !length_map. apply Forall2_length in Hletters. lia.
    - rewrite !length_map. lia. }
  pose proof (inventory_walk (loaded_questions all_vasini_questions) [] ts letters w3
                (zip (map q_id demo_questions) (map text_value ms))
                type_counts primary_type secondary_type details eq_refl Hinv Hopts Hts
                Hletters Hph Hix' Han') as H.
  cbv zeta in H. rewrite Hrec in H. exact (H Hcl Hgw).
Qed.

End Inventory.

(** ** Showing the profile *)

Section Preservation.

Variable R : world -> world -> Prop.
Hypothesis R_refl : forall w, R w w.
Hypothesis R_trans : forall w1 w2 w3, R w1 w2 -> R w2 w3 -> R w1 w3.
Hypothesis R_trace : forall w t, R w (World (fsm w) (data w) t (draws w)).

Lemma preserves_ret {A} (a : A) : preserves R (ret a).
Proof. intros w. apply R_refl. Qed.

Lemma preserves_lift {A} (r : result A) : preserves R (lift r).
Proof. intros w. apply R_refl. Qed.

Lemma preserves_raise {A} (e : exn) : preserves R (@raise A e).
Proof. intros w. apply R_refl. Qed.

Lemma preserves_emit (e : event) : preserves R (emit e).
Proof. intros w. apply R_trace. Qed.

Lemma preserves_log (l : level) (what : string) : preserves R (log l what).
Proof. apply preserves_emit. Qed.

Lemma preserves_get_data : preserves R get_data.
Proof. intros w. apply R_refl. Qed.

Lemma preserves_bind {A B} (c : handler A) (k : A -> handler B) :
  preserves R c -> (forall a, preserves R (k a)) -> preserves R (bind c k).
Proof.
  intros Hc Hk w. unfold bind. specialize (Hc w).
  destruct (c w) as [[a|e] w1]; cbn [snd] in *; [|assumption].
  eapply R_trans; [eassumption | apply Hk].
Qed.

Lemma preserves_if {A} (b : bool) (h1 h2 : handler A) :
  preserves R h1 -> preserves R h2 -> preserves R (if b then h1 else h2).
Proof. now destruct b. Qed.

Lemma preserves_send_parts (parts : list str) (buttons : markup) :
  preserves R (send_parts parts buttons).
Proof.
  intros w. rewrite send_parts_run. apply R_trace.
Qed.

Lemma preserves_send_details (details_text : value) (buttons : markup) :
  preserves R (send_details details_text buttons).
Proof.
  destruct details_text; try apply preserves_raise.
  apply preserves_send_parts.
Qed.

Lemma preserves_show_profile_details : preserves R show_profile_details.
Proof.
  unfold show_profile_details.
  repeat first
    [ apply preserves_bind; [|intros ?]
    | apply preserves_if
    | apply preserves_emit | apply preserves_log | apply preserves_get_data
    | apply preserves_lift | apply preserves_raise ].
  destruct (default (VStr []) (a0 !! "profile_details"));
    repeat first
      [ apply preserves_bind; [|intros ?]
      | apply preserves_send_parts
      | apply preserves_emit | apply preserves_raise ].
Qed.

Lemma preserves_view_profile_callback : preserves R view_profile_callback.
Proof.
  unfold view_profile_callback.
  repeat first
    [ apply preserves_bind; [|intros ?]
    | apply preserves_if
    | apply preserves_send_details
    | apply preserves_emit | apply preserves_log | apply preserves_get_data
    | apply preserves_lift | apply preserves_raise ].
Qed.

End Preservation.

Lemma same_session_refl w : same_session w w.
Proof. now unfold same_session. Qed.

Lemma same_session_trans w1 w2 w3 :
  same_session w1 w2 -> same_session w2 w3 -> same_session w1 w3.
Proof. unfold same_session. intros (-> & -> & ->) (-> & -> & ->). tauto. Qed.

Lemma same_session_trace w t : same_session w (World (fsm w) (data w) t (draws w)).
Proof. now unfold same_session. Qed.

(** X11. Looking at the profile never touches the session: whatever the
    session data holds, and whether they return or raise,
    [show_profile_details] and [view_profile_callback] leave the state and
    every field as they were, and [command_profile] leaves every field as
    it was, its only effect on the session being the state [viewing] when
    it has shown a profile. *)
Theorem X11_showing_the_profile_keeps_the_session (w : world) :
  same_session w (show_profile_details w).2 /\
  same_session w (view_profile_callback w).2 /\
  same_data w (command_profile w).2 /\
  (fsm (command_profile w).2 = fsm w \/
   fsm (command_profile w).2 = Some viewing /\ (command_profile w).1 = Ok tt).
Proof.
  split; [|split].
  - apply (preserves_show_profile_details same_session
             same_session_refl same_session_trans same_session_trace).
  - apply (preserves_view_profile_callback same_session
             same_session_refl same_session_trans same_session_trace).
  - unfold command_profile. run.
    destruct (truthy (default (VBool false) (data w !! "profile_completed"))).
    + run. destruct (details_missing (default (VStr []) (data w !! "profile_details")))
        as [[|]|e]; run.
      * unfold same_data. cbn. tauto.
      * destruct (default (VStr []) (data w !! "profile_details")); run;
          try (unfold same_data; cbn; tauto).
        unfold send_details, send_profile. rewrite send_parts_run. run.
        unfold same_data. cbn. tauto.
      * unfold same_data. cbn. tauto.
    + unfold same_data. cbn. tauto.
Qed.

(** X12. A stored profile of at least 20 characters is sent by the three
    display handlers in the same parts, those of [profile_messages], each
    with its own buttons under the last part. *)
Theorem X12_the_display_handlers_send_the_same_parts (w : world) (profile : str) :
  data w !! "profile_details" = Some (VStr profile) ->
  (20 <= len profile)%Z ->
  truthy (default (VBool false) (data w !! "profile_completed")) = true ->
  trace (show_profile_details w).2 =
    trace w ++ [ChatAction; Log INFO "Запрошен детальный профиль"] ++
      part_events (profile_messages profile) DetailsButtons ++
      [Answer BackToMenu MainKeyboard; CallbackAnswer "Детальный психологический профиль"] /\
  trace (view_profile_callback w).2 =
    trace w ++ [ChatAction] ++
      part_events (profile_messages profile) ViewButtons ++
      [Answer BackToMenu MainKeyboard; CallbackAnswer "Профиль загружен";
       Log INFO "просмотрел свой профиль"] /\
  trace (command_profile w).2 =
    trace w ++ [ChatAction] ++ part_events (profile_messages profile) ProfileButtons /\
  fsm (command_profile w).2 = Some viewing.
Proof.
  intros Hd Hlen Hdone.
  assert (Hne : truthy (VStr profile) = true).
  { cbn. destruct profile; [|reflexivity]. unfold len in Hlen. cbn in Hlen. lia. }
  assert (Hlt : (len profile <? 20)%Z = false) by now apply Z.ltb_ge.
  assert (Hmiss : details_missing (VStr profile) = Ok false).
  { unfold details_missing. rewrite Hne. cbn [negb py_len]. now rewrite Hlt. }
  repeat split.
  - unfold show_profile_details. run. rewrite Hd. cbn [default from_option id].
    rewrite Hne. cbn [negb py_len]. run. rewrite Hlt.
    unfold send_profile. run. rewrite send_parts_run. run.
    now rewrite <- !app_assoc.
  - unfold view_profile_callback. run. rewrite Hdone, Hd. cbn [default from_option id negb].
    run. rewrite Hmiss. run.
    unfold send_details, send_profile. rewrite send_parts_run. run.
    now rewrite <- !app_assoc.
  - unfold command_profile. run. rewrite Hdone, Hd. cbn [default from_option id].
    run. rewrite Hmiss. run.
    unfold send_details, send_profile. rewrite send_parts_run. run.
    now rewrite <- !app_assoc.
  - unfold command_profile. run. rewrite Hdone, Hd. cbn [default from_option id].
    run. rewrite Hmiss. run.
    unfold send_details, send_profile. rewrite send_parts_run. run. reflexivity.
Qed.

(** ** Empty parts *)

Lemma closed_part_line (prefix line : str) : closed_part (prefix ++ line ++ [NL]).
Proof.
  split.
  - intros H. apply (f_equal length) in H. rewrite !length_app in H. cbn in H. lia.
  - rewrite app_assoc. apply last_snoc.
Qed.

Lemma foldl_add_line_closed (lines : list str) :
  forall (parts : list str) (current : str),
    closed_part current ->
    exists more current',
      foldl add_line (parts, current) lines = (parts ++ more, current') /\
      Forall closed_part more /\ closed_part current'.
Proof.
  induction lines as [|line lines IH]; intros parts current Hc.
  - exists [], current. cbn. rewrite app_nil_r. repeat split; try apply Hc. constructor.
  - cbn [foldl]. unfold add_line at 2.
    destruct (len current + len line + 1 <=? max_message_length)%Z.
    + apply IH. apply closed_part_line.
    + destruct (IH (parts ++ [current]) (line ++ [NL])) as (more & current' & Hrun & Hm & Hc').
      { apply (closed_part_line [] line). }
      exists (current :: more), current'. rewrite Hrun, <- app_assoc.
      repeat split; try apply Hc'. constructor; assumption.
Qed.

Lemma split_lines_cons (s : str) : exists line lines, split_lines s = line :: lines.
Proof.
  destruct s as [|c s]; cbn; [eauto|].
  destruct (c =? NL)%N; [eauto|]. destruct (split_lines s); eauto.
Qed.

(** X13. The parts of a split profile are closed by a newline and not
    empty, except that the split begins with one empty part exactly when
    the first line, with its newline, is longer than 4000 characters. *)
Theorem X13_only_the_first_part_can_be_empty (profile : str) :
  exists first_line more_lines parts,
    split_lines profile = first_line :: more_lines /\
    Forall closed_part parts /\
    parts <> [] /\
    split_into_parts profile =
      if (len first_line + 1 <=? max_message_length)%Z then parts else [] :: parts.
Proof.
  destruct (split_lines_cons profile) as (first_line & more_lines & Hsplit).
  exists first_line, more_lines. unfold split_into_parts. rewrite Hsplit.
  cbn [foldl]. unfold add_line at 2.
  change (len (@nil N)) with 0%Z. rewrite Z.add_0_l.
  destruct (len first_line + 1 <=? max_message_length)%Z.
  - destruct (foldl_add_line_closed more_lines [] ([] ++ first_line ++ [NL]))
      as (more & current & Hrun & Hm & Hc); [apply closed_part_line|].
    rewrite Hrun. cbn [app]. destruct Hc as [Hne Hlast].
    rewrite bool_decide_eq_false_2 by assumption. cbn [negb].
    exists (more ++ [current]). repeat split.
    + apply Forall_app. split; [assumption|]. constructor; [now split | constructor].
    + now destruct more.
  - destruct (foldl_add_line_closed more_lines ([] ++ [[]]) (first_line ++ [NL]))
      as (more & current & Hrun & Hm & Hc); [apply (closed_part_line [] first_line)|].
    rewrite Hrun. cbn [app]. destruct Hc as [Hne Hlast].
    rewrite bool_decide_eq_false_2 by assumption. cbn [negb].
    exists (more ++ [current]). repeat split.
    + apply Forall_app. split; [assumption|]. constructor; [now split | constructor].
    + now destruct more.
Qed.

(** ** Asking for advice *)

Lemma cut_history_bounds (used : list value) (advice : str) :
  cut_history used advice `suffix_of` used ++ [VStr advice] /\
  last (cut_history used advice) = Some (VStr advice) /\
  (length (cut_history used advice) <= 20)%nat /\
  ((length used < 20)%nat -> cut_history used advice = used ++ [VStr advice]).
Proof.
  unfold cut_history, last_20, len. rewrite length_app. cbn [length].
  destruct (Z.ltb_spec 20 (Z.of_nat (length used + 1))) as [Hbig|Hsmall].
  - rewrite drop_app_le by lia. repeat split.
    + apply suffix_app, suffix_drop.
    + apply last_snoc.
    + rewrite length_app, length_drop. cbn [length]. lia.
    + intros H. lia.
  - repeat split.
    + done.
    + apply last_snoc.
    + rewrite length_app. cbn [length]. lia.
Qed.

Section AdviceMore.

Variable lower : str -> str.
Variable rng : nat -> nat.
Variable fuel : nat.

Ltac draw' pool H x :=
  cbv beta iota;
  match goal with
  | |- context [bind (random_choice _ pool) _ ?w] =>
      let Hin := fresh "Hin" in
      let Hd := fresh "Hd" in
      destruct (random_choice_run rng pool w H) as (x & Hin & Hd);
      rewrite (bind_ok _ _ _ _ _ Hd); clear Hd;
      cbn [fsm data trace draws]
  end.

Lemma canned_pool_nonempty personality_type : canned_pool personality_type <> [].
Proof.
  apply resolve_nonempty; [apply tables_have_no_empty_pool|].
  apply pool_nonempty; [apply tables_have_no_empty_pool | apply default_type_is_in_tables].
Qed.

Lemma fallback_advice_run
      (personality_type profile_text used_advices : value) (w : world) :
  hashable personality_type = true ->
  truthy profile_text = false ->
  exists advice,
    advice ∈ canned_pool personality_type /\
    get_personalized_advice lower rng fuel personality_type profile_text used_advices w =
      (Ok advice,
       World (fsm w) (data w)
         (trace w ++
            [Log WARNING "Текст профиля отсутствует, используем стандартные советы";
             Log INFO "Выбран стандартный совет для типа личности"])
         (S (draws w))).
Proof.
  intros Hh Hp.
  assert (Hget : getitem advice_by_type default_type = Ok (pool advice_by_type default_type)).
  { unfold getitem, pool.
    destruct default_type_is_in_tables as (_ & _ & _ & _ & _ & [l ->]). reflexivity. }
  unfold get_personalized_advice. rewrite Hp. cbn [negb].
  unfold bind at 1, log at 1, emit at 1. cbn [fsm data trace draws].
  unfold bind at 1, lift at 1. rewrite Hget.
  unfold bind at 1, lift at 1. rewrite (dict_get_hashable _ _ _ Hh).
  fold (canned_pool personality_type).
  draw' (canned_pool personality_type) (canned_pool_nonempty personality_type) advice.
  exists advice. split; [assumption|]. run. now rewrite <- !app_assoc.
Qed.

(** X14. Without a profile text (empty, [None] or absent) the advice is
    one entry of the canned list of the personality type when
    [advice_by_type] has that type, and of the default type's list
    otherwise; one draw is made and the history is not consulted at all,
    whatever it holds. *)
Theorem X14_fallback_advice_ignores_the_history
      (personality_type profile_text used_advices : value) (w : world) :
  hashable personality_type = true ->
  truthy profile_text = false ->
  exists advice,
    advice ∈ canned_pool personality_type /\
    get_personalized_advice lower rng fuel personality_type profile_text used_advices w =
      (Ok advice,
       World (fsm w) (data w)
         (trace w ++
            [Log WARNING "Текст профиля отсутствует, используем стандартные советы";
             Log INFO "Выбран стандартный совет для типа личности"])
         (S (draws w))).
Proof. apply fallback_advice_run. Qed.

(** Any advice request on well-formed arguments returns, leaving the
    session alone. *)
Lemma get_personalized_advice_returns
      (personality_type : value) (profile : str) (used : list value) (w : world) :
  (5 <= fuel)%nat ->
  hashable personality_type = true ->
  exists advice logs k,
    get_personalized_advice lower rng fuel personality_type (VStr profile) (VList used) w =
      (Ok advice, World (fsm w) (data w) (trace w ++ logs) (draws w + k)) /\
    (1 <= k <= 30)%nat /\
    (profile = [] -> advice ∈ canned_pool personality_type).
Proof.
  intros Hfuel Hh. destruct profile as [|c profile].
  - destruct (fallback_advice_run personality_type (VStr [])
                (VList used) w Hh eq_refl) as (advice & Hin & Hrun).
    exists advice. eexists. exists 1%nat. rewrite Hrun.
    split; [now rewrite Nat.add_1_r|]. split; [lia | intros _; assumption].
  - unfold get_personalized_advice.
    change (truthy (VStr (c :: profile))) with true. cbn [negb].
    assert (Hc : is_container (if truthy (VList used) then VList used else VList []) = true)
      by now destruct used.
    destruct (generate_unique_advice_counted_run lower rng fuel (c :: profile)
                personality_type _ w Hfuel Hh Hc)
      as (extracted & advice & n & _ & Hrun & Hn & _ & _).
    exists advice. eexists. exists (5 * (1 + Z.to_nat n))%nat.
    unfold generate_unique_advice. unfold bind at 1. rewrite Hrun. cbn [fst].
    split; [reflexivity|]. split; [lia | discriminate].
Qed.

(** X15. The advice callback on a well-formed session (a type that can be
    a key, a profile text or none, a list as history or none) always
    answers with an advice and stores the history with that advice as its
    last entry, cut to the last 20 entries: the stored history never
    exceeds 20, is the old one followed by the advice when there was room,
    and nothing else in the session changes. *)
Theorem X15_advice_history_is_capped (w : world) (profile : str) (used : list value) :
  (5 <= fuel)%nat ->
  hashable (default (VStr default_type) (data w !! "personality_type")) = true ->
  default (VStr []) (data w !! "profile_details") = VStr profile ->
  default (VList []) (data w !! "used_advices") = VList used ->
  exists advice,
    let run := get_advice_callback lower rng fuel w in
    run.1 = Ok tt /\
    fsm run.2 = fsm w /\
    data run.2 = <["used_advices" := VList (cut_history used advice)]> (data w) /\
    Answer (AdviceText advice) NoMarkup ∈ trace run.2 /\
    last (cut_history used advice) = Some (VStr advice) /\
    (length (cut_history used advice) <= 20)%nat /\
    cut_history used advice `suffix_of` used ++ [VStr advice] /\
    ((length used < 20)%nat -> cut_history used advice = used ++ [VStr advice]).
Proof.
  intros Hfuel Hh Hp Hu.
  destruct (get_personalized_advice_returns
              (default (VStr default_type) (data w !! "personality_type")) profile used
              (World (fsm w) (data w) (trace w ++ [ChatAction]) (draws w)) Hfuel Hh)
    as (advice & logs & k & Hrun & _ & _).
  cbn [fsm data trace draws] in Hrun.
  assert (Hcb : get_advice_callback lower rng fuel w =
    (Ok tt,
     World (fsm w) (<["used_advices" := VList (cut_history used advice)]> (data w))
       ((trace w ++ [ChatAction]) ++ logs ++
          [Answer (AdviceText advice) NoMarkup; Answer WhatNext AdviceFollowUp;
           Answer BackToMenu MainKeyboard; CallbackAnswer "Совет получен"])
       (draws w + k))).
  { unfold get_advice_callback.
    unfold bind at 1, emit at 1. unfold bind at 1, get_data at 1.
    cbn [fsm data trace draws]. rewrite Hp, Hu.
    unfold bind at 1. rewrite Hrun. fold (cut_history used advice). run.
    now rewrite <- !app_assoc. }
  exists advice. cbv zeta. rewrite Hcb. cbn [fst snd fsm data trace].
  destruct (cut_history_bounds used advice) as (Hs & Hl & Hn & Hroom).
  repeat split; try assumption.
  rewrite !elem_of_app. right. right. constructor.
Qed.

(** X16. The advice command, unlike the callback, is gated on a completed
    profile: without one it only offers the survey, makes no draw and
    leaves the session as it was; with one, on a well-formed session, it
    stores the capped history exactly as the callback does. *)
Theorem X16_advice_command_requires_a_profile (w : world) :
  (truthy (default (VBool false) (data w !! "profile_completed")) = false ->
   command_advice lower rng fuel w =
     (Ok tt,
      World (fsm w) (data w)
        (trace w ++ [Answer OfferSurveyForAdvice StartSurveyButton]) (draws w))) /\
  (truthy (default (VBool false) (data w !! "profile_completed")) = true ->
   (5 <= fuel)%nat ->
   hashable (default (VStr default_type) (data w !! "personality_type")) = true ->
   forall profile used,
     default (VStr []) (data w !! "profile_details") = VStr profile ->
     default (VList []) (data w !! "used_advices") = VList used ->
     exists advice,
       (command_advice lower rng fuel w).1 = Ok tt /\
       data (command_advice lower rng fuel w).2 =
         <["used_advices" := VList (cut_history used advice)]> (data w) /\
       Answer (AdviceText advice) NoMarkup ∈ trace (command_advice lower rng fuel w).2).
Proof.
  split.
  - intros Hno. unfold command_advice. run. rewrite Hno. run. reflexivity.
  - intros Hdone Hfuel Hh profile used Hp Hu.
    destruct (get_personalized_advice_returns
                (default (VStr default_type) (data w !! "personality_type"))
                profile used w Hfuel Hh)
      as (advice & logs & k & Hrun & _ & _).
    assert (Hcmd : command_advice lower rng fuel w =
      (Ok tt,
       World (fsm w) (<["used_advices" := VList (cut_history used advice)]> (data w))
         (trace w ++ logs ++
            [Answer (AdviceText advice) NoMarkup; Answer WhatNext AdviceFollowUp])
         (draws w + k))).
    { unfold command_advice. unfold bind at 1, get_data at 1.
      rewrite Hdone, Hp, Hu. unfold bind at 1. rewrite Hrun.
      fold (cut_history used advice). run. now rewrite <- !app_assoc. }
    exists advice. rewrite Hcmd. cbn [fst snd data trace].
    repeat split.
    rewrite !elem_of_app. right. right. constructor.
Qed.

(** X17. For a personality type of the known enumeration the emoji, the
    technique, the outcome and the context of a generated advice come from
    that type's own pools. *)
Theorem X17_known_type_uses_its_own_pools
      (profile type : str) (history : value) (w : world) :
  (5 <= fuel)%nat ->
  type ∈ known_types ->
  is_container history = true ->
  exists advice w' emoji aspect technique outcome place,
    generate_unique_advice lower rng fuel (VStr profile) (VStr type) history w
      = (Ok advice, w') /\
    advice = compose lower emoji aspect technique outcome place /\
    emoji ∈ pool emoji_map type /\
    technique ∈ pool techniques type /\
    outcome ∈ pool results type /\
    place ∈ pool contexts type.
Proof.
  intros Hfuel Hk Hc.
  destruct tables_share_keys as (_ & Ke & Kt & Kc & Kr).
  assert (Hres : forall table, map fst table = known_types ->
            resolve table (VStr type) (pool table default_type) = pool table type).
  { intros table Hkeys. unfold resolve, pool.
    destruct (assoc table type) eqn:E; [reflexivity|].
    apply assoc_none_keys in E. rewrite Hkeys in E. contradiction. }
  destruct (generate_unique_advice_counted_run lower rng fuel profile (VStr type) history w
              Hfuel eq_refl Hc)
    as (extracted & advice & n & _ & Hrun & _ & Hco & _).
  destruct Hco as (emoji & aspect & technique & outcome & place &
                   He & Ha & Ht & Hr & Hp & ->).
  assert (Re : emoji_pool (VStr type) = pool emoji_map type) by (apply Hres; exact Ke).
  assert (Rt : technique_pool (VStr type) = pool techniques type) by (apply Hres; exact Kt).
  assert (Rc : context_pool (VStr type) = pool contexts type) by (apply Hres; exact Kc).
  assert (Rr : result_pool (VStr type) = pool results type) by (apply Hres; exact Kr).
  rewrite Re in He. rewrite Rt in Ht. rewrite Rr in Hr. rewrite Rc in Hp.
  eexists _, _, emoji, aspect, technique, outcome, place.
  split.
  { unfold generate_unique_advice. unfold bind at 1. rewrite Hrun. reflexivity. }
  repeat split; assumption.
Qed.

End AdviceMore.

(** ** The dominant type *)

(** [max] keeps the first of the items with the largest count. *)
Lemma max_from_split (items : list (str * nat)) :
  forall (best : str * nat) (before after : list (str * nat)),
    (forall it, it ∈ before -> (it.2 < best.2)%nat) ->
    (forall it, it ∈ after -> (it.2 <= best.2)%nat) ->
    exists before' after',
      before ++ best :: after ++ items = before' ++ max_from best items :: after' /\
      (forall it, it ∈ before' -> (it.2 < (max_from best items).2)%nat) /\
      (forall it, it ∈ after' -> (it.2 <= (max_from best items).2)%nat).
Proof.
  induction items as [|item items IH]; intros best before after Hb Ha.
  - exists before, after. rewrite app_nil_r. cbn [max_from]. repeat split; assumption.
  - cbn [max_from]. destruct (Nat.ltb_spec best.2 item.2) as [Hlt|Hge].
    + destruct (IH item (before ++ best :: after) []) as (b' & a' & Heq & Hb' & Ha').
      * intros it Hin. apply elem_of_app in Hin as [Hin|Hin].
        -- specialize (Hb it Hin). lia.
        -- apply elem_of_cons in Hin as [->|Hin]; [exact Hlt|].
           specialize (Ha it Hin). lia.
      * intros it Hin. inversion Hin.
      * exists b', a'. rewrite <- Heq. split; [|split; assumption].
        rewrite <- app_assoc. reflexivity.
    + destruct (IH best before (after ++ [item])) as (b' & a' & Heq & Hb' & Ha').
      * exact Hb.
      * intros it Hin. apply elem_of_app in Hin as [Hin|Hin]; [now apply Ha|].
        apply elem_of_cons in Hin as [->|Hin]; [exact Hge | inversion Hin].
      * exists b', a'. rewrite <- Heq. split; [|split; assumption].
        rewrite <- app_assoc. reflexivity.
Qed.

Section Dominant.

Variable lower : str -> str.

(** X20. When the profile text holds at least one keyword, the aspects
    are those of the given personality type (of the default type when the
    table has no such type), followed, when the dominant type is another
    one, by the aspects of the dominant type; the dominant type is the
    first type, in the order of the keyword table, among those with the
    most keywords found. *)
Theorem X20_dominant_type_is_the_first_with_most_keywords
      (profile : str) (personality_type : value) (w : world) :
  hashable personality_type = true ->
  found_keywords lower profile <> [] ->
  exists dominant_type count before after,
    type_counts lower (found_keywords lower profile)
      = before ++ (dominant_type, count) :: after /\
    (forall it, it ∈ before -> (it.2 < count)%nat) /\
    (forall it, it ∈ after -> (it.2 <= count)%nat) /\
    extract_key_aspects lower (VStr profile) personality_type w =
      (Ok (resolve aspects personality_type (pool aspects default_type) ++
           (if differs dominant_type personality_type
            then pool aspects dominant_type else [])),
       World (fsm w) (data w)
         (trace w ++ [Log INFO "Запрошены аспекты для типа личности"]) (draws w)).
Proof.
  intros Hh Hfound.
  assert (Hfb : default [] (assoc aspects default_type) = pool aspects default_type)
    by reflexivity.
  unfold extract_key_aspects.
  destruct (found_keywords lower profile) as [|keyword found]; [congruence|].
  assert (Hcounts : exists first rest,
            type_counts lower (keyword :: found) = first :: rest).
  { unfold type_counts, keywords. cbn [map]. eexists _, _. reflexivity. }
  destruct Hcounts as (first & rest & Hcounts).
  destruct (max_from_split rest first [] []) as (before & after & Hsplit & Hb & Ha).
  { intros it Hin. inversion Hin. }
  { intros it Hin. inversion Hin. }
  cbn [app] in Hsplit.
  assert (Hmax : py_max (type_counts lower (keyword :: found)) = Ok (max_from first rest))
    by (rewrite Hcounts; reflexivity).
  assert (Hknown : (max_from first rest).1 ∈ known_types).
  { destruct tables_share_keys as (<- & _).
    assert (Hin : max_from first rest ∈ type_counts lower (keyword :: found))
      by (rewrite Hcounts; apply max_from_in).
    unfold type_counts in Hin. apply list_elem_of_fmap in Hin as (kv & -> & Hkv).
    cbn [fst]. apply list_elem_of_fmap. exists kv. split; [reflexivity | exact Hkv]. }
  assert (Hdom : default (pool aspects default_type) (assoc aspects (max_from first rest).1)
                 = pool aspects (max_from first rest).1).
  { unfold pool. destruct (assoc aspects (max_from first rest).1) eqn:E; [reflexivity|].
    apply assoc_none_keys in E. contradiction. }
  exists (max_from first rest).1, (max_from first rest).2, before, after.
  split; [rewrite Hcounts, Hsplit; now destruct (max_from first rest)|].
  split; [exact Hb|]. split; [exact Ha|].
  destruct (differs (max_from first rest).1 personality_type) eqn:Hdiff.
  - run. rewrite Hmax. run.
    rewrite Hfb, (dict_get_hashable _ _ _ Hh), Hdom, Hdiff. reflexivity.
  - run. rewrite Hmax. run.
    rewrite Hfb, (dict_get_hashable _ _ _ Hh), Hdiff, app_nil_r. reflexivity.
Qed.

End Dominant.

(** ** Messages the inventory cannot take *)

Lemma py_index_nil {A} (v : value) : exists raised, py_index (@nil A) v = Raise raised.
Proof.
  unfold py_index. destruct (as_int v) as [z|]; [|now exists TypeError].
  exists IndexError. unfold index_at. cbv zeta.
  destruct ((if (z <? 0)%Z then (z + len (@nil A))%Z else z) <? 0)%Z; reflexivity.
Qed.

Section Failures.

Variable upper : str -> str.
Variable demo_questions : list question.
Variable all_vasini_questions : result (list question).
Variable get_personality_type_from_answers : value -> result (value * value * value).
Variable generate_profile : value -> result (option str).

Let process :=
  process_survey_answer upper demo_questions all_vasini_questions
    get_personality_type_from_answers generate_profile.

Ltac enter Hc :=
  unfold process, process_survey_answer; rewrite Hc;
  unfold bind at 1, get_data at 1; cbv beta iota zeta;
  unfold bind at 1;
  rewrite (load_vasini_questions_run upper demo_questions all_vasini_questions
             get_personality_type_from_answers generate_profile);
  cbv beta iota zeta.

(** X21. A message without text (a photo, a sticker) is an answer only
    in the demo phase.  In the inventory phase, with the cursor on a
    question, the handler raises [AttributeError] on it before anything is
    sent, and the session is left as it was. *)
Theorem X21_a_message_without_text_stops_the_inventory (w : world) (q : question) :
  answering_inventory w ->
  py_index (loaded_questions all_vasini_questions)
    (default (VInt 0) (data w !! "question_index")) = Ok q ->
  process (Message None) w =
    (Raise AttributeError,
     World (fsm w) (data w)
       (trace w ++ loading_logs all_vasini_questions ++ [Log INFO "Получен ответ на вопрос"])
       (draws w)).
Proof.
  intros [Hdemo Hwait] Hq.
  assert (Hc : text_is (Message None) CANCEL_SURVEY = false) by reflexivity.
  enter Hc. rewrite Hdemo, Hwait.
  unfold bind at 1, lift at 1. rewrite Hq. run.
  now rewrite <- !app_assoc.
Qed.

(** X22. When the inventory cannot be loaded, a session that has left
    the demo phase can only be cancelled: every other message, the ready
    button included, makes the handler raise after the two error records,
    with nothing sent and the session left as it was. *)
Theorem X22_without_the_inventory_only_cancel_gets_out (m : message) (w : world) (e : exn) :
  all_vasini_questions = Raise e ->
  truthy (default (VBool true) (data w !! "is_demo_questions")) = false ->
  text_is m CANCEL_SURVEY = false ->
  exists raised,
    process m w =
      (Raise raised,
       World (fsm w) (data w)
         (trace w ++
            [Log ERROR "Ошибка при загрузке вопросов Vasini";
             RailwayPrint ERROR "Не удалось загрузить вопросы Vasini, опрос будет недоступен"])
         (draws w)).
Proof.
  intros Hload Hdemo Hc.
  assert (Hqs : loaded_questions all_vasini_questions = [])
    by (unfold loaded_questions; now rewrite Hload).
  assert (Hlogs : loading_logs all_vasini_questions =
            [Log ERROR "Ошибка при загрузке вопросов Vasini";
             RailwayPrint ERROR "Не удалось загрузить вопросы Vasini, опрос будет недоступен"])
    by (unfold loading_logs; now rewrite Hload).
  destruct (@py_index_nil question (default (VInt 0) (data w !! "question_index")))
    as [raised Hraise].
  enter Hc. rewrite Hdemo, Hqs, Hlogs.
  destruct (truthy (default (VBool false) (data w !! "waiting_for_vasini_confirmation"))).
  - destruct (text_is m READY).
    + exists raised. unfold bind at 1, lift at 1. rewrite Hraise. reflexivity.
    + exists UnboundLocalError. reflexivity.
  - exists raised. unfold bind at 1, lift at 1. rewrite Hraise. reflexivity.
Qed.

End Failures.

(** ** The further properties at concrete inputs *)

Lemma X7_witness :
  NoDup (map q_id sample_demo) /\
  Forall (fun m => text_is m CANCEL_SURVEY = false) demo_replies /\
  data (run_all (map sample_process demo_replies) started) !! "answers" =
    Some (VDict [(utf8 "name", VStr (utf8 "Анна")); (utf8 "age", VNone)]) /\
  awaiting_confirmation (run_all (map sample_process demo_replies) started).
Proof.
  assert (H1 : NoDup (map q_id sample_demo))
    by (apply (bool_decide_unpack _); vm_compute; exact I).
  assert (H2 : Forall (fun m => text_is m CANCEL_SURVEY = false) demo_replies)
    by (repeat constructor).
  assert (H3 : data started !! "question_index" = Some (VInt 0)) by (vm_compute; reflexivity).
  assert (H4 : data started !! "answers" = Some (VDict [])) by (vm_compute; reflexivity).
  assert (H5 : truthy (default (VBool true) (data started !! "is_demo_questions")) = true)
    by (vm_compute; reflexivity).
  assert (H0 : sample_demo <> []) by discriminate.
  split; [exact H1|]. split; [exact H2|].
  pose proof (X7_demo_phase_records_one_answer_per_question simple_upper sample_demo
                (Ok sample_inventory) sample_classifier gateway_short
                demo_replies started H0 H1 eq_refl H2 H3 H4 H5) as H.
  cbv zeta in H. destruct H as (_ & Ha & _ & Hw). split; [exact Ha | exact Hw].
Defined.

Lemma X8_witness :
  awaiting_confirmation (in_inventory 0 true) /\
  text_is (Message (Some READY)) READY = true /\
  sample_process (Message (Some READY)) (in_inventory 0 true) =
    (Ok tt,
     World (Some answering_questions)
       (<["waiting_for_vasini_confirmation" := VBool false]> (data (in_inventory 0 true)))
       [Log INFO "Загружено вопросов Vasini";
        Log INFO "Показываем вопрос 1 с вариантами ответов";
        Answer (VasiniQuestion 1 (utf8 "Что вам ближе?"))
          (options_keyboard
             [(utf8 "A", utf8 "вариант"); (utf8 "B", utf8 "вариант");
              (utf8 "C", utf8 "вариант"); (utf8 "D", utf8 "вариант")])]
       0) /\
  answering_inventory (sample_process (Message (Some READY)) (in_inventory 0 true)).2.
Proof.
  assert (H1 : awaiting_confirmation (in_inventory 0 true))
    by (split; vm_compute; reflexivity).
  assert (H2 : text_is (Message (Some READY)) READY = true) by (vm_compute; reflexivity).
  assert (H3 : as_int (default (VInt 0) (data (in_inventory 0 true) !! "question_index"))
               = Some 0%Z) by (vm_compute; reflexivity).
  assert (H4 : index_at (loaded_questions (Ok sample_inventory)) 0
               = Ok (sample_question "q1" ["A"; "B"; "C"; "D"])) by (vm_compute; reflexivity).
  assert (H5 : options_of (sample_question "q1" ["A"; "B"; "C"; "D"])
               = Ok [(utf8 "A", utf8 "вариант"); (utf8 "B", utf8 "вариант");
                     (utf8 "C", utf8 "вариант"); (utf8 "D", utf8 "вариант")])
    by (vm_compute; reflexivity).
  split; [exact H1|]. split; [exact H2|].
  pose proof (X8_ready_opens_the_inventory simple_upper sample_demo
                (Ok sample_inventory) sample_classifier gateway_short
                (Message (Some READY)) (in_inventory 0 true)
                (sample_question "q1" ["A"; "B"; "C"; "D"])
                [(utf8 "A", utf8 "вариант"); (utf8 "B", utf8 "вариант");
                 (utf8 "C", utf8 "вариант"); (utf8 "D", utf8 "вариант")] 0%Z
                H1 H2 H3 H4 H5) as H.
  cbv zeta in H. destruct H as (Hrun & Hph & _ & _).
  unfold sample_process. rewrite Hrun. split; [|exact Hph].
  vm_compute. reflexivity.
Defined.

Lemma X9_witness :
  answering_inventory (in_inventory 2 false) /\
  parse_option simple_upper (utf8 "D") = Some (utf8 "D", ExactLetter) /\
  (len (loaded_questions (Ok sample_inventory)) <= 2 + 1)%Z /\
  let w' := (sample_process (Message (Some (utf8 "D"))) (in_inventory 2 false)).2 in
  fsm w' = None /\
  data w' !! "answers" =
    Some (VDict [(utf8 "name", VStr (utf8 "Анна")); (utf8 "q3", VStr (utf8 "D"))]) /\
  data w' !! "profile_completed" = Some (VBool true).
Proof.
  assert (H1 : answering_inventory (in_inventory 2 false))
    by (split; vm_compute; reflexivity).
  assert (H2 : utf8 "D" <> CANCEL_SURVEY) by (vm_compute; discriminate).
  assert (H3 : parse_option simple_upper (utf8 "D") = Some (utf8 "D", ExactLetter))
    by (vm_compute; reflexivity).
  assert (H4 : as_int (default (VInt 0) (data (in_inventory 2 false) !! "question_index"))
               = Some 2%Z) by (vm_compute; reflexivity).
  assert (H5 : index_at (loaded_questions (Ok sample_inventory)) 2
               = Ok (sample_question "q3" ["A"; "B"; "C"; "D"])) by (vm_compute; reflexivity).
  assert (H6 : default (VDict []) (data (in_inventory 2 false) !! "answers")
               = VDict [(utf8 "name", VStr (utf8 "Анна"))]) by (vm_compute; reflexivity).
  assert (H7 : (len (loaded_questions (Ok sample_inventory)) <= 2 + 1)%Z)
    by (vm_compute; discriminate).
  split; [exact H1|]. split; [exact H3|]. split; [exact H7|].
  pose proof (X9_last_answer_runs_completion simple_upper sample_demo
                (Ok sample_inventory) sample_classifier gateway_short
                (utf8 "D") (utf8 "D") ExactLetter (in_inventory 2 false)
                (sample_question "q3" ["A"; "B"; "C"; "D"])
                [(utf8 "name", VStr (utf8 "Анна"))] 2%Z
                sample_counts (VStr (utf8 "Интеллектуальный")) (VStr (utf8 "Творческий"))
                H1 H2 H3 H4 H5 H6 H7) as H.
  cbv zeta in H. destruct (H eq_refl) as [_ Hdone].
  cbv zeta. unfold sample_process. rewrite (Hdone (Some short_profile) eq_refl).
  vm_compute. repeat split.
Defined.

Lemma X10_witness :
  classifier_down sample_answers = Raise ExternalError /\
  complete_survey classifier_down gateway_short sample_answers (in_inventory 2 false) =
    (Raise ExternalError,
     World (Some answering_questions) (data (in_inventory 2 false))
       [ChatAction; Answer SurveyFinished NoMarkup] 0).
Proof.
  split; [reflexivity|].
  exact (X10_a_raising_classifier_is_not_caught classifier_down gateway_short
           sample_answers (in_inventory 2 false) ExternalError eq_refl).
Defined.

Lemma X12_witness :
  data completed_session !! "profile_details" = Some (VStr prior_profile) /\
  (20 <= len prior_profile)%Z /\
  trace (command_profile completed_session).2 =
    [ChatAction; Answer (ProfileText prior_profile) ProfileButtons] /\
  fsm (command_profile completed_session).2 = Some viewing.
Proof.
  assert (H1 : data completed_session !! "profile_details" = Some (VStr prior_profile))
    by (vm_compute; reflexivity).
  assert (H2 : (20 <= len prior_profile)%Z) by (vm_compute; discriminate).
  assert (H3 : truthy (default (VBool false) (data completed_session !! "profile_completed"))
               = true) by (vm_compute; reflexivity).
  split; [exact H1|]. split; [exact H2|].
  destruct (X12_the_display_handlers_send_the_same_parts completed_session prior_profile
              H1 H2 H3) as (_ & _ & Ht & Hf).
  split; [|exact Hf]. rewrite Ht. vm_compute. reflexivity.
Defined.

Lemma X14_witness :
  hashable (VStr creative) = true /\
  truthy VNone = false /\
  exists advice,
    advice ∈ canned_pool (VStr creative) /\
    (get_personalized_advice simple_lower (fun n => n) 5 (VStr creative) VNone
       (VList [VStr first_advice]) idle).1 = Ok advice.
Proof.
  split; [reflexivity|]. split; [reflexivity|].
  destruct (X14_fallback_advice_ignores_the_history simple_lower (fun n => n) 5
              (VStr creative) VNone (VList [VStr first_advice]) idle eq_refl eq_refl)
    as (advice & Hin & Hrun).
  exists advice. split; [exact Hin|]. rewrite Hrun. reflexivity.
Defined.

Lemma X15_witness :
  (5 <= 5)%nat /\
  hashable (default (VStr default_type) (data completed_session !! "personality_type")) = true /\
  exists advice,
    (get_advice_callback simple_lower (fun n => n) 5 completed_session).1 = Ok tt /\
    data (get_advice_callback simple_lower (fun n => n) 5 completed_session).2
      !! "used_advices" = Some (VList [VStr advice]).
Proof.
  assert (H1 : hashable (default (VStr default_type)
                           (data completed_session !! "personality_type")) = true)
    by (vm_compute; reflexivity).
  assert (H2 : default (VStr []) (data completed_session !! "profile_details")
               = VStr prior_profile) by (vm_compute; reflexivity).
  assert (H3 : default (VList []) (data completed_session !! "used_advices") = VList [])
    by (vm_compute; reflexivity).
  split; [exact (le_n 5)|]. split; [exact H1|].
  destruct (X15_advice_history_is_capped simple_lower (fun n => n) 5 completed_session
              prior_profile [] (le_n 5) H1 H2 H3) as (advice & H).
  cbv zeta in H. destruct H as (Hr & _ & Hd & _ & _ & _ & _ & Hroom).
  exists advice. split; [exact Hr|].
  rewrite Hd, lookup_insert_eq, Hroom; [reflexivity|]. cbn [length]. lia.
Defined.

Lemma X16_witness :
  truthy (default (VBool false) (data idle !! "profile_completed")) = false /\
  command_advice simple_lower (fun n => n) 5 idle =
    (Ok tt, World None ∅ [Answer OfferSurveyForAdvice StartSurveyButton] 0).
Proof.
  split; [reflexivity|].
  exact (proj1 (X16_advice_command_requires_a_profile simple_lower (fun n => n) 5 idle)
           eq_refl).
Defined.

Lemma X17_witness :
  creative ∈ known_types /\
  exists advice w' emoji aspect technique outcome place,
    generate_unique_advice simple_lower (fun n => n) 5 (VStr prior_profile)
      (VStr creative) (VList []) idle = (Ok advice, w') /\
    advice = compose simple_lower emoji aspect technique outcome place /\
    emoji ∈ pool emoji_map creative /\
    technique ∈ pool techniques creative.
Proof.
  assert (H1 : creative ∈ known_types) by (apply (bool_decide_unpack _); vm_compute; exact I).
  split; [exact H1|].
  destruct (X17_known_type_uses_its_own_pools simple_lower (fun n => n) 5
              prior_profile creative (VList []) idle (le_n 5) H1 eq_refl)
    as (advice & w' & emoji & aspect & technique & outcome & place &
        Hrun & Hadv & He & Ht & _ & _).
  exists advice, w', emoji, aspect, technique, outcome, place.
  split; [exact Hrun|]. split; [exact Hadv|]. split; [exact He | exact Ht].
Defined.

Lemma sample_replies_are_read :
  Forall2 (reads_as simple_upper) inventory_replies inventory_letters.
Proof.
  repeat constructor; try (vm_compute; discriminate).
  - exists PrefixColon. vm_compute. reflexivity.
  - exists ExactLetter. vm_compute. reflexivity.
  - exists ExactLetter. vm_compute. reflexivity.
Qed.

Lemma sample_inventory_has_options :
  Forall (fun q => is_Some (q_options q)) (loaded_questions (Ok sample_inventory)).
Proof. repeat constructor; eexists; reflexivity. Qed.

Lemma X18_witness :
  Forall2 (reads_as simple_upper) inventory_replies inventory_letters /\
  NoDup (map fst [(utf8 "name", VStr (utf8 "Анна"))] ++
         map q_id (loaded_questions (Ok sample_inventory))) /\
  answering_inventory (in_inventory 0 false) /\
  let w' := run_all (map (fun t => sample_process (Message (Some t))) inventory_replies)
              (in_inventory 0 false) in
  fsm w' = None /\
  data w' !! "answers" =
    Some (VDict [(utf8 "name", VStr (utf8 "Анна")); (utf8 "q1", VStr (utf8 "A"));
                 (utf8 "q2", VStr (utf8 "B")); (utf8 "q3", VStr (utf8 "D"))]) /\
  data w' !! "profile_completed" = Some (VBool true).
Proof.
  assert (H0 : loaded_questions (Ok sample_inventory) <> []) by discriminate.
  assert (H1 : NoDup (map fst [(utf8 "name", VStr (utf8 "Анна"))] ++
                      map q_id (loaded_questions (Ok sample_inventory))))
    by (apply (bool_decide_unpack _); vm_compute; exact I).
  assert (H2 : answering_inventory (in_inventory 0 false))
    by (split; vm_compute; reflexivity).
  assert (H3 : data (in_inventory 0 false) !! "question_index" = Some (VInt 0))
    by (vm_compute; reflexivity).
  assert (H4 : data (in_inventory 0 false) !! "answers"
               = Some (VDict [(utf8 "name", VStr (utf8 "Анна"))]))
    by (vm_compute; reflexivity).
  split; [exact sample_replies_are_read|]. split; [exact H1|]. split; [exact H2|].
  pose proof (X18_answering_the_inventory_completes_the_survey simple_upper sample_demo
                (Ok sample_inventory) sample_classifier gateway_short
                inventory_replies inventory_letters (in_inventory 0 false)
                [(utf8 "name", VStr (utf8 "Анна"))]
                sample_counts (VStr (utf8 "Интеллектуальный")) (VStr (utf8 "Творческий"))
                (Some short_profile)
                H0 sample_inventory_has_options H1 eq_refl sample_replies_are_read
                H2 H3 H4 eq_refl eq_refl) as H.
  cbv zeta in H. destruct H as (Hf & Ha & Hc & _).
  cbv zeta. unfold sample_process. split; [exact Hf|]. split; [exact Ha | exact Hc].
Defined.

Lemma X19_witness :
  truthy (default (VBool false) (data idle !! "profile_completed")) = false /\
  NoDup (map q_id sample_demo ++ map q_id (loaded_questions (Ok sample_inventory))) /\
  Forall (fun m => text_is m CANCEL_SURVEY = false) demo_replies /\
  Forall2 (reads_as simple_upper) inventory_replies inventory_letters /\
  let w' :=
    run_all (start_survey sample_demo ::
             map sample_process demo_replies ++
             sample_process (Message (Some READY)) ::
             map (fun t => sample_process (Message (Some t))) inventory_replies) idle in
  fsm w' = None /\
  data w' !! "answers" =
    Some (VDict [(utf8 "name", VStr (utf8 "Анна")); (utf8 "age", VNone);
                 (utf8 "q1", VStr (utf8 "A")); (utf8 "q2", VStr (utf8 "B"));
                 (utf8 "q3", VStr (utf8 "D"))]) /\
  data w' !! "profile_completed" = Some (VBool true) /\
  data w' !! "profile_details" = Some (VStr short_profile).
Proof.
  assert (H1 : truthy (default (VBool false) (data idle !! "profile_completed")) = false)
    by reflexivity.
  assert (H2 : sample_demo <> []) by discriminate.
  assert (H3 : loaded_questions (Ok sample_inventory) <> []) by discriminate.
  assert (H4 : NoDup (map q_id sample_demo ++
                      map q_id (loaded_questions (Ok sample_inventory))))
    by (apply (bool_decide_unpack _); vm_compute; exact I).
  assert (H5 : Forall (fun m => text_is m CANCEL_SURVEY = false) demo_replies)
    by (repeat constructor).
  assert (H6 : text_is (Message (Some READY)) READY = true) by (vm_compute; reflexivity).
  split; [exact H1|]. split; [exact H4|]. split; [exact H5|].
  split; [exact sample_replies_are_read|].
  pose proof (X19_a_whole_survey_stores_every_answer_in_order simple_upper sample_demo
                (Ok sample_inventory) sample_classifier gateway_short
                idle demo_replies (Message (Some READY)) inventory_replies inventory_letters
                sample_counts (VStr (utf8 "Интеллектуальный")) (VStr (utf8 "Творческий"))
                (Some short_profile)
                H1 H2 H3 sample_inventory_has_options H4 eq_refl H5 H6 eq_refl
                sample_replies_are_read eq_refl eq_refl) as H.
  cbv zeta in H. destruct H as (Hf & Ha & Hc & Hd & _).
  cbv zeta. unfold sample_process.
  split; [exact Hf|]. split; [|split; [exact Hc|]].
  - rewrite Ha. vm_compute. reflexivity.
  - rewrite Hd. reflexivity.
Defined.

Lemma X20_witness :
  hashable (VStr creative) = true /\
  found_keywords simple_lower prior_profile <> [] /\
  exists dominant_type count before after,
    type_counts simple_lower (found_keywords simple_lower prior_profile)
      = before ++ (dominant_type, count) :: after /\
    (forall it, it ∈ before -> (it.2 < count)%nat) /\
    (extract_key_aspects simple_lower (VStr prior_profile) (VStr creative) idle).1 =
      Ok (pool aspects creative ++
          (if differs dominant_type (VStr creative) then pool aspects dominant_type else [])).
Proof.
  assert (H1 : found_keywords simple_lower prior_profile <> [])
    by (vm_compute; discriminate).
  assert (H2 : resolve aspects (VStr creative) (pool aspects default_type)
               = pool aspects creative) by (vm_compute; reflexivity).
  split; [reflexivity|]. split; [exact H1|].
  destruct (X20_dominant_type_is_the_first_with_most_keywords simple_lower
              prior_profile (VStr creative) idle eq_refl H1)
    as (dominant_type & count & before & after & Hsplit & Hb & _ & Hrun).
  exists dominant_type, count, before, after.
  split; [exact Hsplit|]. split; [exact Hb|].
  rewrite Hrun, H2. reflexivity.
Defined.

Lemma X21_witness :
  answering_inventory (in_inventory 1 false) /\
  sample_process (Message None) (in_inventory 1 false) =
    (Raise AttributeError,
     World (Some answering_questions) (data (in_inventory 1 false))
       [Log INFO "Загружено вопросов Vasini"; Log INFO "Получен ответ на вопрос"] 0).
Proof.
  assert (H1 : answering_inventory (in_inventory 1 false))
    by (split; vm_compute; reflexivity).
  assert (H2 : py_index (loaded_questions (Ok sample_inventory))
                 (default (VInt 0) (data (in_inventory 1 false) !! "question_index"))
               = Ok (sample_question "q2" ["A"; "B"])) by (vm_compute; reflexivity).
  split; [exact H1|].
  unfold sample_process.
  rewrite (X21_a_message_without_text_stops_the_inventory simple_upper sample_demo
             (Ok sample_inventory) sample_classifier gateway_short
             (in_inventory 1 false) (sample_question "q2" ["A"; "B"]) H1 H2).
  reflexivity.
Defined.

Lemma X22_witness :
  truthy (default (VBool true) (data (in_inventory 0 true) !! "is_demo_questions")) = false /\
  text_is (Message (Some READY)) CANCEL_SURVEY = false /\
  exists raised,
    (process_survey_answer simple_upper sample_demo (Raise ExternalError)
       sample_classifier gateway_short (Message (Some READY)) (in_inventory 0 true)).1
    = Raise raised.
Proof.
  assert (H1 : truthy (default (VBool true)
                         (data (in_inventory 0 true) !! "is_demo_questions")) = false)
    by (vm_compute; reflexivity).
  assert (H2 : text_is (Message (Some READY)) CANCEL_SURVEY = false)
    by (vm_compute; reflexivity).
  split; [exact H1|]. split; [exact H2|].
  destruct (X22_without_the_inventory_only_cancel_gets_out simple_upper sample_demo
              (Raise ExternalError) sample_classifier gateway_short
              (Message (Some READY)) (in_inventory 0 true) ExternalError eq_refl H1 H2)
    as [raised Hrun].
  exists raised. rewrite Hrun. reflexivity.
Defined.
